(** * Places sensor (custom_components/places/sensor.py)

    A shallow embedding of the place-resolution engine of the [Places]
    sensor entity: the attribute store, the great-circle distance, the
    update gate, the coordinate/distance resolver, the OpenStreetMap
    response parser, the two state formatters and the [do_update]
    orchestrator, followed by the properties checked against them.

    Conventions of the embedding.
    - Python values are the JSON-shaped values the store can hold
      ([value]); a Python [float] is read as a real number, so the
      arithmetic of [haversine] is the arithmetic of [R].
    - A Python [str] is a [string]; the case-mapping and whitespace
      methods act on the ASCII range.
    - [self._internal_attr] is a [gmap string value]; a method of the
      class is a function from the store to either a raised exception or a
      returned value with the new store.
    - The names imported from [const.py] and [homeassistant.const] are
      fields of the class [Consts]; the Home Assistant objects a pass reads
      are fields of the record [env]. *)

From Stdlib Require Import Reals Lra ZArith List Ascii String.
From stdpp Require Import base gmap strings pretty.

Set Warnings "-register-all".
Local Open Scope string_scope.

(** ** Python values *)

Inductive value : Type :=
| VNone
| VBool (b : bool)
| VInt (z : Z)
| VFloat (r : R)
| VStr (s : string)
| VList (l : list value)
| VDict (d : list (string * value)).

(** The exceptions the modelled code can raise. *)
Inductive exn : Type :=
| TypeError
| ValueError
| AttributeError
| IndexError
| UnboundLocalError.

Inductive result (A : Type) : Type :=
| Ok (a : A)
| Raise (e : exn).
Arguments Ok {A} a.
Arguments Raise {A} e.

Definition rbind {A B} (r : result A) (k : A -> result B) : result B :=
  match r with
  | Ok a => k a
  | Raise e => Raise e
  end.

(** ** Strings: the [str] methods the sensor uses *)

Definition is_upper (c : ascii) : bool :=
  let n := nat_of_ascii c in (65 <=? n)%nat && (n <=? 90)%nat.
Definition is_lower (c : ascii) : bool :=
  let n := nat_of_ascii c in (97 <=? n)%nat && (n <=? 122)%nat.
Definition to_lower (c : ascii) : ascii :=
  if is_upper c then ascii_of_nat (nat_of_ascii c + 32) else c.
Definition to_upper (c : ascii) : ascii :=
  if is_lower c then ascii_of_nat (nat_of_ascii c - 32) else c.
(** [str.isspace] on one character: tab, line feed, vertical tab, form
    feed, carriage return, the four separators 0x1c-0x1f and space. *)
Definition is_space (c : ascii) : bool :=
  let n := nat_of_ascii c in
  ((9 <=? n)%nat && (n <=? 13)%nat) || ((28 <=? n)%nat && (n <=? 32)%nat).

Fixpoint str_map (f : ascii -> ascii) (s : string) : string :=
  match s with
  | EmptyString => EmptyString
  | String c s' => String (f c) (str_map f s')
  end.

Definition lower (s : string) : string := str_map to_lower s.
Definition upper (s : string) : string := str_map to_upper s.

Fixpoint lstrip (s : string) : string :=
  match s with
  | String c s' => if is_space c then lstrip s' else s
  | EmptyString => EmptyString
  end.

Fixpoint rstrip (s : string) : string :=
  match s with
  | EmptyString => EmptyString
  | String c s' =>
      match rstrip s' with
      | EmptyString => if is_space c then EmptyString else String c EmptyString
      | t => String c t
      end
  end.

Definition strip (s : string) : string := rstrip (lstrip s).

(** [str.title]: the first letter of every run of letters in upper case,
    the other letters of the run in lower case. *)
Fixpoint title_from (prev_cased : bool) (s : string) : string :=
  match s with
  | EmptyString => EmptyString
  | String c s' =>
      if is_lower c then
        String (if prev_cased then c else to_upper c) (title_from true s')
      else if is_upper c then
        String (if prev_cased then to_lower c else c) (title_from true s')
      else String c (title_from false s')
  end.
Definition title (s : string) : string := title_from false s.

Definition startswith (s p : string) : bool := String.prefix p s.

(** [s[:n]] and [s[n:]] for [n >= 0]. *)
Fixpoint take_str (n : nat) (s : string) : string :=
  match n, s with
  | S n', String c s' => String c (take_str n' s')
  | _, _ => EmptyString
  end.
Fixpoint drop_str (n : nat) (s : string) : string :=
  match n, s with
  | S n', String _ s' => drop_str n' s'
  | _, _ => s
  end.
(** [s[:-n]] for [n > 0]. *)
Definition drop_last (n : nat) (s : string) : string :=
  take_str (String.length s - n) s.

(** [sub in s] on two strings. *)
Fixpoint contains (s sub : string) : bool :=
  String.prefix sub s ||
  match s with
  | EmptyString => false
  | String _ s' => contains s' sub
  end.

(** [s.find(sub)]: the index of the first occurrence, or -1. *)
Fixpoint find_from (i : Z) (s sub : string) : Z :=
  if String.prefix sub s then i
  else match s with
       | EmptyString => (-1)%Z
       | String _ s' => find_from (i + 1)%Z s' sub
       end.
Definition find (s sub : string) : Z := find_from 0%Z s sub.

(** [s.replace(old, new)] for a non-empty [old]: the occurrences are
    replaced from left to right, [skip] counts the characters of an
    occurrence still to be passed over. *)
Fixpoint replace_from (skip : nat) (old new s : string) : string :=
  match s with
  | EmptyString => EmptyString
  | String c s' =>
      match skip with
      | S k => replace_from k old new s'
      | O =>
          if String.prefix old s
          then new ++ replace_from (String.length old - 1) old new s'
          else String c (replace_from 0 old new s')
      end
  end.
Definition replace (old new s : string) : string := replace_from 0 old new s.

(** [s.split(sep)] for a non-empty [sep]; [cur] is the piece being read. *)
Fixpoint split_from (skip : nat) (sep cur s : string) : list string :=
  match s with
  | EmptyString => [cur]
  | String c s' =>
      match skip with
      | S k => split_from k sep cur s'
      | O =>
          if String.prefix sep s
          then cur :: split_from (String.length sep - 1) sep EmptyString s'
          else split_from 0 sep (cur ++ String c EmptyString) s'
      end
  end.
Definition split (sep s : string) : list string := split_from 0 sep EmptyString s.

(** [sep.join(items)]. *)
Definition join (sep : string) (items : list string) : string :=
  String.concat sep items.

(** ** Python operators on values *)

Definition Reqb (x y : R) : bool := if Req_dec_T x y then true else false.
Definition Rltb (x y : R) : bool := if Rlt_dec x y then true else false.
Definition Rleb (x y : R) : bool := if Rle_dec x y then true else false.

(** The number a [bool], [int] or [float] denotes. *)
Definition as_real (v : value) : option R :=
  match v with
  | VBool b => Some (if b then 1%R else 0%R)
  | VInt z => Some (IZR z)
  | VFloat r => Some r
  | _ => None
  end.

(** [bool(v)]. *)
Definition truthy (v : value) : bool :=
  match v with
  | VNone => false
  | VBool b => b
  | VInt z => negb (z =? 0)%Z
  | VFloat r => negb (Reqb r 0)
  | VStr s => negb (String.eqb s "")
  | VList l => match l with [] => false | _ => true end
  | VDict d => match d with [] => false | _ => true end
  end.

(** A JSON object is kept as the list of its entries, keys distinct. *)
Fixpoint assoc (k : string) (d : list (string * value)) : option value :=
  match d with
  | [] => None
  | (k', v) :: d' => if String.eqb k k' then Some v else assoc k d'
  end.

(** [a == b]: numbers compare by value across [bool], [int] and [float],
    containers element by element. *)
Fixpoint py_eq (a b : value) : bool :=
  match a with
  | VNone => match b with VNone => true | _ => false end
  | VStr s => match b with VStr t => String.eqb s t | _ => false end
  | VList l =>
      match b with
      | VList m =>
          (fix go (l m : list value) {struct l} : bool :=
             match l, m with
             | [], [] => true
             | x :: l', y :: m' => py_eq x y && go l' m'
             | _, _ => false
             end) l m
      | _ => false
      end
  | VDict d =>
      match b with
      | VDict e =>
          (length d =? length e)%nat &&
          (fix go (d : list (string * value)) {struct d} : bool :=
             match d with
             | [] => true
             | (k, v) :: d' =>
                 match assoc k e with
                 | Some w => py_eq v w
                 | None => false
                 end && go d'
             end) d
      | _ => false
      end
  | VBool _ | VInt _ | VFloat _ =>
      match as_real a, as_real b with
      | Some x, Some y => Reqb x y
      | _, _ => false
      end
  end.

Definition hashable (v : value) : bool :=
  match v with
  | VList _ | VDict _ => false
  | _ => true
  end.

(** [x in c]. *)
Definition py_in (x c : value) : result bool :=
  match c with
  | VDict d =>
      match x with
      | VStr k => Ok (match assoc k d with Some _ => true | None => false end)
      | _ => if hashable x then Ok false else Raise TypeError
      end
  | VList l => Ok (existsb (py_eq x) l)
  | VStr s =>
      match x with
      | VStr t => Ok (contains s t)
      | _ => Raise TypeError
      end
  | _ => Raise TypeError
  end.

(** [c.get(k)], the method of [dict]. *)
Definition dict_get (c k : value) : result value :=
  match c with
  | VDict d =>
      match k with
      | VStr key => Ok (match assoc key d with Some v => v | None => VNone end)
      | _ => if hashable k then Ok VNone else Raise TypeError
      end
  | _ => Raise AttributeError
  end.

(** The receiver of a [str] method. *)
Definition as_str (v : value) : result string :=
  match v with
  | VStr s => Ok s
  | _ => Raise AttributeError
  end.

(** The operand of ["..." + v]. *)
Definition concat_operand (v : value) : result string :=
  match v with
  | VStr s => Ok s
  | _ => Raise TypeError
  end.

(** [int(x)] on a real: truncation towards zero. *)
Definition py_trunc (r : R) : Z :=
  if Rle_dec 0 r then Int_part r else (- Int_part (- r))%Z.

(** [round(x, n)] on a real: to the nearest multiple of [10^-n], a tie to
    the even one. *)
Definition round_half_even (y : R) : Z :=
  let f := Int_part y in
  let frac := (y - IZR f)%R in
  if Rlt_dec frac (1 / 2) then f
  else if Rlt_dec (1 / 2) frac then (f + 1)%Z
  else if Z.even f then f else (f + 1)%Z.

Definition round_real (x : R) (n : nat) : R :=
  (IZR (round_half_even (x * 10 ^ n)) / 10 ^ n)%R.

(** [round(v, n)] with [n > 0]. *)
Definition py_round (v : value) (n : nat) : result value :=
  match v with
  | VFloat r => Ok (VFloat (round_real r n))
  | VInt z => Ok (VInt z)
  | VBool b => Ok (VInt (if b then 1 else 0))
  | _ => Raise TypeError
  end.

(** [v / k] for an [int] literal [k <> 0]. *)
Definition py_div (v : value) (k : Z) : result value :=
  match as_real v with
  | Some x => Ok (VFloat (x / IZR k))
  | None => Raise TypeError
  end.

(** [v + 1]. *)
Definition py_add_one (v : value) : result value :=
  match v with
  | VInt z => Ok (VInt (z + 1))
  | VBool b => Ok (VInt ((if b then 1 else 0) + 1))
  | VFloat r => Ok (VFloat (r + 1))
  | _ => Raise TypeError
  end.

(** [a < b]: numbers by value, strings and lists lexicographically, a
    [TypeError] for every other pair. [a > b] is [py_lt b a]. *)
Fixpoint py_lt (a b : value) : result bool :=
  match a with
  | VStr s =>
      match b with
      | VStr t => Ok (String.ltb s t)
      | _ => Raise TypeError
      end
  | VList l =>
      match b with
      | VList m =>
          (fix go (l m : list value) {struct l} : result bool :=
             match l, m with
             | [], [] => Ok false
             | [], _ :: _ => Ok true
             | _ :: _, [] => Ok false
             | x :: l', y :: m' => if py_eq x y then go l' m' else py_lt x y
             end) l m
      | _ => Raise TypeError
      end
  | _ =>
      match as_real a, as_real b with
      | Some x, Some y => Ok (Rltb x y)
      | _, _ => Raise TypeError
      end
  end.
Definition py_gt (a b : value) : result bool := py_lt b a.

(** The built-ins whose results depend on the text of a number: [float]
    and [int] of a [str] ([None] for a [ValueError]), and [str] of a
    [float], a [list] or a [dict]. *)
Class Builtins : Type := {
  float_of_str : string -> option R;
  int_of_str : string -> option Z;
  repr : value -> string
}.

Section Conversions.
Context {B : Builtins}.

(** [float(v)]. *)
Definition py_float (v : value) : result R :=
  match v with
  | VFloat r => Ok r
  | VInt z => Ok (IZR z)
  | VBool b => Ok (if b then 1%R else 0%R)
  | VStr s =>
      match float_of_str s with
      | Some r => Ok r
      | None => Raise ValueError
      end
  | _ => Raise TypeError
  end.

(** [int(v)]. *)
Definition py_int (v : value) : result Z :=
  match v with
  | VInt z => Ok z
  | VBool b => Ok (if b then 1 else 0)%Z
  | VFloat r => Ok (py_trunc r)
  | VStr s =>
      match int_of_str s with
      | Some z => Ok z
      | None => Raise ValueError
      end
  | _ => Raise TypeError
  end.

(** [str(v)]. *)
Definition py_str (v : value) : string :=
  match v with
  | VStr s => s
  | VNone => "None"
  | VBool true => "True"
  | VBool false => "False"
  | VInt z => pretty z
  | _ => repr v
  end.

(** [is_float]: only the [ValueError] of [float] is caught. *)
Definition is_float (v : value) : result bool :=
  match v with
  | VNone => Ok false
  | _ =>
      match py_float v with
      | Ok _ => Ok true
      | Raise ValueError => Ok false
      | Raise e => Raise e
      end
  end.
End Conversions.

(** ** The names of [const.py] and [homeassistant.const]

    The module that defines the attribute names is not part of the
    sources at hand, so every name is a field: the functions below are
    the code for any values of these names. *)
Class Consts : Type := {
  ATTR_FRIENDLY_NAME : string;
  ATTR_GPS_ACCURACY : string;
  CONF_API_KEY : string;
  CONF_LATITUDE : string;
  CONF_LONGITUDE : string;
  CONF_NAME : string;
  CONF_ZONE : string;
  ATTR_CITY : string;
  ATTR_COUNTRY : string;
  ATTR_COUNTY : string;
  ATTR_DEVICETRACKER_ZONE : string;
  ATTR_DEVICETRACKER_ZONE_NAME : string;
  ATTR_DIRECTION_OF_TRAVEL : string;
  ATTR_DISPLAY_OPTIONS : string;
  ATTR_DISTANCE_FROM_HOME_KM : string;
  ATTR_DISTANCE_FROM_HOME_M : string;
  ATTR_DISTANCE_FROM_HOME_MI : string;
  ATTR_DISTANCE_TRAVELED_M : string;
  ATTR_DISTANCE_TRAVELED_MI : string;
  ATTR_FORMATTED_ADDRESS : string;
  ATTR_FORMATTED_PLACE : string;
  ATTR_HOME_LATITUDE : string;
  ATTR_HOME_LOCATION : string;
  ATTR_HOME_LONGITUDE : string;
  ATTR_INITIAL_UPDATE : string;
  ATTR_IS_DRIVING : string;
  ATTR_LAST_CHANGED : string;
  ATTR_LAST_PLACE_NAME : string;
  ATTR_LAST_UPDATED : string;
  ATTR_LATITUDE : string;
  ATTR_LATITUDE_OLD : string;
  ATTR_LOCATION_CURRENT : string;
  ATTR_LOCATION_PREVIOUS : string;
  ATTR_LONGITUDE : string;
  ATTR_LONGITUDE_OLD : string;
  ATTR_MAP_LINK : string;
  ATTR_NATIVE_VALUE : string;
  ATTR_OPTIONS : string;
  ATTR_OSM_DETAILS_DICT : string;
  ATTR_OSM_DICT : string;
  ATTR_OSM_ID : string;
  ATTR_OSM_TYPE : string;
  ATTR_PLACE_CATEGORY : string;
  ATTR_PLACE_NAME : string;
  ATTR_PLACE_NEIGHBOURHOOD : string;
  ATTR_PLACE_TYPE : string;
  ATTR_POSTAL_CODE : string;
  ATTR_POSTAL_TOWN : string;
  ATTR_PREVIOUS_STATE : string;
  ATTR_REGION : string;
  ATTR_STATE_ABBR : string;
  ATTR_STREET : string;
  ATTR_STREET_NUMBER : string;
  ATTR_STREET_REF : string;
  ATTR_UPDATES_SKIPPED : string;
  ATTR_WIKIDATA_DICT : string;
  ATTR_WIKIDATA_ID : string;
  CONF_DEVICETRACKER_ID : string;
  CONF_EXTENDED_ATTR : string;
  CONF_HOME_ZONE : string;
  CONF_LANGUAGE : string;
  CONF_MAP_PROVIDER : string;
  CONF_MAP_ZOOM : string;
  CONF_OPTIONS : string;
  CONF_SHOW_TIME : string;
  EVENT_ATTRIBUTE_LIST : list string;
  EXTENDED_ATTRIBUTE_LIST : list string;
  PLACE_NAME_DUPLICATE_LIST : list string;
  RESET_ATTRIBUTE_LIST : list string
}.

(** ** The attribute store *)

Definition lookup_value (attr : string) (s : gmap string value) : value :=
  default VNone (s !! attr).

(** The test of [is_attr_blank] on the stored value: neither truthy nor
    equal to zero. *)
Definition blank_value (v : value) : bool :=
  negb (truthy v || py_eq v (VInt 0)).

Definition is_attr_blank (attr : string) (s : gmap string value) : bool :=
  blank_value (lookup_value attr s).

(** [get_attr(attr)], the default left at [None]. *)
Definition get_attr (attr : string) (s : gmap string value) : value :=
  if is_attr_blank attr s then VNone else lookup_value attr s.

Definition set_attr (attr : string) (v : value) (s : gmap string value)
  : gmap string value := <[attr := v]> s.

Definition clear_attr (attr : string) (s : gmap string value)
  : gmap string value := delete attr s.

Definition cleanup_attributes (s : gmap string value) : gmap string value :=
  filter (fun kv : string * value => blank_value kv.2 = false) s.

(** ** Methods: state passing with exceptions *)

Definition M (A : Type) : Type := gmap string value -> result (A * gmap string value).

Definition ret {A} (a : A) : M A := fun s => Ok (a, s).
Definition bind {A B} (m : M A) (k : A -> M B) : M B :=
  fun s => match m s with
           | Ok (a, s') => k a s'
           | Raise e => Raise e
           end.
Definition raise {A} (e : exn) : M A := fun _ => Raise e.
(** Evaluate an expression that reads the store. *)
Definition read {A} (f : gmap string value -> A) : M A := fun s => Ok (f s, s).
Definition read_r {A} (f : gmap string value -> result A) : M A :=
  fun s => match f s with
           | Ok a => Ok (a, s)
           | Raise e => Raise e
           end.
(** Run a statement that updates the store. *)
Definition write (f : gmap string value -> gmap string value) : M unit :=
  fun s => Ok (tt, f s).
Definition when (b : bool) (m : M unit) : M unit := if b then m else ret tt.

Declare Scope py_scope.
Delimit Scope py_scope with py.
Notation "'let*' x ':=' m 'in' k" := (bind m (fun x => k))
  (at level 10, x name, m at level 100, k at level 200) : py_scope.
Notation "'let+' x ':=' r 'in' k" := (rbind r (fun x => k))
  (at level 10, x name, r at level 100, k at level 200) : py_scope.
Local Open Scope py_scope.

(** ** What a pass reads from outside the class *)

(** A state object of the Home Assistant state machine. *)
Record hass_state : Type := {
  st_state : string;
  st_name : string;
  st_attributes : list (string * value)
}.

(** What [requests.get(url)] does: one of the four [except] clauses of
    [get_dict_from_url], or a response with its truth value and text. *)
Inductive fetch_outcome : Type :=
| FetchTimeout
| FetchOSError
| FetchNewConnectionError
| FetchException
| FetchResponse (ok : bool) (text : string).

Record env : Type := {
  (** [str(now)], [now.hour] and [now.minute] of [now = datetime.now()] *)
  now_str : string;
  now_hour : nat;
  now_minute : nat;
  (** [self.entity_id], when the attribute exists and is not [None] *)
  entity_id : option string;
  (** [self._hass.states.get] *)
  hass_states_get : value -> result (option hass_state);
  (** [requests.get] and [json.loads] ([None] for a [JSONDecodeError]) *)
  requests_get : string -> fetch_outcome;
  json_loads : string -> option value;
  (** [homeassistant.util.location.distance], in meters or [None] *)
  distance : R -> R -> R -> R -> option R;
  (** whether writing the JSON file raises *)
  json_dump_raises : bool
}.

(** ** Geo-math *)

Definition radians (x : R) : R := (x * (PI / 180))%R.

Definition haversine (lon1 lat1 lon2 lat2 : R) : R :=
  let lon1 := radians lon1 in
  let lat1 := radians lat1 in
  let lon2 := radians lon2 in
  let lat2 := radians lat2 in
  let dlon := (lon2 - lon1)%R in
  let dlat := (lat2 - lat1)%R in
  let a := (sin (dlat / 2) ^ 2 + cos lat1 * cos lat2 * sin (dlon / 2) ^ 2)%R in
  let c := (2 * asin (sqrt a))%R in
  let r := 6371%R in
  (c * r)%R.

(** ** What a pass did

    [do_update] returns nothing; the result of its model names the branch
    that ran, with the value assigned to [self._attr_native_value] and the
    event fired when the pass commits. *)
Inductive decline : Type :=
| MissingCoordinates   (* [update_coordinates_and_distance] returned [False] *)
| GateClosed           (* [determine_if_update_needed] returned [False] *)
| ZoneBlank.           (* the devicetracker zone is blank *)

Inductive outcome : Type :=
| Committed (native : value) (event : gmap string value)
| RevertedUnchanged
| RevertedDeclined (why : decline)
| LeftWithoutData.     (* the fetched dictionary is blank: neither branch *)

Section Sensor.
Context {B : Builtins} {K : Consts}.

(** The prefix ["(" + self.get_attr(CONF_NAME) + ")"] of every log
    message: a [TypeError] unless the name is a non-blank string. *)
Definition log_name : M unit :=
  fun s => match get_attr CONF_NAME s with
           | VStr _ => Ok (tt, s)
           | _ => Raise TypeError
           end.

Definition attr (k : string) : M value := read (get_attr k).
Definition blank (k : string) : M bool := read (is_attr_blank k).
Definition set (k : string) (v : value) : M unit := write (set_attr k v).
Definition float_attr (k : string) : M R :=
  read_r (fun s => py_float (get_attr k s)).

Definition in_zone (s : gmap string value) : result bool :=
  if negb (is_attr_blank ATTR_DEVICETRACKER_ZONE s) then
    let+ z := as_str (get_attr ATTR_DEVICETRACKER_ZONE s) in
    if contains (lower z) "stationary"
       || String.eqb (lower z) "away"
       || String.eqb (lower z) "not_home"
       || String.eqb (lower z) "notset"
    then Ok false
    else Ok true
  else Ok false.

(** *** Update gate *)

Definition determine_if_update_needed : M bool :=
  let* accuracy_zero :=
    read (fun s => negb (is_attr_blank ATTR_GPS_ACCURACY s)
                   && py_eq (get_attr ATTR_GPS_ACCURACY s) (VInt 0)) in
  if accuracy_zero then
    let* _ := log_name in ret false
  else
    let* initial := read (fun s => truthy (get_attr ATTR_INITIAL_UPDATE s)) in
    if initial then
      let* _ := log_name in ret true
    else
      let* same :=
        read (fun s => py_eq (get_attr ATTR_LOCATION_CURRENT s)
                             (get_attr ATTR_LOCATION_PREVIOUS s)) in
      if same then
        let* _ := log_name in ret false
      else
        let* forced :=
          read_r (fun s =>
                    let+ d := py_int (get_attr ATTR_DISTANCE_TRAVELED_M s) in
                    if (0 <? d)%Z
                    then py_gt (get_attr ATTR_UPDATES_SKIPPED s) (VInt 3)
                    else Ok false) in
        if forced then
          let* _ := log_name in ret true
        else
          let* d := read_r (fun s => py_int (get_attr ATTR_DISTANCE_TRAVELED_M s)) in
          if (d <? 10)%Z then
            let* k := read_r (fun s => py_add_one (get_attr ATTR_UPDATES_SKIPPED s)) in
            let* _ := set ATTR_UPDATES_SKIPPED k in
            let* _ := log_name in
            let* _ := read_r (fun s => py_round (get_attr ATTR_DISTANCE_TRAVELED_M s) 1) in
            ret false
          else ret true.

(** *** Coordinate and distance resolver *)

(** [set_attr(target, str(get_attr(a)) + "," + str(get_attr(b)))] when
    neither is blank. *)
Definition set_location (a b target : string) : M unit :=
  let* have := read (fun s => negb (is_attr_blank a s) && negb (is_attr_blank b s)) in
  when have
    (let* x := attr a in
     let* y := attr b in
     set target (VStr (py_str x ++ "," ++ py_str y))).

Definition option_value (o : option R) : value :=
  match o with
  | Some r => VFloat r
  | None => VNone
  end.

(** [set_attr(target, round(get_attr(source) / k, 3))]. *)
Definition set_scaled (source target : string) (k : Z) : M unit :=
  let* q := read_r (fun s => py_div (get_attr source s) k) in
  let* r := read_r (fun _ => py_round q 3) in
  set target r.

Definition update_coordinates_and_distance (E : env) : M bool :=
  let* last_distance_m := attr ATTR_DISTANCE_FROM_HOME_M in
  let* _ := set_location ATTR_LATITUDE ATTR_LONGITUDE ATTR_LOCATION_CURRENT in
  let* _ := set_location ATTR_LATITUDE_OLD ATTR_LONGITUDE_OLD ATTR_LOCATION_PREVIOUS in
  let* _ := set_location ATTR_HOME_LATITUDE ATTR_HOME_LONGITUDE ATTR_HOME_LOCATION in
  let* _ := log_name in
  let* zone := read_r in_zone in
  let* _ :=
    if negb zone then
      let* no_place := blank ATTR_PLACE_NAME in
      if negb no_place then
        let* p := attr ATTR_PLACE_NAME in
        let* _ := set ATTR_LAST_PLACE_NAME p in
        log_name
      else log_name
    else
      let* z := attr ATTR_DEVICETRACKER_ZONE_NAME in
      let* _ := set ATTR_LAST_PLACE_NAME z in
      log_name in
  let* _ := log_name in
  let* have :=
    read (fun s => negb (is_attr_blank ATTR_LATITUDE s)
                   && negb (is_attr_blank ATTR_LONGITUDE s)
                   && negb (is_attr_blank ATTR_HOME_LATITUDE s)
                   && negb (is_attr_blank ATTR_HOME_LONGITUDE s)) in
  if have then
    let* lat := float_attr ATTR_LATITUDE in
    let* lon := float_attr ATTR_LONGITUDE in
    let* hlat := float_attr ATTR_HOME_LATITUDE in
    let* hlon := float_attr ATTR_HOME_LONGITUDE in
    let* _ := set ATTR_DISTANCE_FROM_HOME_M (option_value (distance E lat lon hlat hlon)) in
    let* no_distance := blank ATTR_DISTANCE_FROM_HOME_M in
    let* _ :=
      when (negb no_distance)
        (let* _ := set_scaled ATTR_DISTANCE_FROM_HOME_M ATTR_DISTANCE_FROM_HOME_KM 1000 in
         set_scaled ATTR_DISTANCE_FROM_HOME_M ATTR_DISTANCE_FROM_HOME_MI 1609) in
    let* have_old :=
      read (fun s => negb (is_attr_blank ATTR_LATITUDE_OLD s)
                     && negb (is_attr_blank ATTR_LONGITUDE_OLD s)) in
    let* _ :=
      if have_old then
        let* a1 := float_attr ATTR_LATITUDE_OLD in
        let* a2 := float_attr ATTR_LONGITUDE_OLD in
        let* a3 := float_attr ATTR_LATITUDE in
        let* a4 := float_attr ATTR_LONGITUDE in
        let deviation := haversine a1 a2 a3 a4 in
        if Rleb deviation (2 / 10) then
          set ATTR_DIRECTION_OF_TRAVEL (VStr "stationary")
        else
          let* nearer :=
            read_r (fun s => py_gt last_distance_m (get_attr ATTR_DISTANCE_FROM_HOME_M s)) in
          if nearer then set ATTR_DIRECTION_OF_TRAVEL (VStr "towards home")
          else
            let* farther :=
              read_r (fun s => py_lt last_distance_m (get_attr ATTR_DISTANCE_FROM_HOME_M s)) in
            if farther then set ATTR_DIRECTION_OF_TRAVEL (VStr "away from home")
            else set ATTR_DIRECTION_OF_TRAVEL (VStr "stationary")
      else set ATTR_DIRECTION_OF_TRAVEL (VStr "stationary") in
    let* _ := log_name in
    (* "Distance from home [" + get_attr(CONF_HOME_ZONE).split(".")[1] + ... *)
    let* _ :=
      read_r (fun s =>
                let+ z := as_str (get_attr CONF_HOME_ZONE s) in
                match split "." z with
                | _ :: part :: _ => Ok part
                | _ => Raise IndexError
                end) in
    let* _ := set ATTR_DISTANCE_TRAVELED_M (VInt 0) in
    let* have_old :=
      read (fun s => negb (is_attr_blank ATTR_LATITUDE_OLD s)
                     && negb (is_attr_blank ATTR_LONGITUDE_OLD s)) in
    let* _ :=
      when have_old
        (let* lat := float_attr ATTR_LATITUDE in
         let* lon := float_attr ATTR_LONGITUDE in
         let* olat := float_attr ATTR_LATITUDE_OLD in
         let* olon := float_attr ATTR_LONGITUDE_OLD in
         let* _ := set ATTR_DISTANCE_TRAVELED_M (option_value (distance E lat lon olat olon)) in
         let* no_travel := blank ATTR_DISTANCE_TRAVELED_M in
         when (negb no_travel)
           (set_scaled ATTR_DISTANCE_TRAVELED_M ATTR_DISTANCE_TRAVELED_MI 1609)) in
    let* _ := log_name in
    let* _ := read_r (fun s => py_round (get_attr ATTR_DISTANCE_TRAVELED_M s) 1) in
    ret true
  else
    let* _ := log_name in
    ret false.
(** *** Fetching a dictionary *)

Definition get_dict_from_url (E : env) (url : string) : M value :=
  let finish (get_dict : value) : M value :=
    let* error := read_r (fun _ => py_in (VStr "error_message") get_dict) in
    if error then
      (* ... + str(get_dict.get("error_message")) *)
      let* _ := log_name in
      let* _ := read_r (fun _ => dict_get get_dict (VStr "error_message")) in
      ret (VDict [])
    else ret get_dict in
  let* _ := log_name in
  match requests_get E url with
  | FetchTimeout | FetchOSError | FetchNewConnectionError | FetchException =>
      let* _ := log_name in ret (VDict [])
  | FetchResponse ok text =>
      let get_json_input := if ok then VStr text else VDict [] in
      let* _ := when ok log_name in
      if truthy get_json_input then
        match json_loads E text with
        | Some parsed => finish parsed
        | None => let* _ := log_name in ret (VDict [])
        end
      else finish (VDict [])
  end.

(** *** Parsing the OpenStreetMap response *)

(** [key in self.get_attr(ATTR_OSM_DICT)] and
    [self.get_attr(ATTR_OSM_DICT).get(key)]. *)
Definition osm_has (key : string) : M bool :=
  read_r (fun s => py_in (VStr key) (get_attr ATTR_OSM_DICT s)).
Definition osm_get (key : string) : M value :=
  read_r (fun s => dict_get (get_attr ATTR_OSM_DICT s) (VStr key)).
(** [x in self.get_attr(ATTR_OSM_DICT).get(sub)] and
    [self.get_attr(ATTR_OSM_DICT).get(sub).get(x)]. *)
Definition sub_has (sub : string) (x : value) : M bool :=
  read_r (fun s =>
            let+ d := dict_get (get_attr ATTR_OSM_DICT s) (VStr sub) in
            py_in x d).
Definition sub_get (sub : string) (x : value) : M value :=
  read_r (fun s =>
            let+ d := dict_get (get_attr ATTR_OSM_DICT s) (VStr sub) in
            dict_get d x).

(** [if key in address: set_attr(target, address.get(key))]; the result
    tells whether the branch ran. *)
Definition copy_address (key target : string) : M bool :=
  let* has := sub_has "address" (VStr key) in
  if has then
    let* v := sub_get "address" (VStr key) in
    let* _ := set target v in
    ret true
  else ret false.

(** The [if]/[elif] chain over the keys of [address]. *)
Fixpoint copy_first_address (keys : list string) (target : string) : M unit :=
  match keys with
  | [] => ret tt
  | key :: rest =>
      let* done := copy_address key target in
      if done then ret tt else copy_first_address rest target
  end.

Fixpoint language_loop (languages : list string) : M unit :=
  match languages with
  | [] => ret tt
  | language :: rest =>
      let* has := sub_has "namedetails" (VStr ("name:" ++ language)) in
      if has then
        let* v := sub_get "namedetails" (VStr ("name:" ++ language)) in
        set ATTR_PLACE_NAME v
      else language_loop rest
  end.

(** [v[:n]] on a value. *)
Definition py_slice_to (v : value) (n : Z) : result value :=
  match v with
  | VStr s =>
      Ok (VStr (if (0 <=? n)%Z then take_str (Z.to_nat n) s
                else drop_last (Z.to_nat (- n)) s))
  | VList l =>
      Ok (VList (if (0 <=? n)%Z then take (Z.to_nat n) l
                 else take (length l - Z.to_nat (- n)) l))
  | _ => Raise TypeError
  end.

(** [v[n:]] on a value, [n >= 0]. *)
Definition py_slice_from (v : value) (n : nat) : result value :=
  match v with
  | VStr s => Ok (VStr (drop_str n s))
  | VList l => Ok (VList (drop n l))
  | _ => Raise TypeError
  end.

Definition exclude_chars : list string := [","; "\"; "/"; ";"; ":"].

(** [[c in street_ref for c in exclude_chars]]. *)
Fixpoint chars_in (chars : list string) (street_ref : value) : result (list bool) :=
  match chars with
  | [] => Ok []
  | c :: rest =>
      let+ b := py_in (VStr c) street_ref in
      let+ bs := chars_in rest street_ref in
      Ok (b :: bs)
  end.

(** The loop that fills [lowest_nums]: the walrus binds [find_num] to the
    value of the comparison [street_ref.find(char) != -1], and
    [int(find_num)] is appended when it is true. *)
Fixpoint lowest_nums_loop (chars : list string) (street_ref : value) : result (list Z) :=
  match chars with
  | [] => Ok []
  | char :: rest =>
      let+ r := as_str street_ref in
      let find_num := negb (find r char =? -1)%Z in
      let+ nums := lowest_nums_loop rest street_ref in
      Ok (if find_num then Z.b2z find_num :: nums else nums)
  end.

(** [min(nums)]. *)
Definition py_min (nums : list Z) : result Z :=
  match nums with
  | [] => Raise ValueError
  | n :: rest => Ok (fold_left Z.min rest n)
  end.

Definition parse_osm_dict : M unit :=
  let* has_type := osm_has "type" in
  let* _ :=
    when has_type
      (let* t := osm_get "type" in
       let* _ := set ATTR_PLACE_TYPE t in
       let* yes := read (fun s => py_eq (get_attr ATTR_PLACE_TYPE s) (VStr "yes")) in
       let* _ :=
         when yes
           (let* t := osm_get "addresstype" in set ATTR_PLACE_TYPE t) in
       let* t := attr ATTR_PLACE_TYPE in
       let* named := sub_has "address" t in
       when named
         (let* t := attr ATTR_PLACE_TYPE in
          let* v := sub_get "address" t in
          set ATTR_PLACE_NAME v)) in
  let* has_category := osm_has "category" in
  let* _ :=
    when has_category
      (let* c := osm_get "category" in
       let* _ := set ATTR_PLACE_CATEGORY c in
       let* c := attr ATTR_PLACE_CATEGORY in
       let* named := sub_has "address" c in
       when named
         (let* c := attr ATTR_PLACE_CATEGORY in
          let* v := sub_get "address" c in
          set ATTR_PLACE_NAME v)) in
  let* has_name := sub_has "namedetails" (VStr "name") in
  let* _ :=
    when has_name
      (let* v := sub_get "namedetails" (VStr "name") in set ATTR_PLACE_NAME v) in
  let* no_language := blank CONF_LANGUAGE in
  let* _ :=
    when (negb no_language)
      (let* l := read_r (fun s => as_str (get_attr CONF_LANGUAGE s)) in
       language_loop (split "," l)) in
  let* zone := read_r in_zone in
  let* house := read (fun s => py_eq (get_attr ATTR_PLACE_NAME s) (VStr "house")) in
  let* _ :=
    when (negb zone && negb house)
      (let* p := attr ATTR_PLACE_NAME in set ATTR_NATIVE_VALUE p) in
  let* _ := copy_address "house_number" ATTR_STREET_NUMBER in
  let* _ := copy_address "road" ATTR_STREET in
  let* _ := copy_first_address ["neighbourhood"; "hamlet"] ATTR_PLACE_NEIGHBOURHOOD in
  let* _ :=
    copy_first_address
      ["city"; "town"; "village"; "township"; "municipality"; "city_district"]
      ATTR_CITY in
  let* city_of :=
    read_r (fun s =>
              if negb (is_attr_blank ATTR_CITY s) then
                let+ c := as_str (get_attr ATTR_CITY s) in
                Ok (startswith c "City of")
              else Ok false) in
  let* _ :=
    when city_of
      (let* rest := read_r (fun s => py_slice_from (get_attr ATTR_CITY s) 8) in
       let* r := read_r (fun _ => concat_operand rest) in
       set ATTR_CITY (VStr (r ++ " City"))) in
  let* _ := copy_address "city_district" ATTR_POSTAL_TOWN in
  let* _ := copy_address "suburb" ATTR_POSTAL_TOWN in
  let* _ := copy_address "state" ATTR_REGION in
  let* has_iso := sub_has "address" (VStr "ISO3166-2-lvl4") in
  let* _ :=
    when has_iso
      (let* v := sub_get "address" (VStr "ISO3166-2-lvl4") in
       let* code :=
         read_r (fun _ =>
                   let+ iso := as_str v in
                   match split "-" iso with
                   | _ :: part :: _ => Ok (upper part)
                   | _ => Raise IndexError
                   end) in
       set ATTR_STATE_ABBR (VStr code)) in
  let* _ := copy_address "county" ATTR_COUNTY in
  let* _ := copy_address "country" ATTR_COUNTRY in
  let* _ := copy_address "postcode" ATTR_POSTAL_CODE in
  let* has_display := osm_has "display_name" in
  let* _ :=
    when has_display
      (let* v := osm_get "display_name" in set ATTR_FORMATTED_ADDRESS v) in
  let* has_id := osm_has "osm_id" in
  let* _ :=
    when has_id
      (let* v := osm_get "osm_id" in set ATTR_OSM_ID (VStr (py_str v))) in
  let* has_osm_type := osm_has "osm_type" in
  let* _ :=
    when has_osm_type
      (let* v := osm_get "osm_type" in set ATTR_OSM_TYPE v) in
  let* no_category := blank ATTR_PLACE_CATEGORY in
  let* highway_ref :=
    if negb no_category then
      let* c := read_r (fun s => as_str (get_attr ATTR_PLACE_CATEGORY s)) in
      if String.eqb (lower c) "highway" then
        let* has_details := osm_has "namedetails" in
        if has_details then sub_has "namedetails" (VStr "ref") else ret false
      else ret false
    else ret false in
  let* _ :=
    when highway_ref
      (let* street_ref := sub_get "namedetails" (VStr "ref") in
       let* found := read_r (fun _ => chars_in exclude_chars street_ref) in
       let* street_ref :=
         if existsb (fun b => b) found then
           let* _ := log_name in
           let* lowest_nums := read_r (fun _ => lowest_nums_loop exclude_chars street_ref) in
           let* lowest_num := read_r (fun _ => py_min lowest_nums) in
           read_r (fun _ => py_slice_to street_ref lowest_num)
         else ret street_ref in
       let* _ := set ATTR_STREET_REF street_ref in
       log_name) in
  log_name.
(** *** Reading the tracked entity *)

(** [self._hass.states.get(self.get_attr(k))], then an attribute access
    on the result, which raises on [None]. *)
Definition tracker_state (E : env) (k : string) : M hass_state :=
  read_r (fun s =>
            let+ o := hass_states_get E (get_attr k s) in
            match o with
            | Some st => Ok st
            | None => Raise AttributeError
            end).

Definition attributes_get (st : hass_state) (k : string) : value :=
  match assoc k (st_attributes st) with
  | Some v => v
  | None => VNone
  end.

Definition is_none (v : value) : bool :=
  match v with
  | VNone => true
  | _ => false
  end.

(** The writes to [self._config] and to the config entry are outside
    the store and leave it as it is. *)
Definition check_for_updated_entity_name (E : env) : M unit :=
  match entity_id E with
  | Some id =>
      let* found := read_r (fun _ => hass_states_get E (VStr id)) in
      match found with
      | Some st =>
          let friendly := attributes_get st ATTR_FRIENDLY_NAME in
          let* same := read (fun s => py_eq (get_attr CONF_NAME s) friendly) in
          if negb (is_none friendly) && negb same then
            let* _ := log_name in
            let* _ := set CONF_NAME friendly in
            let* n := attr CONF_NAME in
            let* _ := set CONF_NAME n in
            let* _ := log_name in
            log_name
          else ret tt
      | None => ret tt
      end
  | None => ret tt
  end.

Definition get_gps_accuracy (E : env) : M unit :=
  let* found := read_r (fun s => hass_states_get E (get_attr CONF_DEVICETRACKER_ID s)) in
  let* usable :=
    read_r (fun _ =>
              match found with
              | Some st =>
                  match st_attributes st with
                  | [] => Ok false
                  | _ =>
                      match assoc ATTR_GPS_ACCURACY (st_attributes st) with
                      | Some v => if is_none v then Ok false else is_float v
                      | None => Ok false
                      end
                  end
              | None => Ok false
              end) in
  if usable then
    let* st := tracker_state E CONF_DEVICETRACKER_ID in
    let* a := read_r (fun _ => py_float (attributes_get st ATTR_GPS_ACCURACY)) in
    let* _ := set ATTR_GPS_ACCURACY (VFloat a) in
    let* _ := log_name in
    let* _ := read_r (fun s => py_round (get_attr ATTR_GPS_ACCURACY s) 3) in
    ret tt
  else log_name.

Definition get_zone_details (E : env) : M unit :=
  let* st := tracker_state E CONF_DEVICETRACKER_ID in
  let* _ := set ATTR_DEVICETRACKER_ZONE (VStr (st_state st)) in
  let* _ := log_name in
  let* st := tracker_state E CONF_DEVICETRACKER_ID in
  let devicetracker_zone_id := attributes_get st CONF_ZONE in
  let* devicetracker_zone_name_state :=
    if negb (is_none devicetracker_zone_id) then
      read_r (fun _ =>
                hass_states_get E (VStr (CONF_ZONE ++ "." ++ py_str devicetracker_zone_id)))
    else ret None in
  let* _ :=
    match devicetracker_zone_name_state with
    | Some zone_state => set ATTR_DEVICETRACKER_ZONE_NAME (VStr (st_name zone_state))
    | None =>
        let* z := attr ATTR_DEVICETRACKER_ZONE in
        set ATTR_DEVICETRACKER_ZONE_NAME z
    end in
  let* lowercase :=
    read_r (fun s =>
              if negb (is_attr_blank ATTR_DEVICETRACKER_ZONE_NAME s) then
                let+ n := as_str (get_attr ATTR_DEVICETRACKER_ZONE_NAME s) in
                Ok (py_eq (VStr (lower n)) (get_attr ATTR_DEVICETRACKER_ZONE_NAME s))
              else Ok false) in
  let* _ :=
    when lowercase
      (let* n := read_r (fun s => as_str (get_attr ATTR_DEVICETRACKER_ZONE_NAME s)) in
       set ATTR_DEVICETRACKER_ZONE_NAME (VStr (title n))) in
  log_name.

(** *** Resetting, map link, driving status *)

Definition _reset_attributes : M unit :=
  let* _ := write (fun s => fold_left (fun acc a => clear_attr a acc) RESET_ATTRIBUTE_LIST s) in
  let* _ := set ATTR_UPDATES_SKIPPED (VInt 0) in
  write cleanup_attributes.

Definition get_map_link : M unit :=
  let* provider := attr CONF_MAP_PROVIDER in
  let* _ :=
    if py_eq provider (VStr "google") then
      let* link :=
        read (fun s =>
                "https://maps.google.com/?q="
                ++ py_str (get_attr ATTR_LOCATION_CURRENT s)
                ++ "&ll="
                ++ py_str (get_attr ATTR_LOCATION_CURRENT s)
                ++ "&z="
                ++ py_str (get_attr CONF_MAP_ZOOM s)) in
      set ATTR_MAP_LINK (VStr link)
    else if py_eq provider (VStr "osm") then
      let* link :=
        read (fun s =>
                "https://www.openstreetmap.org/?mlat="
                ++ py_str (get_attr ATTR_LATITUDE s)
                ++ "&mlon="
                ++ py_str (get_attr ATTR_LONGITUDE s)
                ++ "#map="
                ++ py_str (get_attr CONF_MAP_ZOOM s)
                ++ "/"
                ++ take_str 8 (py_str (get_attr ATTR_LATITUDE s))
                ++ "/"
                ++ take_str 9 (py_str (get_attr ATTR_LONGITUDE s))) in
      set ATTR_MAP_LINK (VStr link)
    else
      let* link :=
        read (fun s =>
                "https://maps.apple.com/maps/?q="
                ++ py_str (get_attr ATTR_LOCATION_CURRENT s)
                ++ "&z="
                ++ py_str (get_attr CONF_MAP_ZOOM s)) in
      set ATTR_MAP_LINK (VStr link) in
  let* _ := log_name in
  log_name.

Definition get_driving_status : M unit :=
  let* zone := read_r in_zone in
  let* isDriving :=
    read (fun s =>
            negb zone
            && negb (py_eq (get_attr ATTR_DIRECTION_OF_TRAVEL s) (VStr "stationary"))
            && (py_eq (get_attr ATTR_PLACE_CATEGORY s) (VStr "highway")
                || py_eq (get_attr ATTR_PLACE_TYPE s) (VStr "motorway"))) in
  set ATTR_IS_DRIVING (VBool isDriving).
(** *** State formatters *)

(** [", ".join(item for item in items)]: every item must be a [str]. *)
Fixpoint str_items (items : list value) : result (list string) :=
  match items with
  | [] => Ok []
  | v :: rest =>
      let+ x := concat_operand v in
      let+ xs := str_items rest in
      Ok (x :: xs)
  end.
Definition py_join (sep : string) (items : list value) : result string :=
  let+ xs := str_items items in
  Ok (join sep xs).

Definition newline : string := String (ascii_of_nat 10) EmptyString.

(** [self.get_attr(k).lower()] and [self.get_attr(k).strip()]. *)
Definition lower_of (k : string) (s : gmap string value) : result string :=
  let+ x := as_str (get_attr k s) in Ok (lower x).
Definition strip_of (k : string) (s : gmap string value) : result string :=
  let+ x := as_str (get_attr k s) in Ok (strip x).

(** The parts [build_formatted_place] appends when the entity is not in
    a zone and the place name is not used. *)
Definition place_label (s : gmap string value) : result (list value) :=
  let+ by_type :=
    if negb (is_attr_blank ATTR_PLACE_TYPE s) then
      let+ t := lower_of ATTR_PLACE_TYPE s in
      if negb (String.eqb t "unclassified") then
        let+ c := lower_of ATTR_PLACE_CATEGORY s in
        Ok (negb (String.eqb c "highway"))
      else Ok false
    else Ok false in
  if by_type then
    let+ t := as_str (get_attr ATTR_PLACE_TYPE s) in
    Ok [VStr (strip (replace "Construction" "" (replace "Proposed" "" (title t))))]
  else
    let+ by_category :=
      if negb (is_attr_blank ATTR_PLACE_CATEGORY s) then
        let+ c := lower_of ATTR_PLACE_CATEGORY s in
        Ok (negb (String.eqb c "highway"))
      else Ok false in
    if by_category then
      let+ c := as_str (get_attr ATTR_PLACE_CATEGORY s) in
      Ok [VStr (strip (title c))]
    else Ok [].

Definition place_street (s : gmap string value) : result (list value) :=
  if negb (is_attr_blank ATTR_STREET s) then
    let+ use_ref :=
      if negb (is_attr_blank ATTR_PLACE_CATEGORY s) then
        let+ c := lower_of ATTR_PLACE_CATEGORY s in
        if String.eqb c "highway" && negb (is_attr_blank ATTR_PLACE_TYPE s) then
          let+ t := lower_of ATTR_PLACE_TYPE s in
          Ok ((String.eqb t "motorway" || String.eqb t "trunk")
              && negb (is_attr_blank ATTR_STREET_REF s))
        else Ok false
      else Ok false in
    let+ street :=
      if use_ref then strip_of ATTR_STREET_REF s else strip_of ATTR_STREET s in
    if is_attr_blank ATTR_STREET_NUMBER s then Ok [VStr street]
    else Ok [VStr (strip (py_str (get_attr ATTR_STREET_NUMBER s)) ++ " " ++ street)]
  else Ok [].

Definition place_neighbourhood (s : gmap string value) : result (list value) :=
  let+ house :=
    if negb (is_attr_blank ATTR_PLACE_TYPE s) then
      let+ t := lower_of ATTR_PLACE_TYPE s in
      Ok (String.eqb t "house" && negb (is_attr_blank ATTR_PLACE_NEIGHBOURHOOD s))
    else Ok false in
  if house then
    let+ n := strip_of ATTR_PLACE_NEIGHBOURHOOD s in Ok [VStr n]
  else Ok [].

Definition place_city (s : gmap string value) : result (list value) :=
  let+ city :=
    if negb (is_attr_blank ATTR_CITY s) then
      let+ c := as_str (get_attr ATTR_CITY s) in
      Ok [VStr (strip (replace " Township" "" c))]
    else if negb (is_attr_blank ATTR_COUNTY s) then
      let+ c := strip_of ATTR_COUNTY s in Ok [VStr c]
    else Ok [] in
  Ok (city ++ (if negb (is_attr_blank ATTR_STATE_ABBR s)
               then [get_attr ATTR_STATE_ABBR s] else []))%list.

Definition build_formatted_place : M unit :=
  let* sensor_attributes_values :=
    read (fun s =>
            map (fun a => get_attr a s)
                (List.filter (fun a => negb (is_attr_blank a s)) PLACE_NAME_DUPLICATE_LIST)) in
  let* duplicate :=
    read (fun s => negb (is_attr_blank ATTR_PLACE_NAME s)
                   && existsb (py_eq (get_attr ATTR_PLACE_NAME s)) sensor_attributes_values) in
  let* use_place_name :=
    if duplicate then
      let* _ := log_name in ret false
    else ret false in
  let* display_options := attr ATTR_DISPLAY_OPTIONS in
  let* formatted_place_array :=
    read_r (fun s =>
              let+ zone := in_zone s in
              if negb zone then
                let+ driving :=
                  if truthy (get_attr ATTR_IS_DRIVING s)
                  then py_in (VStr "driving") display_options
                  else Ok false in
                let+ place :=
                  if negb use_place_name then
                    let+ label := place_label s in
                    let+ street := place_street s in
                    let+ neighbourhood := place_neighbourhood s in
                    Ok (label ++ street ++ neighbourhood)%list
                  else
                    let+ p := strip_of ATTR_PLACE_NAME s in Ok [VStr p] in
                let+ city := place_city s in
                Ok ((if driving then [VStr "Driving"] else []) ++ place ++ city)%list
              else
                let+ z := strip_of ATTR_DEVICETRACKER_ZONE_NAME s in
                Ok [VStr z]) in
  let* formatted_place := read_r (fun _ => py_join ", " formatted_place_array) in
  set ATTR_FORMATTED_PLACE
      (VStr (strip (replace "  " " " (replace newline " " formatted_place)))).

(** [display_options.remove(x)]: the first element equal to [x]. *)
Fixpoint list_remove (x : value) (l : list value) : list value :=
  match l with
  | [] => []
  | y :: rest => if py_eq y x then rest else y :: list_remove x rest
  end.

(** The names [locals()] holds inside the loop of the [do_not_reorder]
    branch; [target_option] is among them once it has been assigned. *)
Definition local_names (target_option : option string) : list (string * value) :=
  ([("self", VNone); ("display_options", VNone); ("user_display", VNone);
    ("option", VNone)]
   ++ match target_option with
      | Some t => [("target_option", VStr t)]
      | None => []
      end)%list.

Fixpoint reorder_loop (target_option : option string) (user_display options : list value)
  : result (list value) :=
  match options with
  | [] => Ok user_display
  | option :: rest =>
      let target_option :=
        if py_eq option (VStr "state") then Some "region" else target_option in
      let target_option :=
        if py_eq option (VStr "place_neighborhood") then Some "place_neighbourhood"
        else target_option in
      let+ is_local := py_in option (VDict (local_names target_option)) in
      if is_local then
        match target_option with
        | Some t => reorder_loop target_option (user_display ++ [VStr t])%list rest
        | None => Raise UnboundLocalError
        end
      else reorder_loop target_option user_display rest
  end.

Definition push_if (c : bool) (v : value) (l : list value) : list value :=
  if c then (l ++ [v])%list else l.

Definition build_state_from_display_options : M unit :=
  let* display_options := attr ATTR_DISPLAY_OPTIONS in
  let opt (o : string) : result bool := py_in (VStr o) display_options in
  (** [o in display_options and not self.is_attr_blank(k)], then the append *)
  let shown (o k : string) (user_display : list value) : M (list value) :=
    read_r (fun s =>
              let+ b := opt o in
              Ok (push_if (b && negb (is_attr_blank k s)) (get_attr k s) user_display)) in
  let* _ := log_name in
  let user_display : list value := [] in
  let* user_display :=
    read_r (fun s =>
              let+ b := opt "driving" in
              Ok (push_if (b && truthy (get_attr ATTR_IS_DRIVING s)) (VStr "Driving")
                          user_display)) in
  let* user_display :=
    read_r (fun s =>
              let+ by_name :=
                (let+ b := opt "zone_name" in
                 if b then
                   let+ hide := opt "do_not_show_not_home" in
                   Ok (negb hide && negb (is_attr_blank ATTR_DEVICETRACKER_ZONE_NAME s))
                 else Ok false) in
              if by_name then Ok (user_display ++ [get_attr ATTR_DEVICETRACKER_ZONE_NAME s])%list
              else
                let+ by_zone :=
                  (let+ b := opt "zone" in
                   if b then
                     let+ hide := opt "do_not_show_not_home" in
                     Ok (negb hide && negb (is_attr_blank ATTR_DEVICETRACKER_ZONE s))
                   else Ok false) in
                Ok (push_if by_zone (get_attr ATTR_DEVICETRACKER_ZONE s) user_display)) in
  let* user_display := shown "place_name" ATTR_PLACE_NAME user_display in
  let* place := read_r (fun _ => opt "place") in
  let* user_display :=
    if place then
      read_r (fun s =>
                let user_display :=
                  push_if (negb (is_attr_blank ATTR_PLACE_NAME s)
                           && negb (py_eq (get_attr ATTR_PLACE_NAME s) (get_attr ATTR_STREET s)))
                          (get_attr ATTR_PLACE_NAME s) user_display in
                let+ category :=
                  if negb (is_attr_blank ATTR_PLACE_CATEGORY s) then
                    let+ c := lower_of ATTR_PLACE_CATEGORY s in
                    Ok (negb (String.eqb c "place"))
                  else Ok false in
                let user_display :=
                  push_if category (get_attr ATTR_PLACE_CATEGORY s) user_display in
                let+ type :=
                  if negb (is_attr_blank ATTR_PLACE_TYPE s) then
                    let+ t := lower_of ATTR_PLACE_TYPE s in
                    Ok (negb (String.eqb t "yes"))
                  else Ok false in
                let user_display := push_if type (get_attr ATTR_PLACE_TYPE s) user_display in
                let user_display :=
                  push_if (negb (is_attr_blank ATTR_PLACE_NEIGHBOURHOOD s))
                          (get_attr ATTR_PLACE_NEIGHBOURHOOD s) user_display in
                let user_display :=
                  push_if (negb (is_attr_blank ATTR_STREET_NUMBER s))
                          (get_attr ATTR_STREET_NUMBER s) user_display in
                Ok (push_if (negb (is_attr_blank ATTR_STREET s))
                            (get_attr ATTR_STREET s) user_display))
    else
      let* user_display := shown "street_number" ATTR_STREET_NUMBER user_display in
      shown "street" ATTR_STREET user_display in
  let* user_display := shown "city" ATTR_CITY user_display in
  let* user_display := shown "county" ATTR_COUNTY user_display in
  let* user_display :=
    read_r (fun s =>
              let+ state := opt "state" in
              if state && negb (is_attr_blank ATTR_REGION s)
              then Ok (user_display ++ [get_attr ATTR_REGION s])%list
              else
                let+ region := opt "region" in
                Ok (push_if (region && negb (is_attr_blank ATTR_REGION s))
                            (get_attr ATTR_REGION s) user_display)) in
  let* user_display := shown "postal_code" ATTR_POSTAL_CODE user_display in
  let* user_display := shown "country" ATTR_COUNTRY user_display in
  let* user_display := shown "formatted_address" ATTR_FORMATTED_ADDRESS user_display in
  let* reorder := read_r (fun _ => opt "do_not_reorder") in
  let* user_display :=
    if reorder then
      match display_options with
      | VList options =>
          (** the list in the store is the one [remove] changes *)
          let options := list_remove (VStr "do_not_reorder") options in
          let* _ := set ATTR_DISPLAY_OPTIONS (VList options) in
          read_r (fun _ => reorder_loop None [] options)
      | _ => raise AttributeError
      end
    else ret user_display in
  let* _ :=
    when (truthy (VList user_display))
      (let* text := read_r (fun _ => py_join ", " user_display) in
       set ATTR_NATIVE_VALUE (VStr text)) in
  log_name.
(** *** Extended attributes, event, persistence *)

Definition get_extended_attr (E : env) : M unit :=
  let* have :=
    read (fun s => negb (is_attr_blank ATTR_OSM_ID s)
                   && negb (is_attr_blank ATTR_OSM_TYPE s)) in
  when have
    (let* t := read_r (lower_of ATTR_OSM_TYPE) in
     let osm_type_abbr : option string :=
       if String.eqb t "node" then Some "N"
       else if String.eqb t "way" then Some "W"
       else if String.eqb t "relation" then Some "R"
       else None in
     let* abbr :=
       match osm_type_abbr with
       | Some a => ret a
       | None => raise UnboundLocalError
       end in
     let* osm_details_url :=
       read (fun s =>
               "https://nominatim.openstreetmap.org/details.php?osmtype="
               ++ abbr
               ++ "&osmid="
               ++ py_str (get_attr ATTR_OSM_ID s)
               ++ "&linkedplaces=1&hierarchy=1&group_hierarchy=1&limit=1&format=json"
               ++ (if is_attr_blank CONF_API_KEY s
                   then "&email=" ++ py_str (get_attr CONF_API_KEY s) else "")
               ++ (if negb (is_attr_blank CONF_LANGUAGE s)
                   then "&accept-language=" ++ py_str (get_attr CONF_LANGUAGE s) else "")) in
     let* details := get_dict_from_url E osm_details_url in
     let* _ := set ATTR_OSM_DETAILS_DICT details in
     let* no_details := blank ATTR_OSM_DETAILS_DICT in
     when (negb no_details)
       (let* has_wikidata :=
          read_r (fun s =>
                    if negb (is_attr_blank ATTR_OSM_DETAILS_DICT s) then
                      let+ tags := py_in (VStr "extratags") (get_attr ATTR_OSM_DETAILS_DICT s) in
                      if tags then
                        let+ extratags :=
                          dict_get (get_attr ATTR_OSM_DETAILS_DICT s) (VStr "extratags") in
                        py_in (VStr "wikidata") extratags
                      else Ok false
                    else Ok false) in
        let* _ :=
          when has_wikidata
            (let* w :=
               read_r (fun s =>
                         let+ extratags :=
                           dict_get (get_attr ATTR_OSM_DETAILS_DICT s) (VStr "extratags") in
                         dict_get extratags (VStr "wikidata")) in
             set ATTR_WIKIDATA_ID w) in
        let* _ := set ATTR_WIKIDATA_DICT (VDict []) in
        let* no_id := blank ATTR_WIKIDATA_ID in
        when (negb no_id)
          (let* wikidata_url :=
             read (fun s =>
                     "https://www.wikidata.org/wiki/Special:EntityData/"
                     ++ py_str (get_attr ATTR_WIKIDATA_ID s)
                     ++ ".json") in
           let* w := get_dict_from_url E wikidata_url in
           set ATTR_WIKIDATA_DICT w))).

(** [event_data.update({k: self.get_attr(k)})] for the listed attributes
    that are not blank. *)
Definition event_update (attrs : list string) (s : gmap string value)
           (event_data : gmap string value) : gmap string value :=
  fold_left
    (fun acc a => if negb (is_attr_blank a s) then <[a := get_attr a s]> acc else acc)
    attrs event_data.

(** The result is the event handed to [self._hass.bus.fire]. *)
Definition fire_event_data (prev_last_place_name : value) : M (gmap string value) :=
  let* _ := log_name in
  let* event_data :=
    read (fun s =>
            let event_data : gmap string value := ∅ in
            let event_data :=
              if negb (is_attr_blank CONF_NAME s)
              then <["entity" := get_attr CONF_NAME s]> event_data else event_data in
            let event_data :=
              if negb (is_attr_blank ATTR_PREVIOUS_STATE s)
              then <["from_state" := get_attr ATTR_PREVIOUS_STATE s]> event_data
              else event_data in
            let event_data :=
              if negb (is_attr_blank ATTR_NATIVE_VALUE s)
              then <["to_state" := get_attr ATTR_NATIVE_VALUE s]> event_data
              else event_data in
            let event_data := event_update EVENT_ATTRIBUTE_LIST s event_data in
            let event_data :=
              if negb (is_attr_blank ATTR_LAST_PLACE_NAME s)
                 && negb (py_eq (get_attr ATTR_LAST_PLACE_NAME s) prev_last_place_name)
              then <[ATTR_LAST_PLACE_NAME := get_attr ATTR_LAST_PLACE_NAME s]> event_data
              else event_data in
            if truthy (get_attr CONF_EXTENDED_ATTR s)
            then event_update EXTENDED_ATTRIBUTE_LIST s event_data
            else event_data) in
  let* _ := log_name in
  let* _ := log_name in
  ret event_data.

(** The store holds no [datetime], so the copy is written as it is; a
    failure of the write is caught and logged. *)
Definition write_sensor_to_json (E : env) : M unit :=
  when (json_dump_raises E) log_name.
(** *** The update pass *)

(** ["%02d" % n] for [n >= 0]. *)
Definition fmt02 (n : nat) : string :=
  if (n <? 10)%nat then "0" ++ pretty n else pretty n.

Definition osm_url (s : gmap string value) : string :=
  "https://nominatim.openstreetmap.org/reverse?format=jsonv2&lat="
  ++ py_str (get_attr ATTR_LATITUDE s)
  ++ "&lon="
  ++ py_str (get_attr ATTR_LONGITUDE s)
  ++ (if negb (is_attr_blank CONF_LANGUAGE s)
      then "&accept-language=" ++ py_str (get_attr CONF_LANGUAGE s) else "")
  ++ "&addressdetails=1&namedetails=1&zoom=18&limit=1"
  ++ (if negb (is_attr_blank CONF_API_KEY s)
      then "&email=" ++ py_str (get_attr CONF_API_KEY s) else "").

(** Lines 2065-2070: the list of display options. *)
Definition split_display_options : M (list string) :=
  let* no_options := blank CONF_OPTIONS in
  let* display_options :=
    if negb no_options then
      let* o := read_r (fun s => as_str (get_attr ATTR_OPTIONS s)) in
      ret (map strip (split "," o))
    else ret [] in
  let* _ := set ATTR_DISPLAY_OPTIONS (VList (map VStr display_options)) in
  ret display_options.

(** The final check: is the new state different from the previous one? *)
Definition state_changed (s : gmap string value) : result bool :=
  let+ different :=
    if negb (is_attr_blank ATTR_PREVIOUS_STATE s)
       && negb (is_attr_blank ATTR_NATIVE_VALUE s) then
      let+ p := as_str (get_attr ATTR_PREVIOUS_STATE s) in
      let+ n := as_str (get_attr ATTR_NATIVE_VALUE s) in
      if negb (String.eqb (strip (lower p)) (strip (lower n))) then
        if negb (String.eqb (strip (lower (replace " " "" p))) (strip (lower n))) then
          let+ z := as_str (get_attr ATTR_DEVICETRACKER_ZONE s) in
          Ok (negb (String.eqb (strip (lower p)) (strip (lower z))))
        else Ok false
      else Ok false
    else Ok false in
  Ok (different
      || is_attr_blank ATTR_PREVIOUS_STATE s
      || is_attr_blank ATTR_NATIVE_VALUE s
      || truthy (get_attr ATTR_INITIAL_UPDATE s)).

(** Lines 2138-2162: the new state is cut to 255 characters, the
    [" (since HH:MM)"] suffix included. *)
Definition truncate_native_value (current_time : string) : M unit :=
  let* no_value := blank ATTR_NATIVE_VALUE in
  if negb no_value then
    let* show_time := read (fun s => truthy (get_attr CONF_SHOW_TIME s)) in
    let* _ :=
      if show_time then
        let* head := read_r (fun s => py_slice_to (get_attr ATTR_NATIVE_VALUE s) (255 - 14)) in
        let* h := read_r (fun _ => concat_operand head) in
        set ATTR_NATIVE_VALUE (VStr (h ++ " (since " ++ current_time ++ ")"))
      else
        let* head := read_r (fun s => py_slice_to (get_attr ATTR_NATIVE_VALUE s) 255) in
        set ATTR_NATIVE_VALUE head in
    log_name
  else
    let* _ := write (clear_attr ATTR_NATIVE_VALUE) in
    log_name.

Definition do_update (E : env) : M outcome :=
  let* previous_attr := read (fun s => s) in
  let* _ := log_name in
  let* _ := check_for_updated_entity_name E in
  let* _ := write cleanup_attributes in
  let* suffixed :=
    read (fun s => negb (is_attr_blank ATTR_NATIVE_VALUE s)
                   && truthy (get_attr CONF_SHOW_TIME s)) in
  let* _ :=
    if suffixed then
      let* v := read_r (fun s => py_slice_to (get_attr ATTR_NATIVE_VALUE s) (-14)) in
      set ATTR_PREVIOUS_STATE (VStr (py_str v))
    else
      let* v := attr ATTR_NATIVE_VALUE in
      set ATTR_PREVIOUS_STATE v in
  let* lat_known := read_r (fun s => is_float (get_attr ATTR_LATITUDE s)) in
  let* _ :=
    when lat_known
      (let* v := attr ATTR_LATITUDE in set ATTR_LATITUDE_OLD (VStr (py_str v))) in
  let* lon_known := read_r (fun s => is_float (get_attr ATTR_LONGITUDE s)) in
  let* _ :=
    when lon_known
      (let* v := attr ATTR_LONGITUDE in set ATTR_LONGITUDE_OLD (VStr (py_str v))) in
  let* prev_last_place_name := attr ATTR_LAST_PLACE_NAME in
  let* _ := log_name in
  let* st := tracker_state E CONF_DEVICETRACKER_ID in
  let* new_lat := read_r (fun _ => is_float (attributes_get st CONF_LATITUDE)) in
  let* _ :=
    when new_lat
      (let* st := tracker_state E CONF_DEVICETRACKER_ID in
       set ATTR_LATITUDE (VStr (py_str (attributes_get st CONF_LATITUDE)))) in
  let* st := tracker_state E CONF_DEVICETRACKER_ID in
  let* new_lon := read_r (fun _ => is_float (attributes_get st CONF_LONGITUDE)) in
  let* _ :=
    when new_lon
      (let* st := tracker_state E CONF_DEVICETRACKER_ID in
       set ATTR_LONGITUDE (VStr (py_str (attributes_get st CONF_LONGITUDE)))) in
  let* _ := get_gps_accuracy E in
  let* _ := get_zone_details E in
  let* located := update_coordinates_and_distance E in
  let* needed := if located then determine_if_update_needed else ret false in
  let* zone_blank := blank ATTR_DEVICETRACKER_ZONE in
  let* result :=
    if needed && negb zone_blank then
      let* _ := log_name in
      let* _ := _reset_attributes in
      let* _ := get_map_link in
      let* url := read osm_url in
      let* osm_dict := get_dict_from_url E url in
      let* _ := set ATTR_OSM_DICT osm_dict in
      let* no_data := blank ATTR_OSM_DICT in
      if negb no_data then
        let* _ := parse_osm_dict in
        let* keep_previous :=
          read (fun s =>
                  truthy (get_attr ATTR_INITIAL_UPDATE s)
                  || py_eq (get_attr ATTR_LAST_PLACE_NAME s) (get_attr ATTR_PLACE_NAME s)
                  || py_eq (get_attr ATTR_LAST_PLACE_NAME s)
                           (get_attr ATTR_DEVICETRACKER_ZONE_NAME s)) in
        let* _ := when keep_previous (set ATTR_LAST_PLACE_NAME prev_last_place_name) in
        let* _ := log_name in
        let* display_options := split_display_options in
        let* _ := get_driving_status in
        let* _ :=
          if existsb (String.eqb "formatted_place") display_options then
            let* _ := build_formatted_place in
            let* v := attr ATTR_FORMATTED_PLACE in
            let* _ := set ATTR_NATIVE_VALUE v in
            log_name
          else
            let* zone := read_r in_zone in
            if negb zone then build_state_from_display_options
            else
              let* by_zone :=
                read (fun s =>
                        (existsb (String.eqb "zone") display_options
                         && negb (is_attr_blank ATTR_DEVICETRACKER_ZONE s))
                        || is_attr_blank ATTR_DEVICETRACKER_ZONE_NAME s) in
              if by_zone then
                let* v := attr ATTR_DEVICETRACKER_ZONE in
                let* _ := set ATTR_NATIVE_VALUE v in
                log_name
              else
                let* no_name := blank ATTR_DEVICETRACKER_ZONE_NAME in
                when (negb no_name)
                  (let* v := attr ATTR_DEVICETRACKER_ZONE_NAME in
                   let* _ := set ATTR_NATIVE_VALUE v in
                   log_name) in
        let current_time := fmt02 (now_hour E) ++ ":" ++ fmt02 (now_minute E) in
        let* _ := set ATTR_LAST_CHANGED (VStr (now_str E)) in
        let* changed := read_r state_changed in
        if changed then
          let* extended := read (fun s => truthy (get_attr CONF_EXTENDED_ATTR s)) in
          let* _ := when extended (get_extended_attr E) in
          let* _ := write cleanup_attributes in
          let* _ := truncate_native_value current_time in
          let* native := attr ATTR_NATIVE_VALUE in
          let* event := fire_event_data prev_last_place_name in
          let* _ := set ATTR_INITIAL_UPDATE (VBool false) in
          let* _ := write_sensor_to_json E in
          ret (Committed native event)
        else
          let* _ := write (fun _ => previous_attr) in
          let* _ := log_name in
          ret RevertedUnchanged
      else ret LeftWithoutData
    else
      let* _ := write (fun _ => previous_attr) in
      let* _ := log_name in
      ret (RevertedDeclined
             (if negb located then MissingCoordinates
              else if negb needed then GateClosed
              else ZoneBlank)) in
  let* _ := set ATTR_LAST_UPDATED (VStr (now_str E)) in
  let* _ := log_name in
  ret result.
End Sensor.

(** ** Concrete names and built-ins

    To run the code on a concrete store the names and the built-ins need
    values. [attribute_names] gives every attribute the name under which
    the sensor shows it; [decimal_builtins] reads plain decimal numerals
    ([-12], [27.003]) and rejects every other text. *)

#[local] Instance attribute_names : Consts := {|
  ATTR_FRIENDLY_NAME := "friendly_name";
  ATTR_GPS_ACCURACY := "gps_accuracy";
  CONF_API_KEY := "api_key";
  CONF_LATITUDE := "latitude";
  CONF_LONGITUDE := "longitude";
  CONF_NAME := "name";
  CONF_ZONE := "zone";
  ATTR_CITY := "city";
  ATTR_COUNTRY := "country";
  ATTR_COUNTY := "county";
  ATTR_DEVICETRACKER_ZONE := "devicetracker_zone";
  ATTR_DEVICETRACKER_ZONE_NAME := "devicetracker_zone_name";
  ATTR_DIRECTION_OF_TRAVEL := "direction_of_travel";
  ATTR_DISPLAY_OPTIONS := "display_options_list";
  ATTR_DISTANCE_FROM_HOME_KM := "distance_from_home_km";
  ATTR_DISTANCE_FROM_HOME_M := "distance_from_home_m";
  ATTR_DISTANCE_FROM_HOME_MI := "distance_from_home_mi";
  ATTR_DISTANCE_TRAVELED_M := "distance_traveled_m";
  ATTR_DISTANCE_TRAVELED_MI := "distance_traveled_mi";
  ATTR_FORMATTED_ADDRESS := "formatted_address";
  ATTR_FORMATTED_PLACE := "formatted_place";
  ATTR_HOME_LATITUDE := "home_latitude";
  ATTR_HOME_LOCATION := "home_location";
  ATTR_HOME_LONGITUDE := "home_longitude";
  ATTR_INITIAL_UPDATE := "initial_update";
  ATTR_IS_DRIVING := "is_driving";
  ATTR_LAST_CHANGED := "last_changed";
  ATTR_LAST_PLACE_NAME := "last_place_name";
  ATTR_LAST_UPDATED := "last_updated";
  ATTR_LATITUDE := "current_latitude";
  ATTR_LATITUDE_OLD := "previous_latitude";
  ATTR_LOCATION_CURRENT := "current_location";
  ATTR_LOCATION_PREVIOUS := "previous_location";
  ATTR_LONGITUDE := "current_longitude";
  ATTR_LONGITUDE_OLD := "previous_longitude";
  ATTR_MAP_LINK := "map_link";
  ATTR_NATIVE_VALUE := "native_value";
  ATTR_OPTIONS := "options";
  ATTR_OSM_DETAILS_DICT := "osm_details_dict";
  ATTR_OSM_DICT := "osm_dict";
  ATTR_OSM_ID := "osm_id";
  ATTR_OSM_TYPE := "osm_type";
  ATTR_PLACE_CATEGORY := "place_category";
  ATTR_PLACE_NAME := "place_name";
  ATTR_PLACE_NEIGHBOURHOOD := "place_neighbourhood";
  ATTR_PLACE_TYPE := "place_type";
  ATTR_POSTAL_CODE := "postal_code";
  ATTR_POSTAL_TOWN := "postal_town";
  ATTR_PREVIOUS_STATE := "previous_state";
  ATTR_REGION := "state_province";
  ATTR_STATE_ABBR := "state_abbr";
  ATTR_STREET := "street";
  ATTR_STREET_NUMBER := "street_number";
  ATTR_STREET_REF := "street_ref";
  ATTR_UPDATES_SKIPPED := "updates_skipped";
  ATTR_WIKIDATA_DICT := "wikidata_dict";
  ATTR_WIKIDATA_ID := "wikidata_id";
  CONF_DEVICETRACKER_ID := "devicetracker_id";
  CONF_EXTENDED_ATTR := "extended_attr";
  CONF_HOME_ZONE := "home_zone";
  CONF_LANGUAGE := "language";
  CONF_MAP_PROVIDER := "map_provider";
  CONF_MAP_ZOOM := "map_zoom";
  CONF_OPTIONS := "options";
  CONF_SHOW_TIME := "show_time";
  EVENT_ATTRIBUTE_LIST := ["place_name"; "city"; "street"; "direction_of_travel"];
  EXTENDED_ATTRIBUTE_LIST := ["wikidata_id"; "osm_details_dict"; "wikidata_dict"];
  PLACE_NAME_DUPLICATE_LIST := ["city"; "county"; "state_province"; "street"];
  RESET_ATTRIBUTE_LIST :=
    ["city"; "county"; "country"; "street"; "street_number"; "street_ref";
     "place_name"; "place_type"; "place_category"; "place_neighbourhood";
     "postal_code"; "postal_town"; "state_province"; "state_abbr";
     "formatted_address"; "formatted_place"; "osm_id"; "osm_type";
     "osm_dict"; "osm_details_dict"; "wikidata_id"; "wikidata_dict"; "map_link"]
|}.

Definition digit_of (c : ascii) : option Z :=
  let n := nat_of_ascii c in
  if (48 <=? n)%nat && (n <=? 57)%nat then Some (Z.of_nat (n - 48)) else None.

Fixpoint digits_from (acc : Z) (s : string) : option Z :=
  match s with
  | EmptyString => Some acc
  | String c s' =>
      match digit_of c with
      | Some d => digits_from (10 * acc + d) s'
      | None => None
      end
  end.

Definition digits (s : string) : option Z :=
  match s with
  | EmptyString => None
  | _ => digits_from 0 s
  end.

Definition unsigned_decimal (s : string) : option R :=
  match split "." s with
  | [i] =>
      match digits i with
      | Some a => Some (IZR a)
      | None => None
      end
  | [i; f] =>
      match digits i, digits f with
      | Some a, Some b => Some (IZR a + IZR b / 10 ^ String.length f)%R
      | _, _ => None
      end
  | _ => None
  end.

Definition decimal (s : string) : option R :=
  match s with
  | String "-" s' =>
      match unsigned_decimal s' with
      | Some r => Some (- r)%R
      | None => None
      end
  | _ => unsigned_decimal s
  end.

Definition integer (s : string) : option Z :=
  match s with
  | String "-" s' =>
      match digits s' with
      | Some z => Some (- z)%Z
      | None => None
      end
  | _ => digits s
  end.

#[local] Instance decimal_builtins : Builtins := {|
  float_of_str := decimal;
  int_of_str := integer;
  repr := fun _ => "..."
|}.

(** A device on the 90th meridian east, 333 m north of where it was, its
    home one degree further north; [great_circle] measures as the
    collaborator does, in meters. *)
Definition great_circle (lat1 lon1 lat2 lon2 : R) : option R :=
  Some (1000 * haversine lon1 lat1 lon2 lat2)%R.

Definition meridian_env : env := {|
  now_str := "2023-01-15 10:30:00.000000";
  now_hour := 10;
  now_minute := 30;
  entity_id := None;
  hass_states_get := fun _ => Ok None;
  requests_get := fun _ => FetchTimeout;
  json_loads := fun _ => None;
  distance := great_circle;
  json_dump_raises := false
|}.

Definition meridian_store (last_distance_m : R) : gmap string value :=
  <["name" := VStr "phone"]>
  (<["home_zone" := VStr "zone.home"]>
  (<["devicetracker_zone" := VStr "not_home"]>
  (<["current_latitude" := VStr "27.003"]>
  (<["current_longitude" := VStr "90.0"]>
  (<["previous_latitude" := VStr "27.0"]>
  (<["previous_longitude" := VStr "90.0"]>
  (<["home_latitude" := VStr "28.0"]>
  (<["home_longitude" := VStr "90.0"]>
  (<["distance_from_home_m" := VFloat last_distance_m]> ∅))))))))).

(** A store past its first update whose two location strings differ, with
    a given distance traveled and a given number of skipped updates. *)
Definition gate_store (traveled : value) (skipped : Z) : gmap string value :=
  <["name" := VStr "phone"]>
  (<["gps_accuracy" := VFloat 5]>
  (<["initial_update" := VBool false]>
  (<["current_location" := VStr "27.003,90.0"]>
  (<["previous_location" := VStr "27.0,90.0"]>
  (<["distance_traveled_m" := traveled]>
  (<["updates_skipped" := VInt skipped]> ∅)))))).

(** A store about to parse a response for a motorway with two route
    numbers. *)
Definition highway_store : gmap string value :=
  <["name" := VStr "phone"]>
  (<["devicetracker_zone" := VStr "not_home"]>
  (<["osm_dict" :=
       VDict [("category", VStr "highway");
              ("type", VStr "motorway");
              ("address", VDict [("road", VStr "Interstate 90")]);
              ("namedetails", VDict [("ref", VStr "I-90;US-20")])]]> ∅)).

(** The cut the specification describes: the reference up to the smallest
    index at which one of the delimiters occurs, the whole reference when
    none occurs. *)
Definition street_ref_as_specified (street_ref : string) : string :=
  match List.filter (fun i => negb (i =? -1)%Z) (map (find street_ref) exclude_chars) with
  | [] => street_ref
  | i :: rest => take_str (Z.to_nat (fold_left Z.min rest i)) street_ref
  end.

(** The response of the Springfield scenario, as the specification gives
    it, in a store whose display options are ["street,city,state"]; the
    second store holds the same response with an empty [namedetails]
    object added. *)
Definition springfield_address : value :=
  VDict [("road", VStr "Main St");
         ("house_number", VStr "12");
         ("city", VStr "Springfield");
         ("state", VStr "IL");
         ("country", VStr "USA");
         ("postcode", VStr "62704")].

Definition springfield_store (osm_dict : value) : gmap string value :=
  <["name" := VStr "phone"]>
  (<["devicetracker_zone" := VStr "not_home"]>
  (<["options" := VStr "street,city,state"]>
  (<["initial_update" := VBool true]>
  (<["osm_dict" := osm_dict]> ∅)))).

Definition springfield_response : value :=
  VDict [("address", springfield_address);
         ("display_name", VStr "12 Main St, Springfield, IL, USA")].

Definition springfield_response_with_namedetails : value :=
  VDict [("address", springfield_address);
         ("namedetails", VDict []);
         ("display_name", VStr "12 Main St, Springfield, IL, USA")].

(** A response with a type and no [address] object. *)
Definition response_without_address : value :=
  VDict [("type", VStr "house"); ("namedetails", VDict [])].

(** A device that creeps: its tracker reports a latitude a hundred
    thousandth of a degree (about 1.1 m) south of the one the store
    holds from the pass before. *)
Definition creeping_env : env := {|
  now_str := "2023-01-15 10:30:00.000000";
  now_hour := 10;
  now_minute := 30;
  entity_id := Some "sensor.phone";
  hass_states_get := fun id =>
    match id with
    | VStr "device_tracker.phone" =>
        Ok (Some {| st_state := "not_home";
                    st_name := "Phone";
                    st_attributes := [("latitude", VStr "27.0"); ("longitude", VStr "90.0")] |})
    | _ => Ok None
    end;
  requests_get := fun _ => FetchTimeout;
  json_loads := fun _ => None;
  distance := great_circle;
  json_dump_raises := false
|}.

Definition creeping_store : gmap string value :=
  <["name" := VStr "phone"]>
  (<["devicetracker_id" := VStr "device_tracker.phone"]>
  (<["home_zone" := VStr "zone.home"]>
  (<["home_latitude" := VStr "28.0"]>
  (<["home_longitude" := VStr "90.0"]>
  (<["current_latitude" := VStr "27.00001"]>
  (<["current_longitude" := VStr "90.0"]>
  (<["initial_update" := VBool false]>
  (<["updates_skipped" := VInt 0]>
  (<["native_value" := VStr "Main St, Springfield"]> ∅))))))))).

(** ** Vocabulary of the properties *)

Section Vocabulary.
Context {K : Consts}.

(** Rule 1 of the gate applies: the GPS accuracy is present and is 0. *)
Definition accuracy_is_zero (s : gmap string value) : bool :=
  negb (is_attr_blank ATTR_GPS_ACCURACY s) && py_eq (get_attr ATTR_GPS_ACCURACY s) (VInt 0).

(** Rules 1 to 3 of the gate do not apply: the accuracy is not exactly 0,
    the initial-update flag is clear, the two location strings differ. *)
Definition moved_after_first_update (s : gmap string value) : Prop :=
  accuracy_is_zero s = false
  /\ truthy (get_attr ATTR_INITIAL_UPDATE s) = false
  /\ py_eq (get_attr ATTR_LOCATION_CURRENT s) (get_attr ATTR_LOCATION_PREVIOUS s) = false.
(** The stored state, when it is a string, has at most 255 characters. *)
Definition native_value_bounded (s : gmap string value) : Prop :=
  forall t, s !! ATTR_NATIVE_VALUE = Some (VStr t) -> (String.length t <= 255)%nat.

(** The attributes a pass writes before it knows the new state, and after
    it has cut the new state. *)
Definition written_around_native_value : list string :=
  [CONF_NAME; ATTR_PREVIOUS_STATE; ATTR_LATITUDE_OLD; ATTR_LONGITUDE_OLD;
   ATTR_LATITUDE; ATTR_LONGITUDE; ATTR_GPS_ACCURACY; ATTR_DEVICETRACKER_ZONE;
   ATTR_DEVICETRACKER_ZONE_NAME; ATTR_LOCATION_CURRENT; ATTR_LOCATION_PREVIOUS;
   ATTR_HOME_LOCATION; ATTR_LAST_PLACE_NAME; ATTR_DISTANCE_FROM_HOME_M;
   ATTR_DISTANCE_FROM_HOME_KM; ATTR_DISTANCE_FROM_HOME_MI; ATTR_DIRECTION_OF_TRAVEL;
   ATTR_DISTANCE_TRAVELED_M; ATTR_DISTANCE_TRAVELED_MI; ATTR_UPDATES_SKIPPED;
   ATTR_MAP_LINK; ATTR_OSM_DICT; ATTR_INITIAL_UPDATE; ATTR_LAST_UPDATED].

(** A statement keeps the bound on the stored state. *)
Definition keeps {A} (m : M A) : Prop :=
  forall s a s', m s = Ok (a, s') -> native_value_bounded s -> native_value_bounded s'.

(** A pass that ended on one of the two assignments
    [self._internal_attr = previous_attr]. *)
Definition reverted (out : outcome) : Prop :=
  match out with
  | RevertedUnchanged | RevertedDeclined _ => True
  | _ => False
  end.
End Vocabulary.

(** The value stored under [k] once a run has returned. *)
Definition attr_after {A} (r : result (A * gmap string value)) (k : string)
  : result (option value) :=
  match r with
  | Ok (_, s) => Ok (s !! k)
  | Raise e => Raise e
  end.

(** [requests.get] raised: one of the four [except] clauses ran. *)
Definition transport_failure (o : fetch_outcome) : Prop :=
  match o with
  | FetchResponse _ _ => False
  | _ => True
  end.

(** ** What a method writes *)

(** The two stores hold the same under every name outside [ks]. *)
Definition same_outside (ks : list string) (s s' : gmap string value) : Prop :=
  forall k, ~ In k ks -> s' !! k = s !! k.

(** A statement that, when it returns, has written under no name outside [ks]. *)
Definition writes_only {A} (ks : list string) (m : M A) : Prop :=
  forall s a s', m s = Ok (a, s') -> same_outside ks s s'.

Section Footprints.
Context {K : Consts}.

(** The attributes [update_coordinates_and_distance] writes before it
    tests the coordinates. *)
Definition location_strings : list string :=
  [ATTR_LOCATION_CURRENT; ATTR_LOCATION_PREVIOUS; ATTR_HOME_LOCATION; ATTR_LAST_PLACE_NAME].

(** The attributes [parse_osm_dict] fills. *)
Definition parsed_attributes : list string :=
  [ATTR_PLACE_TYPE; ATTR_PLACE_NAME; ATTR_PLACE_CATEGORY; ATTR_NATIVE_VALUE;
   ATTR_STREET_NUMBER; ATTR_STREET; ATTR_PLACE_NEIGHBOURHOOD; ATTR_CITY;
   ATTR_POSTAL_TOWN; ATTR_REGION; ATTR_STATE_ABBR; ATTR_COUNTY; ATTR_COUNTRY;
   ATTR_POSTAL_CODE; ATTR_FORMATTED_ADDRESS; ATTR_OSM_ID; ATTR_OSM_TYPE;
   ATTR_STREET_REF].

(** The attributes [build_formatted_place] reads besides the place name. *)
Definition formatted_place_inputs : list string :=
  [CONF_NAME; ATTR_DISPLAY_OPTIONS; ATTR_DEVICETRACKER_ZONE; ATTR_IS_DRIVING;
   ATTR_PLACE_TYPE; ATTR_PLACE_CATEGORY; ATTR_STREET; ATTR_STREET_REF;
   ATTR_STREET_NUMBER; ATTR_PLACE_NEIGHBOURHOOD; ATTR_CITY; ATTR_COUNTY;
   ATTR_STATE_ABBR; ATTR_DEVICETRACKER_ZONE_NAME].
End Footprints.

(** The names of the local variables of [build_state_from_display_options]. *)
Definition names_of_locals : list string :=
  ["self"; "display_options"; "user_display"; "option"; "target_option"].

(** A display option that is a string and not the name of a local variable. *)
Definition plain_option (o : value) : Prop :=
  match o with
  | VStr t => ~ In t names_of_locals
  | _ => False
  end.

(** ** The entity around the pass

    The lists of [const.py] that the start-up and the state attributes
    use are fields, as the names are. *)
Class Lists : Type := {
  EXTRA_STATE_ATTRIBUTE_LIST : list string;
  JSON_ATTRIBUTE_LIST : list string;
  CONFIG_ATTRIBUTES_LIST : list string;
  JSON_IGNORE_ATTRIBUTE_LIST : list string
}.

Section Entity.
Context {B : Builtins} {K : Consts} {L : Lists}.

(** [is_devicetracker_set]: [hasattr(None, "attributes")] is [False]; the
    conjunction is evaluated from left to right. *)
Definition is_devicetracker_set (E : env) : M bool :=
  read_r (fun s =>
            if negb (is_attr_blank CONF_DEVICETRACKER_ID s) then
              let+ found := hass_states_get E (get_attr CONF_DEVICETRACKER_ID s) in
              match found with
              | Some st =>
                  match assoc CONF_LATITUDE (st_attributes st),
                        assoc CONF_LONGITUDE (st_attributes st) with
                  | Some _, Some _ =>
                      if negb (is_none (attributes_get st CONF_LATITUDE))
                         && negb (is_none (attributes_get st CONF_LONGITUDE))
                      then
                        let+ latitude := is_float (attributes_get st CONF_LATITUDE) in
                        if latitude then is_float (attributes_get st CONF_LONGITUDE)
                        else Ok false
                      else Ok false
                  | _, _ => Ok false
                  end
              | None => Ok false
              end
            else Ok false).

(** [tsc_update]: the pass runs when the tracked entity is usable; the
    result is the outcome of the pass, if one ran. *)
Definition tsc_update (E : env) : M (option outcome) :=
  let* usable := is_devicetracker_set E in
  if usable then
    let* out := do_update E in
    ret (Some out)
  else ret None.

(** [return_attr.update({attr: self.get_attr(attr)})] for the listed
    attributes whose value is truthy. *)
Definition expose (attrs : list string) (s : gmap string value)
           (return_attr : gmap string value) : gmap string value :=
  fold_left
    (fun acc a => if truthy (get_attr a s) then <[a := get_attr a s]> acc else acc)
    attrs return_attr.

(** The property [extra_state_attributes]. *)
Definition extra_state_attributes : M (gmap string value) :=
  let* _ := write cleanup_attributes in
  read (fun s =>
          let return_attr := expose EXTRA_STATE_ATTRIBUTE_LIST s ∅ in
          if truthy (get_attr CONF_EXTENDED_ATTR s)
          then expose EXTENDED_ATTRIBUTE_LIST s return_attr
          else return_attr).

(** [json_attr.pop(attr, None)] on the entries of a JSON object. *)
Definition pop_key (a : string) (json : list (string * value)) : list (string * value) :=
  List.filter (fun kv => negb (String.eqb a (fst kv))) json.

(** One round of the loop over [JSON_ATTRIBUTE_LIST]. *)
Definition import_one (acc : list (string * value) * gmap string value) (a : string)
  : list (string * value) * gmap string value :=
  match assoc a (fst acc) with
  | Some v => (pop_key a (fst acc), set_attr a v (snd acc))
  | None => acc
  end.

(** [import_attributes_from_json]; the result is the value assigned to
    [self._attr_native_value], if one is. *)
Definition import_attributes_from_json (json_attr : value) : M (option value) :=
  match json_attr with
  | VDict (entry :: entries) =>
      let* _ := set ATTR_INITIAL_UPDATE (VBool false) in
      let* json :=
        fun s =>
          let imported := fold_left import_one JSON_ATTRIBUTE_LIST (entry :: entries, s) in
          Ok (fst imported, snd imported) in
      let* no_state := blank ATTR_NATIVE_VALUE in
      let* native :=
        if negb no_state then
          let* v := attr ATTR_NATIVE_VALUE in ret (Some v)
        else ret None in
      let leftover :=
        fold_left (fun j a => pop_key a j)
                  (CONFIG_ATTRIBUTES_LIST ++ JSON_IGNORE_ATTRIBUTE_LIST)%list json in
      let* _ := when (truthy (VDict leftover)) log_name in
      ret native
  | _ => ret None
  end.
End Entity.

(** ** Lists, stores and environments of the examples

    Short lists in the place of the four lists of [const.py]. *)
#[local] Instance attribute_lists : Lists := {|
  EXTRA_STATE_ATTRIBUTE_LIST :=
    ["city"; "street"; "distance_from_home_m"; "updates_skipped"; "is_driving"];
  JSON_ATTRIBUTE_LIST := ["native_value"; "city"; "street"; "updates_skipped"];
  CONFIG_ATTRIBUTES_LIST := ["name"; "devicetracker_id"; "home_zone"; "options"];
  JSON_IGNORE_ATTRIBUTE_LIST := ["last_updated"]
|}.

(** A saved state: two attributes that are imported and one that is not. *)
Definition saved_attributes : value :=
  VDict [("native_value", VStr "Main St, Springfield");
         ("city", VStr "Springfield");
         ("name", VStr "somebody else")].

(** A server that answers with the JSON text [null]. *)
Definition null_response_env : env := {|
  now_str := "2023-01-15 10:30:00.000000";
  now_hour := 10;
  now_minute := 30;
  entity_id := None;
  hass_states_get := fun _ => Ok None;
  requests_get := fun _ => FetchResponse true "null";
  json_loads := fun text => if String.eqb text "null" then Some VNone else None;
  distance := great_circle;
  json_dump_raises := false
|}.

(** A store whose display options are a list with [do_not_reorder]. *)
Definition unordered_store : gmap string value :=
  <["name" := VStr "phone"]>
  (<["street" := VStr "Main St"]>
  (<["city" := VStr "Springfield"]>
  (<["display_options_list" :=
       VList [VStr "street"; VStr "do_not_reorder"; VStr "city"]]> ∅))).

(** The creeping device before its first update, with a city in the
    store. *)
Definition first_pass_store : gmap string value :=
  set_attr "city" (VStr "Springfield")
    (set_attr "initial_update" (VBool true) creeping_store).

(** * Properties *)

(** ** The string methods and the operators on examples *)

Example lower_example : lower "Not_Home" = "not_home".
Proof. reflexivity. Qed.
Example strip_example : strip "  a b  " = "a b".
Proof. reflexivity. Qed.
Example title_example : title "not_home x1y" = "Not_Home X1Y".
Proof. reflexivity. Qed.
Example split_example : split "," "street,city,state" = ["street"; "city"; "state"].
Proof. reflexivity. Qed.
Example split_empty_example : split "," "" = [""].
Proof. reflexivity. Qed.
Example replace_example : replace " Township" "" "Ann Arbor Township" = "Ann Arbor".
Proof. reflexivity. Qed.
Example find_example : find "I-90;US-20" ";" = 4%Z.
Proof. reflexivity. Qed.
Example find_absent_example : find "I-90" ";" = (-1)%Z.
Proof. reflexivity. Qed.
Example py_eq_bool_int : py_eq (VBool false) (VInt 0) = true.
Proof. unfold py_eq, as_real, Reqb. destruct (Req_dec_T 0 0); [reflexivity | lra]. Qed.

(** ** The store *)

Lemma blank_value_float r : blank_value (VFloat r) = false.
Proof.
  unfold blank_value, truthy, py_eq, as_real, Reqb.
  destruct (Req_dec_T r 0) as [->|Hr]; simpl.
  - destruct (Req_dec_T 0 0); [reflexivity | lra].
  - reflexivity.
Qed.

Lemma blank_value_int z : blank_value (VInt z) = false.
Proof.
  unfold blank_value, truthy, py_eq, as_real, Reqb.
  destruct (Z.eqb_spec z 0) as [->|Hz]; simpl.
  - destruct (Req_dec_T 0 0); [reflexivity | lra].
  - reflexivity.
Qed.

Lemma blank_value_bool b : blank_value (VBool b) = false.
Proof.
  unfold blank_value, truthy, py_eq, as_real, Reqb.
  destruct b; simpl; [reflexivity|].
  destruct (Req_dec_T 0 0); [reflexivity | lra].
Qed.

Lemma get_attr_float k s r : s !! k = Some (VFloat r) -> get_attr k s = VFloat r.
Proof.
  intros H. unfold get_attr, is_attr_blank, lookup_value. rewrite H. simpl.
  now rewrite blank_value_float.
Qed.

Lemma get_attr_int k s z : s !! k = Some (VInt z) -> get_attr k s = VInt z.
Proof.
  intros H. unfold get_attr, is_attr_blank, lookup_value. rewrite H. simpl.
  now rewrite blank_value_int.
Qed.

Lemma get_attr_bool k s b : s !! k = Some (VBool b) -> get_attr k s = VBool b.
Proof.
  intros H. unfold get_attr, is_attr_blank, lookup_value. rewrite H. simpl.
  now rewrite blank_value_bool.
Qed.

Lemma get_attr_str k s c t :
  s !! k = Some (VStr (String c t)) -> get_attr k s = VStr (String c t).
Proof.
  intros H. unfold get_attr, is_attr_blank, lookup_value. rewrite H. reflexivity.
Qed.

Lemma get_attr_absent k (s : gmap string value) : s !! k = None -> get_attr k s = VNone.
Proof.
  intros H. unfold get_attr, is_attr_blank, lookup_value. rewrite H. reflexivity.
Qed.

Lemma get_attr_set_ne k k' v s : k <> k' -> get_attr k' (set_attr k v s) = get_attr k' s.
Proof.
  intros H. unfold get_attr, is_attr_blank, lookup_value, set_attr.
  now rewrite lookup_insert_ne.
Qed.

Lemma is_attr_blank_set_ne k k' v s :
  k <> k' -> is_attr_blank k' (set_attr k v s) = is_attr_blank k' s.
Proof.
  intros H. unfold is_attr_blank, lookup_value, set_attr. now rewrite lookup_insert_ne.
Qed.

(** Lookups in a store written as a nest of [insert]s over [∅], the keys
    being literal strings. *)
Ltac lookup_literal :=
  repeat first
    [ rewrite lookup_insert_eq
    | rewrite lookup_insert_ne by (intro; discriminate)
    | rewrite lookup_empty ].

(** ** Truncation towards zero *)

Lemma py_trunc_lt r (z : Z) : (r < IZR z)%R -> (0 < z)%Z -> (py_trunc r < z)%Z.
Proof.
  intros Hr Hz. unfold py_trunc.
  destruct (Rle_dec 0 r) as [H0|H0].
  - destruct (base_Int_part r) as [Hle _].
    apply lt_IZR. lra.
  - assert (0 <= Int_part (- r))%Z; [|lia].
    destruct (base_Int_part (- r)) as [_ Hgt].
    apply Rnot_le_lt in H0.
    assert (-1 < Int_part (- r))%Z by (apply lt_IZR; lra).
    lia.
Qed.

Lemma py_trunc_small r : (r < 1)%R -> (py_trunc r <= 0)%Z.
Proof.
  intros Hr. pose proof (py_trunc_lt r 1 Hr). lia.
Qed.

Lemma py_trunc_ge_1 r : (1 <= r)%R -> (0 < py_trunc r)%Z.
Proof.
  intros Hr. unfold py_trunc.
  destruct (Rle_dec 0 r) as [H0|H0]; [|lra].
  destruct (base_Int_part r) as [_ Hgt].
  apply lt_IZR. lra.
Qed.

Lemma py_round_number v d n : as_real v = Some d -> exists w, py_round v n = Ok w.
Proof. destruct v; simpl; try discriminate; eauto. Qed.

Lemma py_gt_int k n : py_gt (VInt k) (VInt n) = Ok (Rltb (IZR n) (IZR k)).
Proof. reflexivity. Qed.

Lemma Rltb_IZR n k : Rltb (IZR n) (IZR k) = (n <? k)%Z.
Proof.
  unfold Rltb.
  destruct (Rlt_dec (IZR n) (IZR k)) as [H|H]; destruct (Z.ltb_spec n k); try reflexivity.
  - apply lt_IZR in H. lia.
  - exfalso. apply H. now apply IZR_lt.
Qed.

(** ** Geo-math *)

(** C9: the great-circle distance is symmetric in its two points, and the
    distance of a point to itself is 0. *)
Theorem haversine_symmetric_and_zero_on_equal_points (lon1 lat1 lon2 lat2 : R) :
  haversine lon1 lat1 lon2 lat2 = haversine lon2 lat2 lon1 lat1
  /\ haversine lon1 lat1 lon1 lat1 = 0%R.
Proof.
  split; unfold haversine.
  - set (a := radians lon1). set (b := radians lat1).
    set (c := radians lon2). set (d := radians lat2).
    replace ((b - d) / 2)%R with (- ((d - b) / 2))%R by lra.
    replace ((a - c) / 2)%R with (- ((c - a) / 2))%R by lra.
    rewrite !sin_neg.
    do 3 f_equal. f_equal. ring.
  - replace ((radians lat1 - radians lat1) / 2)%R with 0%R by lra.
    replace ((radians lon1 - radians lon1) / 2)%R with 0%R by lra.
    rewrite sin_0.
    replace (0 ^ 2 + cos (radians lat1) * cos (radians lat1) * 0 ^ 2)%R with 0%R by ring.
    rewrite sqrt_0, asin_0. ring.
Qed.

(** ** Update gate *)

Section Gate.
Context {B : Builtins} {K : Consts}.

Lemma log_name_ok s name : get_attr CONF_NAME s = VStr name -> log_name s = Ok (tt, s).
Proof. intros H. unfold log_name. now rewrite H. Qed.

Lemma log_name_inv s u s' :
  log_name s = Ok (u, s') -> s' = s /\ exists name, get_attr CONF_NAME s = VStr name.
Proof.
  unfold log_name. destruct (get_attr CONF_NAME s); try discriminate.
  intros [= _ <-]. eauto.
Qed.

(** [int] of a number is below every positive bound the number is below,
    positive from 1 on and at most 0 below 1. *)
Lemma py_int_of_number v d :
  as_real v = Some d ->
  exists z, py_int v = Ok z
            /\ (forall n, (d < IZR n)%R -> (0 < n)%Z -> (z < n)%Z)
            /\ ((1 <= d)%R -> (0 < z)%Z)
            /\ ((d < 1)%R -> (z <= 0)%Z).
Proof.
  destruct v as [|b|z|r| | |]; simpl; try discriminate; intros [= <-].
  - exists (if b then 1 else 0)%Z. destruct b; repeat split; intros; try lia; try lra.
    apply lt_IZR in H. lia.
  - exists z. repeat split; intros.
    + now apply lt_IZR.
    + apply lt_IZR. lra.
    + assert (z < 1)%Z by (apply lt_IZR; lra). lia.
  - exists (py_trunc r). repeat split; intros.
    + now apply py_trunc_lt.
    + now apply py_trunc_ge_1.
    + now apply py_trunc_small.
Qed.

(** Rule 5 runs when the whole meters traveled are below 10 and rule 4 is
    off: no whole meter traveled, or at most three skips. *)
Lemma gate_skips (s : gmap string value) name z k :
  ATTR_UPDATES_SKIPPED <> CONF_NAME ->
  ATTR_UPDATES_SKIPPED <> ATTR_DISTANCE_TRAVELED_M ->
  get_attr CONF_NAME s = VStr name ->
  moved_after_first_update s ->
  py_int (get_attr ATTR_DISTANCE_TRAVELED_M s) = Ok z ->
  as_real (get_attr ATTR_DISTANCE_TRAVELED_M s) <> None ->
  (z < 10)%Z ->
  get_attr ATTR_UPDATES_SKIPPED s = VInt k ->
  (z <= 0 \/ k <= 3)%Z ->
  determine_if_update_needed s
  = Ok (false, set_attr ATTR_UPDATES_SKIPPED (VInt (k + 1)) s).
Proof.
  intros Hn1 Hn2 Hname (Hacc & Hinit & Hloc) Hint Hnum Hz Hk Hor.
  unfold determine_if_update_needed, bind, read, read_r, ret, set, write.
  fold (accuracy_is_zero s). rewrite Hacc, Hinit, Hloc, Hint, Hk. cbn [rbind].
  rewrite py_gt_int, Rltb_IZR.
  assert ((if (0 <? z)%Z then Ok (3 <? k)%Z else Ok false) = @Ok bool false) as ->.
  { destruct (Z.ltb_spec 0 z), (Z.ltb_spec 3 k); simpl; try reflexivity; lia. }
  rewrite Hint.
  destruct (Z.ltb_spec z 10); [|lia]. rewrite Hk. cbn [py_add_one].
  rewrite (log_name_ok _ name) by (now rewrite get_attr_set_ne).
  rewrite get_attr_set_ne by assumption.
  destruct (as_real (get_attr ATTR_DISTANCE_TRAVELED_M s)) as [d|] eqn:Hd; [|congruence].
  destruct (py_round_number _ d 1 Hd) as [w ->]. reflexivity.
Qed.

(** Rule 4 runs from one whole meter traveled and four skips on. *)
Lemma gate_forced (s : gmap string value) name z k :
  get_attr CONF_NAME s = VStr name ->
  moved_after_first_update s ->
  py_int (get_attr ATTR_DISTANCE_TRAVELED_M s) = Ok z ->
  (0 < z)%Z ->
  get_attr ATTR_UPDATES_SKIPPED s = VInt k ->
  (3 < k)%Z ->
  determine_if_update_needed s = Ok (true, s).
Proof.
  intros Hname (Hacc & Hinit & Hloc) Hint Hz Hk Hk3.
  unfold determine_if_update_needed, bind, read, read_r, ret, set, write.
  fold (accuracy_is_zero s). rewrite Hacc, Hinit, Hloc, Hint, Hk. cbn [rbind].
  rewrite py_gt_int, Rltb_IZR.
  destruct (Z.ltb_spec 0 z); [|lia]. destruct (Z.ltb_spec 3 k); [|lia].
  now rewrite (log_name_ok _ name).
Qed.

(** A run of the gate that returns leaves the store as it was, unless it
    is rule 5 that ran. *)
Lemma gate_changes_only_the_counter (s s' : gmap string value) b :
  determine_if_update_needed s = Ok (b, s') ->
  s' = s
  \/ (b = false
      /\ moved_after_first_update s
      /\ exists z v,
           py_int (get_attr ATTR_DISTANCE_TRAVELED_M s) = Ok z
           /\ (z < 10)%Z
           /\ py_add_one (get_attr ATTR_UPDATES_SKIPPED s) = Ok v
           /\ s' = set_attr ATTR_UPDATES_SKIPPED v s).
Proof.
  unfold determine_if_update_needed, bind, read, read_r, ret, set, write.
  fold (accuracy_is_zero s).
  destruct (accuracy_is_zero s) eqn:Hacc.
  { destruct (log_name s) as [[[] s1]|] eqn:Hlog; [|discriminate].
    apply log_name_inv in Hlog as [-> _]. intros [= <- <-]. now left. }
  destruct (truthy (get_attr ATTR_INITIAL_UPDATE s)) eqn:Hinit.
  { destruct (log_name s) as [[[] s1]|] eqn:Hlog; [|discriminate].
    apply log_name_inv in Hlog as [-> _]. intros [= <- <-]. now left. }
  destruct (py_eq _ _) eqn:Hloc.
  { destruct (log_name s) as [[[] s1]|] eqn:Hlog; [|discriminate].
    apply log_name_inv in Hlog as [-> _]. intros [= <- <-]. now left. }
  destruct (py_int (get_attr ATTR_DISTANCE_TRAVELED_M s)) as [z|] eqn:Hint;
    cbn [rbind]; [|discriminate].
  destruct (if (0 <? z)%Z then _ else _) as [forced|]; [|discriminate].
  destruct forced.
  { destruct (log_name s) as [[[] s1]|] eqn:Hlog; [|discriminate].
    apply log_name_inv in Hlog as [-> _]. intros [= <- <-]. now left. }
  rewrite Hint.
  destruct (Z.ltb_spec z 10) as [Hz|Hz].
  2:{ intros [= <- <-]. now left. }
  destruct (py_add_one (get_attr ATTR_UPDATES_SKIPPED s)) as [v|] eqn:Hadd; [|discriminate].
  destruct (log_name _) as [[[] s1]|] eqn:Hlog; [|discriminate].
  apply log_name_inv in Hlog as [-> _].
  destruct (py_round _ 1); [|discriminate].
  intros [= <- <-]. right. repeat split; eauto 10.
Qed.

(** C3: past rules 1 to 3, with less than 10 meters traveled and at most
    three skipped updates, the gate returns false and the counter is its
    former value plus 1; and whenever the gate returns, it has left the
    store as it was unless this debounce branch ran. *)
Theorem gate_debounce_counts_one_skip (s : gmap string value) (name : string) (d : R) (k : Z) :
  ATTR_UPDATES_SKIPPED <> CONF_NAME ->
  ATTR_UPDATES_SKIPPED <> ATTR_DISTANCE_TRAVELED_M ->
  get_attr CONF_NAME s = VStr name ->
  moved_after_first_update s ->
  as_real (get_attr ATTR_DISTANCE_TRAVELED_M s) = Some d ->
  (d < 10)%R ->
  get_attr ATTR_UPDATES_SKIPPED s = VInt k ->
  (k <= 3)%Z ->
  determine_if_update_needed s
  = Ok (false, set_attr ATTR_UPDATES_SKIPPED (VInt (k + 1)) s)
  /\ forall (s0 s1 : gmap string value) (b : bool),
       determine_if_update_needed s0 = Ok (b, s1) ->
       s1 = s0
       \/ (b = false
           /\ moved_after_first_update s0
           /\ exists z v,
                py_int (get_attr ATTR_DISTANCE_TRAVELED_M s0) = Ok z
                /\ (z < 10)%Z
                /\ py_add_one (get_attr ATTR_UPDATES_SKIPPED s0) = Ok v
                /\ s1 = set_attr ATTR_UPDATES_SKIPPED v s0).
Proof.
  intros Hn1 Hn2 Hname Hmoved Hd Hlt Hk Hk3. split.
  - destruct (py_int_of_number _ d Hd) as (z & Hint & Hbound & _).
    apply (gate_skips s name z k); auto.
    + congruence.
    + apply Hbound; [lra | lia].
  - intros s0 s1 b. apply gate_changes_only_the_counter.
Qed.

(** C2, as amended: past rules 1 to 3, with at least one whole meter
    traveled and more than three skipped updates, the gate returns true,
    also when less than 10 meters were traveled. *)
Theorem gate_forces_update_after_three_skips
        (s : gmap string value) (name : string) (d : R) (k : Z) :
  get_attr CONF_NAME s = VStr name ->
  moved_after_first_update s ->
  as_real (get_attr ATTR_DISTANCE_TRAVELED_M s) = Some d ->
  (1 <= d)%R ->
  get_attr ATTR_UPDATES_SKIPPED s = VInt k ->
  (3 < k)%Z ->
  determine_if_update_needed s = Ok (true, s).
Proof.
  intros Hname Hmoved Hd Hge Hk Hk3.
  destruct (py_int_of_number _ d Hd) as (z & Hint & _ & Hpos & _).
  apply (gate_forced s name z k); auto.
Qed.
End Gate.

Lemma gate_store_name t k : get_attr "name" (gate_store t k) = VStr "phone".
Proof. apply get_attr_str. unfold gate_store. now lookup_literal. Qed.

Lemma gate_store_traveled_float r k :
  get_attr "distance_traveled_m" (gate_store (VFloat r) k) = VFloat r.
Proof. apply get_attr_float. unfold gate_store. now lookup_literal. Qed.

Lemma gate_store_skipped t k : get_attr "updates_skipped" (gate_store t k) = VInt k.
Proof. apply get_attr_int. unfold gate_store. now lookup_literal. Qed.

Lemma gate_store_moved t k : moved_after_first_update (gate_store t k).
Proof.
  unfold moved_after_first_update, accuracy_is_zero. cbn [ATTR_GPS_ACCURACY
    ATTR_INITIAL_UPDATE ATTR_LOCATION_CURRENT ATTR_LOCATION_PREVIOUS attribute_names].
  rewrite (get_attr_float "gps_accuracy" _ 5) by (unfold gate_store; now lookup_literal).
  rewrite (get_attr_bool "initial_update" _ false) by (unfold gate_store; now lookup_literal).
  rewrite (get_attr_str "current_location" _ "2" "7.003,90.0")
    by (unfold gate_store; now lookup_literal).
  rewrite (get_attr_str "previous_location" _ "2" "7.0,90.0")
    by (unfold gate_store; now lookup_literal).
  repeat split; try reflexivity.
  apply andb_false_iff. right. unfold py_eq, as_real, Reqb.
  destruct (Req_dec_T 5 0); [lra | reflexivity].
Qed.

(** With 4 meters traveled and 2 skipped updates the gate skips a third
    time. *)
Lemma gate_debounce_counts_one_skip_witness :
  determine_if_update_needed (gate_store (VFloat 4) 2)
  = Ok (false, set_attr "updates_skipped" (VInt 3) (gate_store (VFloat 4) 2)).
Proof.
  refine (proj1 (gate_debounce_counts_one_skip (gate_store (VFloat 4) 2) "phone" 4 2
                   _ _ _ _ _ _ _ _)).
  - discriminate.
  - discriminate.
  - apply gate_store_name.
  - apply gate_store_moved.
  - cbn [ATTR_DISTANCE_TRAVELED_M attribute_names].
    now rewrite gate_store_traveled_float.
  - lra.
  - apply gate_store_skipped.
  - lia.
Defined.

(** With 4 meters traveled and 5 skipped updates the gate opens. *)
Lemma gate_forces_update_after_three_skips_witness :
  determine_if_update_needed (gate_store (VFloat 4) 5) = Ok (true, gate_store (VFloat 4) 5).
Proof.
  apply (gate_forces_update_after_three_skips (gate_store (VFloat 4) 5) "phone" 4 5).
  - apply gate_store_name.
  - apply gate_store_moved.
  - cbn [ATTR_DISTANCE_TRAVELED_M attribute_names].
    now rewrite gate_store_traveled_float.
  - lra.
  - apply gate_store_skipped.
  - lia.
Defined.

(** C2, as stated, fails: half a meter traveled is a distance >= 0 and
    four skipped updates are more than three, yet the gate returns false
    (and counts a fifth skip), because rule 4 asks for [int(distance) > 0]. *)
Lemma gate_declines_half_a_meter_after_four_skips :
  moved_after_first_update (gate_store (VFloat (1 / 2)) 4)
  /\ as_real (get_attr "distance_traveled_m" (gate_store (VFloat (1 / 2)) 4)) = Some (1 / 2)%R
  /\ (0 <= 1 / 2)%R
  /\ get_attr "updates_skipped" (gate_store (VFloat (1 / 2)) 4) = VInt 4
  /\ (3 < 4)%Z
  /\ determine_if_update_needed (gate_store (VFloat (1 / 2)) 4)
     = Ok (false, set_attr "updates_skipped" (VInt 5) (gate_store (VFloat (1 / 2)) 4)).
Proof.
  split; [apply gate_store_moved|].
  split; [now rewrite gate_store_traveled_float|].
  split; [lra|].
  split; [apply gate_store_skipped|].
  split; [lia|].
  refine (gate_skips (gate_store (VFloat (1 / 2)) 4) "phone" (py_trunc (1 / 2)) 4
                     _ _ _ _ _ _ _ _ _).
  - discriminate.
  - discriminate.
  - apply gate_store_name.
  - apply gate_store_moved.
  - cbn [ATTR_DISTANCE_TRAVELED_M attribute_names].
    now rewrite gate_store_traveled_float.
  - cbn [ATTR_DISTANCE_TRAVELED_M attribute_names].
    now rewrite gate_store_traveled_float.
  - assert (py_trunc (1 / 2) <= 0)%Z by (apply py_trunc_small; lra). lia.
  - apply gate_store_skipped.
  - left. apply py_trunc_small. lra.
Qed.

(** ** Fetching a dictionary *)

Section Fetch.
Context {B : Builtins} {K : Consts}.

(** C8: with the entity name in place for the log messages, every
    transport failure, every body that is not JSON and every JSON object
    with an [error_message] key gives the empty dictionary and no
    exception; a JSON object without that key is returned as parsed; and a
    non-empty result is always the parsed body of a response that has no
    [error_message]. *)
Theorem get_dict_from_url_empty_on_failure
        (E : env) (url name : string) (s : gmap string value) :
  get_attr CONF_NAME s = VStr name ->
  (transport_failure (requests_get E url) ->
   get_dict_from_url E url s = Ok (VDict [], s))
  /\ (forall ok text,
        requests_get E url = FetchResponse ok text ->
        json_loads E text = None ->
        get_dict_from_url E url s = Ok (VDict [], s))
  /\ (forall ok text d e,
        requests_get E url = FetchResponse ok text ->
        json_loads E text = Some (VDict d) ->
        assoc "error_message" d = Some e ->
        get_dict_from_url E url s = Ok (VDict [], s))
  /\ (forall text d,
        requests_get E url = FetchResponse true text ->
        text <> "" ->
        json_loads E text = Some (VDict d) ->
        assoc "error_message" d = None ->
        get_dict_from_url E url s = Ok (VDict d, s))
  /\ (forall v s',
        get_dict_from_url E url s = Ok (v, s') ->
        v <> VDict [] ->
        s' = s
        /\ exists text,
             requests_get E url = FetchResponse true text
             /\ json_loads E text = Some v
             /\ py_in (VStr "error_message") v = Ok false).
Proof.
  intros Hname.
  pose proof (log_name_ok s name Hname) as Hlog.
  unfold get_dict_from_url, bind, ret, read_r, when. rewrite Hlog.
  split; [|split; [|split; [|split]]].
  - destruct (requests_get E url); simpl; try contradiction; intros _;
      now rewrite Hlog.
  - intros ok text -> Hjson.
    destruct ok; simpl; rewrite ?Hlog.
    + rewrite Hjson. destruct (negb (text =? "")%string); simpl; now rewrite ?Hlog.
    + reflexivity.
  - intros ok text d e -> Hjson Herr.
    destruct ok; simpl; rewrite ?Hlog; [|reflexivity].
    rewrite Hjson. destruct (negb (text =? "")%string); simpl; [|reflexivity].
    rewrite Herr. now rewrite Hlog.
  - intros text d -> Hne Hjson Herr. simpl. rewrite Hlog.
    destruct (String.eqb_spec text ""); [contradiction|]. simpl.
    rewrite Hjson. simpl. now rewrite Herr.
  - intros v s' Hrun Hv.
    destruct (requests_get E url) as [| | | |ok text]; simpl in *;
      rewrite ?Hlog in *; try congruence.
    destruct ok; simpl in *; rewrite ?Hlog in *; [|congruence].
    destruct (negb (text =? "")%string); simpl in *; [|congruence].
    destruct (json_loads E text) as [parsed|] eqn:Hjson; rewrite ?Hlog in *; [|congruence].
    destruct (py_in (VStr "error_message") parsed) as [[|]|] eqn:Hin;
      rewrite ?Hlog in *; try congruence.
    + destruct (dict_get parsed (VStr "error_message")); congruence.
    + inversion Hrun; subst. split; [reflexivity|]. exists text. auto.
Qed.
End Fetch.

(** A request that times out gives the empty dictionary. *)
Lemma get_dict_from_url_empty_on_failure_witness :
  get_dict_from_url meridian_env "https://nominatim.openstreetmap.org/reverse"
                    (gate_store (VInt 0) 0)
  = Ok (VDict [], gate_store (VInt 0) 0).
Proof.
  refine (proj1 (get_dict_from_url_empty_on_failure
                   meridian_env "https://nominatim.openstreetmap.org/reverse" "phone"
                   (gate_store (VInt 0) 0) _) _).
  - apply gate_store_name.
  - exact I.
Defined.

(** ** Parsing the OpenStreetMap response *)

(** C4: for the reference ["I-90;US-20"] of a highway the parser stores
    ["I"], the first character, where the cut at the earliest delimiter is
    ["I-90"]. *)
Theorem parse_osm_dict_cuts_street_ref_after_one_character :
  attr_after (parse_osm_dict highway_store) "street_ref" = Ok (Some (VStr "I"))
  /\ street_ref_as_specified "I-90;US-20" = "I-90".
Proof. split; vm_compute; reflexivity. Qed.

(** C6: a response without the [namedetails] object (here the response of
    the Springfield scenario) and a response with a type and without the
    [address] object both make the parser raise a [TypeError]. *)
Theorem parse_osm_dict_raises_without_sub_objects :
  parse_osm_dict (springfield_store springfield_response) = Raise TypeError
  /\ parse_osm_dict (springfield_store response_without_address) = Raise TypeError.
Proof. split; vm_compute; reflexivity. Qed.

(** ** Display options *)

(** C5, as amended: in the Springfield scenario (not in a zone, street
    ["Main St"], street number ["12"]) with the options
    ["street,city,state"] the builder produces ["Main St, Springfield, IL"]:
    the house number belongs to the option [street_number]. *)
Theorem display_options_street_city_state :
  let parsed := parse_osm_dict (springfield_store springfield_response_with_namedetails) in
  attr_after parsed "street" = Ok (Some (VStr "Main St"))
  /\ attr_after parsed "street_number" = Ok (Some (VStr "12"))
  /\ in_zone (springfield_store springfield_response_with_namedetails) = Ok false
  /\ attr_after
       ((let* _ := parse_osm_dict in
         let* display_options := split_display_options in
         let* _ := get_driving_status in
         build_state_from_display_options)
          (springfield_store springfield_response_with_namedetails))
       "native_value"
     = Ok (Some (VStr "Main St, Springfield, IL")).
Proof. repeat split; vm_compute; reflexivity. Qed.

(** C5, as stated, fails: the value the builder produces in the scenario
    is not ["12 Main St, Springfield, IL"]. *)
Lemma display_options_leave_out_the_house_number :
  attr_after
    ((let* _ := parse_osm_dict in
      let* display_options := split_display_options in
      let* _ := get_driving_status in
      build_state_from_display_options)
       (springfield_store springfield_response_with_namedetails))
    "native_value"
  <> Ok (Some (VStr "12 Main St, Springfield, IL")).
Proof. vm_compute. discriminate. Qed.

(** ** Running a method on a concrete store

    The stores of the examples are written with [set_attr] over a base
    store whose keys are literal strings; a run is followed statement by
    statement, the attributes read being looked up by rewriting and the
    real numbers left as they are written. *)

Lemma run_bind_ok {A C} (m : M A) (k : A -> M C) s a s1 r :
  m s = Ok (a, s1) -> k a s1 = r -> bind m k s = r.
Proof. intros H <-. unfold bind. now rewrite H. Qed.

Lemma attr_after_ok {A} (r : result (A * gmap string value)) a s k o :
  r = Ok (a, s) -> s !! k = o -> attr_after r k = Ok o.
Proof. intros -> <-. reflexivity. Qed.

Lemma lookup_set_attr_eq k v (s : gmap string value) : set_attr k v s !! k = Some v.
Proof. apply lookup_insert_eq. Qed.

Lemma lookup_set_attr_ne k k' v (s : gmap string value) :
  k <> k' -> set_attr k v s !! k' = s !! k'.
Proof. apply lookup_insert_ne. Qed.

Lemma is_attr_blank_float k s r : s !! k = Some (VFloat r) -> is_attr_blank k s = false.
Proof. intros H. unfold is_attr_blank, lookup_value. rewrite H. apply blank_value_float. Qed.

Lemma is_attr_blank_int k s z : s !! k = Some (VInt z) -> is_attr_blank k s = false.
Proof. intros H. unfold is_attr_blank, lookup_value. rewrite H. apply blank_value_int. Qed.

Lemma is_attr_blank_bool k s b : s !! k = Some (VBool b) -> is_attr_blank k s = false.
Proof. intros H. unfold is_attr_blank, lookup_value. rewrite H. apply blank_value_bool. Qed.

Lemma is_attr_blank_str k s c t :
  s !! k = Some (VStr (String c t)) -> is_attr_blank k s = false.
Proof. intros H. unfold is_attr_blank, lookup_value. now rewrite H. Qed.

Lemma is_attr_blank_absent k (s : gmap string value) :
  s !! k = None -> is_attr_blank k s = true.
Proof. intros H. unfold is_attr_blank, lookup_value. now rewrite H. Qed.

Lemma Rleb_true x y : (x <= y)%R -> Rleb x y = true.
Proof. intros H. unfold Rleb. now destruct (Rle_dec x y). Qed.

Ltac literal_names :=
  cbv [attribute_names
       ATTR_FRIENDLY_NAME ATTR_GPS_ACCURACY CONF_API_KEY CONF_LATITUDE CONF_LONGITUDE
       CONF_NAME CONF_ZONE ATTR_CITY ATTR_COUNTRY ATTR_COUNTY ATTR_DEVICETRACKER_ZONE
       ATTR_DEVICETRACKER_ZONE_NAME ATTR_DIRECTION_OF_TRAVEL ATTR_DISPLAY_OPTIONS
       ATTR_DISTANCE_FROM_HOME_KM ATTR_DISTANCE_FROM_HOME_M ATTR_DISTANCE_FROM_HOME_MI
       ATTR_DISTANCE_TRAVELED_M ATTR_DISTANCE_TRAVELED_MI ATTR_FORMATTED_ADDRESS
       ATTR_FORMATTED_PLACE ATTR_HOME_LATITUDE ATTR_HOME_LOCATION ATTR_HOME_LONGITUDE
       ATTR_INITIAL_UPDATE ATTR_IS_DRIVING ATTR_LAST_CHANGED ATTR_LAST_PLACE_NAME
       ATTR_LAST_UPDATED ATTR_LATITUDE ATTR_LATITUDE_OLD ATTR_LOCATION_CURRENT
       ATTR_LOCATION_PREVIOUS ATTR_LONGITUDE ATTR_LONGITUDE_OLD ATTR_MAP_LINK
       ATTR_NATIVE_VALUE ATTR_OPTIONS ATTR_OSM_DETAILS_DICT ATTR_OSM_DICT ATTR_OSM_ID
       ATTR_OSM_TYPE ATTR_PLACE_CATEGORY ATTR_PLACE_NAME ATTR_PLACE_NEIGHBOURHOOD
       ATTR_PLACE_TYPE ATTR_POSTAL_CODE ATTR_POSTAL_TOWN ATTR_PREVIOUS_STATE ATTR_REGION
       ATTR_STATE_ABBR ATTR_STREET ATTR_STREET_NUMBER ATTR_STREET_REF ATTR_UPDATES_SKIPPED
       ATTR_WIKIDATA_DICT ATTR_WIKIDATA_ID CONF_DEVICETRACKER_ID CONF_EXTENDED_ATTR
       CONF_HOME_ZONE CONF_LANGUAGE CONF_MAP_PROVIDER CONF_MAP_ZOOM CONF_OPTIONS
       CONF_SHOW_TIME EVENT_ATTRIBUTE_LIST EXTENDED_ATTRIBUTE_LIST
       PLACE_NAME_DUPLICATE_LIST RESET_ATTRIBUTE_LIST].

(** Evaluation that leaves stores and real numbers as they are written. *)
Ltac rlazy :=
  lazy -[IZR Rdiv Rminus pow haversine radians sin cos asin sqrt PI round_real py_trunc
         Int_part Reqb Rleb Rltb Req_dec_T Rle_dec Rlt_dec Rplus Rmult Ropp Rinv
         set_attr clear_attr cleanup_attributes meridian_store gate_store creeping_store
         get_attr is_attr_blank].

(** [S !! k = ?o] for a store written with [set_attr] over a base store. *)
Ltac look :=
  repeat first
    [ rewrite lookup_set_attr_eq
    | rewrite lookup_set_attr_ne by (intro; discriminate) ];
  first [ reflexivity | vm_compute; reflexivity ].

Ltac eval_attr :=
  match goal with
  | |- context [get_attr ?k ?s] =>
      first
        [ erewrite (get_attr_float k s) by look
        | erewrite (get_attr_str k s) by look
        | erewrite (get_attr_int k s) by look
        | erewrite (get_attr_bool k s) by look
        | erewrite (get_attr_absent k s) by look ]
  | |- context [is_attr_blank ?k ?s] =>
      first
        [ erewrite (is_attr_blank_float k s) by look
        | erewrite (is_attr_blank_str k s) by look
        | erewrite (is_attr_blank_int k s) by look
        | erewrite (is_attr_blank_bool k s) by look
        | erewrite (is_attr_blank_absent k s) by look ]
  end.

(** One statement: [m s = Ok (?a, ?s1)]; [facts] settles what the
    evaluation leaves of the real numbers. *)
Ltac prim facts :=
  unfold attr, blank, set, float_attr, log_name, read, read_r, write, ret, in_zone;
  cbv beta;
  repeat eval_attr;
  rlazy;
  first [ reflexivity | facts; rlazy; reflexivity ].

Ltac reduce_condition b :=
  let b' := eval lazy -[IZR Rdiv Rminus pow haversine radians sin cos asin sqrt PI round_real
         py_trunc Int_part Reqb Rleb Rltb Req_dec_T Rle_dec Rlt_dec Rplus Rmult Ropp Rinv
         set_attr clear_attr cleanup_attributes meridian_store gate_store creeping_store
         get_attr is_attr_blank] in b in
  lazymatch b' with
  | true => change b with true; cbv iota
  | false => change b with false; cbv iota
  end.

Ltac reduce_scrutinee x :=
  let x' := eval lazy -[IZR Rdiv Rminus pow haversine radians sin cos asin sqrt PI round_real
         py_trunc Int_part Reqb Rleb Rltb Req_dec_T Rle_dec Rlt_dec Rplus Rmult Ropp Rinv
         set_attr clear_attr cleanup_attributes meridian_store gate_store creeping_store
         get_attr is_attr_blank] in x in
  change x with x'.

(** A whole method, statement by statement. *)
Ltac run facts :=
  cbv beta iota;
  lazymatch goal with
  | |- bind _ _ _ = _ => eapply run_bind_ok; [ run facts | run facts ]
  | |- (if ?b then _ else _) _ = _ =>
      first [ reduce_condition b | facts; cbv iota ]; run facts
  | |- (match ?x with _ => _ end) _ = _ => reduce_scrutinee x; run facts
  | |- when _ _ _ = _ => unfold when; run facts
  | |- set_location _ _ _ _ = _ => unfold set_location; run facts
  | |- set_scaled _ _ _ _ = _ => unfold set_scaled; run facts
  | |- write cleanup_attributes _ = _ => unfold write; facts; reflexivity
  | |- _ => prim facts
  end.

(** ** Coordinate and distance resolver *)

Lemma radians_90 : radians 90 = (PI / 2)%R.
Proof. unfold radians. lra. Qed.

(** Along a meridian the distance is the arc of the difference of the
    latitudes. *)
Lemma haversine_on_a_meridian lon lat1 lat2 :
  (0 <= lat2 - lat1 <= 180)%R ->
  haversine lon lat1 lon lat2 = (6371 * radians (lat2 - lat1))%R.
Proof.
  intros Hlat. unfold haversine.
  replace ((radians lon - radians lon) / 2)%R with 0%R by lra.
  rewrite sin_0.
  set (t := ((radians lat2 - radians lat1) / 2)%R).
  assert (Ht : (0 <= t <= PI / 2)%R).
  { unfold t, radians. pose proof PI_RGT_0. split; nra. }
  replace (sin t ^ 2 + cos (radians lat1) * cos (radians lat2) * 0 ^ 2)%R
    with (sin t ^ 2)%R by ring.
  rewrite sqrt_pow2 by (apply sin_ge_0; pose proof PI_RGT_0; lra).
  rewrite asin_sin by lra.
  unfold t, radians. lra.
Qed.

(** With 90 in the place of both latitudes the distance is 0, whatever
    stands in the place of the longitudes. *)
Lemma haversine_latitude_90 lon1 lon2 : haversine lon1 90 lon2 90 = 0%R.
Proof.
  unfold haversine. rewrite radians_90, cos_PI2.
  replace ((PI / 2 - PI / 2) / 2)%R with 0%R by lra.
  rewrite sin_0.
  replace (0 ^ 2 + 0 * 0 * sin ((radians lon2 - radians lon1) / 2) ^ 2)%R with 0%R by ring.
  rewrite sqrt_0, asin_0. ring.
Qed.

Lemma resolver_on_the_meridian (last_distance_m : R) :
  attr_after (update_coordinates_and_distance meridian_env (meridian_store last_distance_m))
             "direction_of_travel"
  = Ok (Some (VStr "stationary")).
Proof.
  unfold update_coordinates_and_distance. literal_names.
  eapply attr_after_ok.
  - run ltac:(rewrite Rleb_true
                by (replace (90 + 0 / 10 ^ 1)%R with 90%R by lra;
                    rewrite haversine_latitude_90; lra)).
  - look.
Qed.

(** C1: a device moves 333 m north along the 90th meridian, towards its
    home: the great-circle distance between the old and the new
    coordinates is above 0.2 km and the new distance from home is below
    the old one, yet the direction of travel is set to ["stationary"],
    because [haversine] is called with latitude and longitude exchanged. *)
Theorem resolver_stationary_where_moving_towards_home :
  attr_after
    (update_coordinates_and_distance
       meridian_env (meridian_store (1000 * haversine 90 27 90 28)))
    "direction_of_travel"
  = Ok (Some (VStr "stationary"))
  /\ (2 / 10 < haversine 90 27 90 (27003 / 1000))%R
  /\ great_circle (27003 / 1000) 90 28 90 = Some (1000 * haversine 90 (27003 / 1000) 90 28)%R
  /\ (1000 * haversine 90 (27003 / 1000) 90 28 < 1000 * haversine 90 27 90 28)%R.
Proof.
  split; [apply resolver_on_the_meridian|].
  pose proof PI2_3_2 as Hpi.
  split; [|split; [reflexivity|]].
  - rewrite haversine_on_a_meridian by lra. unfold radians. lra.
  - rewrite !haversine_on_a_meridian by lra. unfold radians. lra.
Qed.

(** ** The update pass *)

Lemma bind_inv {A C} (m : M A) (k : A -> M C) s c s' :
  bind m k s = Ok (c, s') -> exists a s1, m s = Ok (a, s1) /\ k a s1 = Ok (c, s').
Proof.
  unfold bind. destruct (m s) as [[a s1]|]; [|discriminate]. eauto.
Qed.

Section Pass.
Context {B : Builtins} {K : Consts}.

Lemma keeps_ret {A} (a : A) : keeps (ret a).
Proof. intros s b s' [= <- <-]. auto. Qed.
Lemma keeps_raise {A} e : keeps (@raise A e).
Proof. intros s b s' [=]. Qed.
Lemma keeps_read {A} (f : gmap string value -> A) : keeps (read f).
Proof. intros s b s' [= <- <-]. auto. Qed.
Lemma keeps_read_r {A} (f : gmap string value -> result A) : keeps (read_r f).
Proof. intros s b s'. unfold read_r. destruct (f s); intros [= <- <-]. auto. Qed.
Lemma keeps_bind {A C} (m : M A) (k : A -> M C) :
  keeps m -> (forall a, keeps (k a)) -> keeps (bind m k).
Proof.
  intros Hm Hk s c s' H Hs. apply bind_inv in H as (a & s1 & H1 & H2).
  eapply Hk; eauto.
Qed.
Lemma keeps_if {A} (b : bool) (m1 m2 : M A) :
  keeps m1 -> keeps m2 -> keeps (if b then m1 else m2).
Proof. now destruct b. Qed.
Lemma keeps_when b m : keeps m -> keeps (when b m).
Proof. intros H. unfold when. apply keeps_if; [assumption | apply keeps_ret]. Qed.
Lemma keeps_log_name : keeps log_name.
Proof.
  intros s a s'. unfold log_name. destruct (get_attr CONF_NAME s); try discriminate.
  intros [= _ <-]. auto.
Qed.
Lemma keeps_attr k : keeps (attr k).
Proof. apply keeps_read. Qed.
Lemma keeps_blank k : keeps (blank k).
Proof. apply keeps_read. Qed.
Lemma keeps_float_attr k : keeps (float_attr k).
Proof. apply keeps_read_r. Qed.
Lemma keeps_set k v : k <> ATTR_NATIVE_VALUE -> keeps (set k v).
Proof.
  intros Hk s a s' H Hs t. unfold set, write in H. injection H as _ <-.
  unfold set_attr. rewrite lookup_insert_ne by assumption. apply Hs.
Qed.
Lemma keeps_clear k : keeps (write (clear_attr k)).
Proof.
  intros s a s' H0 Hs t. unfold write in H0. injection H0 as _ <-.
  unfold clear_attr. intros H.
  apply lookup_delete_Some in H as [_ H]. now apply Hs.
Qed.
Lemma keeps_clear_all l :
  keeps (write (fun s => fold_left (fun acc a => clear_attr a acc) l s)).
Proof.
  intros s a s' H0. unfold write in H0. injection H0 as _ <-.
  revert s. induction l as [|k l IH]; intros s Hs; simpl; [assumption|].
  apply IH. eapply (keeps_clear k); [reflexivity | exact Hs].
Qed.
Lemma keeps_cleanup : keeps (write cleanup_attributes).
Proof.
  intros s a s' H0 Hs t. unfold write in H0. injection H0 as _ <-.
  unfold cleanup_attributes. intros H.
  apply map_lookup_filter_Some in H as [H _]. now apply Hs.
Qed.

Ltac keeps_step :=
  first
    [ apply keeps_bind; [ | intros ? ]
    | apply keeps_ret | apply keeps_raise | apply keeps_read | apply keeps_read_r
    | apply keeps_log_name | apply keeps_attr | apply keeps_blank | apply keeps_float_attr
    | apply keeps_cleanup | apply keeps_clear_all | apply keeps_clear
    | apply keeps_when | apply keeps_if
    | apply keeps_set; assumption
    | match goal with
      | |- keeps (match ?x with _ => _ end) => destruct x
      end ].

Ltac solve_keeps := repeat keeps_step.


Ltac unbind H Hm :=
  cbv beta zeta in H;
  let a := fresh "a" in
  let s1 := fresh "s" in
  apply bind_inv in H as (a & s1 & Hm & H); cbv beta zeta in H.

Lemma ret_inv {A} (a b : A) (s s' : gmap string value) :
  ret a s = Ok (b, s') -> b = a /\ s' = s.
Proof. unfold ret. intros [= <- <-]. auto. Qed.

Lemma write_inv f (s s' : gmap string value) u : write f s = Ok (u, s') -> s' = f s.
Proof. unfold write. intros [= <-]. auto. Qed.

Lemma log_name_state s u s' : log_name s = Ok (u, s') -> s' = s.
Proof. intros H. now apply log_name_inv in H as [-> _]. Qed.

(** The two statements that end every pass. *)
Lemma stamp_inv (E : env) (result out : outcome) (s s' : gmap string value) :
  (let* _ := set ATTR_LAST_UPDATED (VStr (now_str E)) in
   let* _ := log_name in
   ret result) s = Ok (out, s') ->
  out = result /\ s' = set_attr ATTR_LAST_UPDATED (VStr (now_str E)) s.
Proof.
  intros H. unbind H Hset. unbind H Hlog.
  apply write_inv in Hset. apply log_name_state in Hlog. apply ret_inv in H as [-> ->].
  subst. auto.
Qed.

(** The statements of a revert. *)
Lemma revert_inv (previous_attr : gmap string value) (tag result : outcome)
      (s s' : gmap string value) :
  (let* _ := write (fun _ => previous_attr) in
   let* _ := log_name in
   ret tag) s = Ok (result, s') ->
  result = tag /\ s' = previous_attr.
Proof.
  intros H. unbind H Hw. unbind H Hlog.
  apply write_inv in Hw. apply log_name_state in Hlog. apply ret_inv in H as [-> ->].
  subst. auto.
Qed.

(** C10: a pass of [do_update] that returns on one of its revert paths
    (coordinates missing, gate closed, zone blank, or state unchanged)
    leaves the store equal to the one the pass started from with only
    [last_updated] set to the time of the pass. So the number of skipped
    updates after the pass is the number before it: what the debounce
    branch of the gate added during the pass is gone. *)
Theorem do_update_revert_restores_the_snapshot
        (E : env) (s s' : gmap string value) (out : outcome) :
  do_update E s = Ok (out, s') ->
  reverted out ->
  s' = set_attr ATTR_LAST_UPDATED (VStr (now_str E)) s
  /\ (ATTR_LAST_UPDATED <> ATTR_UPDATES_SKIPPED ->
      s' !! ATTR_UPDATES_SKIPPED = s !! ATTR_UPDATES_SKIPPED).
Proof.
  intros H Hout.
  assert (s' = set_attr ATTR_LAST_UPDATED (VStr (now_str E)) s) as ->.
  2:{ split; [reflexivity|]. intros Hne. unfold set_attr. now rewrite lookup_insert_ne. }
  unfold do_update in H.
  unbind H Hm. unfold read in Hm. injection Hm as <- <-.
  repeat (lazymatch type of H with
          | bind (if (_ && negb _) then _ else _) _ _ = _ => fail
          | _ => idtac
          end;
          unbind H Hm; clear Hm).
  unbind H Hbranch. apply stamp_inv in H as [-> ->]. f_equal.
  match type of Hbranch with (if ?c then _ else _) _ = _ => destruct c end.
  2:{ now apply revert_inv in Hbranch as [_ ->]. }
  repeat (lazymatch type of Hbranch with
          | bind _ _ _ = _ => idtac
          end;
          unbind Hbranch Hm; clear Hm).
  match type of Hbranch with (if ?c then _ else _) _ = _ => destruct c end.
  2:{ apply ret_inv in Hbranch as [-> _]. contradiction. }
  repeat (lazymatch type of Hbranch with
          | bind _ _ _ = _ => idtac
          end;
          unbind Hbranch Hm; clear Hm).
  match type of Hbranch with (if ?c then _ else _) _ = _ => destruct c end.
  2:{ now apply revert_inv in Hbranch as [_ ->]. }
  repeat (lazymatch type of Hbranch with
          | bind _ _ _ = _ => idtac
          end;
          unbind Hbranch Hm; clear Hm).
  apply ret_inv in Hbranch as [-> _]. contradiction.
Qed.

Section Apart.
Hypothesis Hapart : Forall (fun k => k <> ATTR_NATIVE_VALUE) written_around_native_value.

Ltac apart :=
  pose proof Hapart as Hapart';
  unfold written_around_native_value in Hapart';
  repeat match goal with
         | H : Forall _ (_ :: _) |- _ =>
             let H1 := fresh "Hne" in
             apply Forall_cons in H as [H1 H]
         end.

Lemma keeps_check_for_updated_entity_name E : keeps (check_for_updated_entity_name E).
Proof. apart. unfold check_for_updated_entity_name. solve_keeps. Qed.

Lemma keeps_tracker_state E k : keeps (tracker_state E k).
Proof. apply keeps_read_r. Qed.

Lemma keeps_get_gps_accuracy E : keeps (get_gps_accuracy E).
Proof. apart. unfold get_gps_accuracy. solve_keeps; apply keeps_tracker_state. Qed.

Lemma keeps_get_zone_details E : keeps (get_zone_details E).
Proof.
  apart. unfold get_zone_details.
  repeat first [ apply keeps_tracker_state | keeps_step ].
Qed.

Lemma keeps_update_coordinates_and_distance E : keeps (update_coordinates_and_distance E).
Proof.
  apart. unfold update_coordinates_and_distance, set_location, set_scaled. solve_keeps.
Qed.

Lemma keeps_determine_if_update_needed : keeps determine_if_update_needed.
Proof. apart. unfold determine_if_update_needed. solve_keeps. Qed.

Lemma keeps_reset_attributes : keeps _reset_attributes.
Proof. apart. unfold _reset_attributes. solve_keeps. Qed.

Lemma keeps_get_map_link : keeps get_map_link.
Proof. apart. unfold get_map_link. solve_keeps. Qed.

Lemma keeps_get_dict_from_url E url : keeps (get_dict_from_url E url).
Proof. unfold get_dict_from_url. solve_keeps. Qed.

Lemma keeps_fire_event_data p : keeps (fire_event_data p).
Proof. unfold fire_event_data. solve_keeps. Qed.

Lemma keeps_write_sensor_to_json E : keeps (write_sensor_to_json E).
Proof. unfold write_sensor_to_json. solve_keeps. Qed.

Lemma take_str_length n t : (String.length (take_str n t) <= n)%nat.
Proof.
  revert t. induction n as [|n IH]; intros [|c t]; simpl; try lia.
  specialize (IH t). lia.
Qed.

Lemma append_length (a b : string) :
  String.length (a ++ b) = (String.length a + String.length b)%nat.
Proof. induction a as [|c a IH]; simpl; [reflexivity | now rewrite IH]. Qed.

Lemma fmt02_length n : (n < 100)%nat -> String.length (fmt02 n) = 2%nat.
Proof.
  intros Hn. do 100 (destruct n as [|n]; [vm_compute; reflexivity|]). lia.
Qed.

Lemma get_attr_lookup k s v : get_attr k s = v -> v <> VNone -> s !! k = Some v.
Proof.
  unfold get_attr, lookup_value. destruct (is_attr_blank k s); [congruence|].
  destruct (s !! k); simpl; congruence.
Qed.

Lemma py_slice_to_str_length v (n : nat) w :
  py_slice_to v (Z.of_nat n) = Ok (VStr w) -> (String.length w <= n)%nat.
Proof.
  destruct v; try discriminate; unfold py_slice_to.
  destruct (Z.leb_spec 0 (Z.of_nat n)); [|lia].
  rewrite Nat2Z.id. intros [= <-]. apply take_str_length.
Qed.

(** After the cut the stored state is within the bound, also with the
    suffix. *)
Lemma truncate_native_value_bounds current_time s u s' :
  truncate_native_value current_time s = Ok (u, s') ->
  String.length current_time = 5%nat ->
  native_value_bounded s'.
Proof.
  intros H Hct. unfold truncate_native_value in H.
  change (255 - 14)%Z with (Z.of_nat 241) in H. change 255%Z with (Z.of_nat 255) in H.
  apply bind_inv in H as (no_value & s1 & Hm & H). injection Hm as <- <-.
  destruct (is_attr_blank ATTR_NATIVE_VALUE s); cbn [negb] in H.
  - apply bind_inv in H as (? & s2 & Hm & H). unfold write in Hm. injection Hm as _ <-.
    refine (keeps_log_name _ _ _ H _).
    intros t. unfold clear_attr. now rewrite lookup_delete_eq.
  - apply bind_inv in H as (show_time & s2 & Hm & H). injection Hm as <- <-.
    apply bind_inv in H as ([] & s3 & Hm & H).
    refine (keeps_log_name _ _ _ H _). clear H.
    destruct (truthy (get_attr CONF_SHOW_TIME s)).
    + apply bind_inv in Hm as (head & s4 & Hh & Hm). unfold read_r in Hh.
      destruct (py_slice_to _ _) as [w|] eqn:Hslice; [|discriminate]. injection Hh as <- <-.
      apply bind_inv in Hm as (h & s5 & Hh & Hm). unfold read_r in Hh.
      destruct (concat_operand w) as [h'|] eqn:Hw; [|discriminate]. injection Hh as <- <-.
      unfold set, write in Hm. injection Hm as <-.
      intros t. unfold set_attr. rewrite lookup_insert_eq. intros [= <-].
      destruct w; try discriminate. injection Hw as ->.
      apply py_slice_to_str_length in Hslice.
      rewrite !append_length, Hct.
      change (String.length " (since ") with 8%nat. change (String.length ")") with 1%nat.
      lia.
    + apply bind_inv in Hm as (head & s4 & Hh & Hm). unfold read_r in Hh.
      destruct (py_slice_to _ _) as [w|] eqn:Hslice; [|discriminate]. injection Hh as <- <-.
      unfold set, write in Hm. injection Hm as <-.
      intros t. unfold set_attr. rewrite lookup_insert_eq. intros [= ->].
      now apply py_slice_to_str_length in Hslice.
Qed.

Ltac keeps_pass E :=
  repeat first
    [ apply keeps_check_for_updated_entity_name
    | apply keeps_tracker_state
    | apply keeps_get_gps_accuracy
    | apply keeps_get_zone_details
    | apply keeps_update_coordinates_and_distance
    | apply keeps_determine_if_update_needed
    | apply keeps_reset_attributes
    | apply keeps_get_map_link
    | apply keeps_get_dict_from_url
    | apply keeps_fire_event_data
    | apply keeps_write_sensor_to_json
    | keeps_step ].

(** One statement further, the bound on the stored state carried along. *)
Ltac advance E H :=
  lazymatch type of H with
  | bind ?m _ ?s = _ =>
      let Hm := fresh "Hm" in
      let Hk := fresh "Hkeeps" in
      assert (Hk : keeps m) by (solve [keeps_pass E]);
      unbind H Hm;
      match goal with
      | Hb : native_value_bounded s |- _ =>
          let Hb' := fresh "Hbounded" in
          pose proof (Hk _ _ _ Hm Hb) as Hb'
      end;
      clear Hm Hk
  end.

Lemma current_time_length (E : env) :
  (now_hour E < 24)%nat ->
  (now_minute E < 60)%nat ->
  String.length (fmt02 (now_hour E) ++ ":" ++ fmt02 (now_minute E)) = 5%nat.
Proof.
  intros Hh Hm. rewrite !append_length, !fmt02_length by lia. reflexivity.
Qed.

End Apart.
End Pass.

(** The names of [attribute_names] that the pass writes around the state
    differ from the name of the state. *)
Lemma attribute_names_apart :
  Forall (fun k => k <> ATTR_NATIVE_VALUE) written_around_native_value.
Proof. repeat constructor; discriminate. Qed.

(** *** A pass that the gate declines *)

Lemma cleanup_attributes_id (s : gmap string value) :
  (forall k v, s !! k = Some v -> blank_value v = false) -> cleanup_attributes s = s.
Proof.
  intros H. unfold cleanup_attributes. apply map_filter_id.
  intros k v Hk. simpl. eauto.
Qed.

Lemma cleanup_creeping : cleanup_attributes creeping_store = creeping_store.
Proof.
  apply cleanup_attributes_id. intros k v H. unfold creeping_store in H.
  repeat (apply lookup_insert_Some in H as [[_ <-]|[_ H]];
          [first [reflexivity | apply blank_value_bool | apply blank_value_int]|]).
  rewrite lookup_empty in H. discriminate.
Qed.

Lemma py_trunc_unit r : (1 <= r < 2)%R -> py_trunc r = 1%Z.
Proof.
  intros [H1 H2]. pose proof (py_trunc_ge_1 r H1). pose proof (py_trunc_lt r 2 H2). lia.
Qed.

(** The device has moved between 1 m and 2 m. *)
Lemma creeping_distance :
  (1 <= 1000 * haversine (90 + 0 / 10 ^ 1) (27 + 0 / 10 ^ 1)
                         (90 + 0 / 10 ^ 1) (27 + 1 / 10 ^ 5) < 2)%R.
Proof.
  replace (90 + 0 / 10 ^ 1)%R with 90%R by lra.
  rewrite haversine_on_a_meridian by lra. unfold radians.
  pose proof PI2_3_2. pose proof PI_4. lra.
Qed.

Ltac creeping_facts :=
  first
    [ rewrite cleanup_creeping
    | rewrite Rleb_true
        by (replace (90 + 0 / 10 ^ 1)%R with 90%R by lra;
            rewrite haversine_latitude_90; lra)
    | rewrite (py_trunc_unit _ creeping_distance)
    | rewrite Rltb_IZR ].

(** The pass of the creeping device: the coordinates are there, the gate
    counts a skipped update and declines, and the pass ends with the
    store it started from, stamped. *)
Lemma creeping_pass :
  do_update creeping_env creeping_store
  = Ok (RevertedDeclined GateClosed,
        set_attr "last_updated" (VStr "2023-01-15 10:30:00.000000") creeping_store).
Proof.
  unfold do_update, check_for_updated_entity_name, tracker_state, get_gps_accuracy,
    get_zone_details, update_coordinates_and_distance, determine_if_update_needed.
  literal_names.
  run creeping_facts.
Qed.

Lemma creeping_store_bounded : native_value_bounded creeping_store.
Proof.
  intros t H. vm_compute in H. injection H as <-. vm_compute. lia.
Qed.

Lemma do_update_revert_restores_the_snapshot_witness :
  do_update creeping_env creeping_store
  = Ok (RevertedDeclined GateClosed,
        set_attr "last_updated" (VStr "2023-01-15 10:30:00.000000") creeping_store)
  /\ reverted (RevertedDeclined GateClosed)
  /\ set_attr "last_updated" (VStr "2023-01-15 10:30:00.000000") creeping_store
       !! ATTR_UPDATES_SKIPPED
     = Some (VInt 0).
Proof.
  pose proof (do_update_revert_restores_the_snapshot
                creeping_env creeping_store _ _ creeping_pass I) as [_ Hk].
  split; [exact creeping_pass|]. split; [exact I|].
  rewrite Hk by discriminate. reflexivity.
Defined.


(** * Properties of the methods around the pass *)

(** ** The store, one attribute at a time *)

Lemma blank_value_true_iff v :
  blank_value v = true
  <-> v = VNone \/ v = VStr "" \/ v = VList [] \/ v = VDict [].
Proof.
  split.
  - destruct v as [|b|z|r|t|l|d]; intros H.
    + auto.
    + now rewrite blank_value_bool in H.
    + now rewrite blank_value_int in H.
    + now rewrite blank_value_float in H.
    + destruct t; [auto | discriminate].
    + destruct l; [auto | discriminate].
    + destruct d; [auto 6 | discriminate].
  - intros [-> | [-> | [-> | ->]]]; reflexivity.
Qed.

(** X1: an attribute is blank exactly when it is absent or holds [None],
    the empty string, the empty list or the empty dictionary; a number,
    [0], [0.0] and [False] included, is never blank. *)
Theorem is_attr_blank_iff (k : string) (s : gmap string value) :
  (is_attr_blank k s = true
   <-> s !! k = None \/ s !! k = Some VNone \/ s !! k = Some (VStr "")
       \/ s !! k = Some (VList []) \/ s !! k = Some (VDict []))
  /\ (forall v, as_real v <> None -> s !! k = Some v -> is_attr_blank k s = false).
Proof.
  unfold is_attr_blank, lookup_value. split.
  - destruct (s !! k) as [v|]; simpl.
    + rewrite blank_value_true_iff. split.
      * intros [-> | [-> | [-> | ->]]]; auto 6.
      * intros [H|[H|[H|[H|H]]]]; try discriminate; injection H as ->; auto.
    + split; auto.
  - intros v Hv ->. simpl.
    destruct v; try (now elim Hv);
      [apply blank_value_bool | apply blank_value_int | apply blank_value_float].
Qed.

(** X2: reading back what was just stored gives the stored value, unless
    that value is blank, and then [None]; storing under one name changes
    what is read under no other name. *)
Theorem get_attr_after_set_attr (k : string) (v : value) (s : gmap string value) :
  get_attr k (set_attr k v s) = (if blank_value v then VNone else v)
  /\ is_attr_blank k (set_attr k v s) = blank_value v
  /\ (forall k', k <> k' ->
        get_attr k' (set_attr k v s) = get_attr k' s
        /\ is_attr_blank k' (set_attr k v s) = is_attr_blank k' s).
Proof.
  unfold get_attr, is_attr_blank, lookup_value, set_attr.
  rewrite lookup_insert_eq. simpl. split; [reflexivity|]. split; [reflexivity|].
  intros k' Hk. now rewrite lookup_insert_ne.
Qed.

Lemma cleanup_attributes_lookup (s : gmap string value) k :
  cleanup_attributes s !! k
  = match s !! k with
    | Some v => if blank_value v then None else Some v
    | None => None
    end.
Proof.
  unfold cleanup_attributes.
  destruct (s !! k) as [v|] eqn:Hk.
  - destruct (blank_value v) eqn:Hv.
    + apply map_lookup_filter_None. right. intros w Hw. simpl.
      rewrite Hk in Hw. injection Hw as <-. congruence.
    + apply map_lookup_filter_Some. auto.
  - apply map_lookup_filter_None. auto.
Qed.

Lemma cleanup_attributes_read (s : gmap string value) k :
  get_attr k (cleanup_attributes s) = get_attr k s
  /\ is_attr_blank k (cleanup_attributes s) = is_attr_blank k s.
Proof.
  unfold get_attr, is_attr_blank, lookup_value.
  rewrite cleanup_attributes_lookup.
  destruct (s !! k) as [v|]; simpl; [|auto].
  destruct (blank_value v) eqn:Hv; simpl; rewrite ?Hv; auto.
Qed.

(** X3: [cleanup_attributes] removes the blank entries and nothing else:
    every attribute reads the same before and after, no entry left in the
    store is blank, and a second cleanup changes nothing. *)
Theorem cleanup_attributes_keeps_what_is_read (s : gmap string value) :
  (forall k, get_attr k (cleanup_attributes s) = get_attr k s
             /\ is_attr_blank k (cleanup_attributes s) = is_attr_blank k s)
  /\ (forall k v, cleanup_attributes s !! k = Some v -> blank_value v = false)
  /\ cleanup_attributes (cleanup_attributes s) = cleanup_attributes s.
Proof.
  assert (Hno : forall k v, cleanup_attributes s !! k = Some v -> blank_value v = false).
  { intros k v. rewrite cleanup_attributes_lookup.
    destruct (s !! k) as [w|]; [|discriminate].
    destruct (blank_value w) eqn:Hw; [discriminate|]. now intros [= <-]. }
  split; [|split; [exact Hno|]].
  - intros k. apply cleanup_attributes_read.
  - apply map_eq. intros k. rewrite cleanup_attributes_lookup.
    destruct (cleanup_attributes s !! k) as [v|] eqn:Hk; [|reflexivity].
    now rewrite (Hno _ _ Hk).
Qed.

(** ** [is_float] *)

Section Guards.
Context {B : Builtins}.

Lemma is_float_true (v : value) : is_float v = Ok true -> exists r, py_float v = Ok r.
Proof.
  destruct v as [|b|z|r|t|l|d]; simpl; try discriminate; eauto.
  destruct (float_of_str t) as [r|]; [eauto | discriminate].
Qed.

End Guards.

(** ** Geo-math *)

Lemma asin_nonneg x : (0 <= x)%R -> (0 <= asin x)%R.
Proof.
  intros Hx. unfold asin.
  destruct (Rle_dec x (-1)); [lra|].
  destruct (Rle_dec 1 x) as [|H1]; [pose proof PI_RGT_0; lra|].
  apply Rnot_le_lt in H1.
  destruct (Req_dec x 0) as [->|Hx0].
  - unfold Rdiv. rewrite Rmult_0_l, atan_0. lra.
  - rewrite <- atan_0. left. apply atan_increasing.
    apply Rdiv_lt_0_compat; [lra|].
    apply sqrt_lt_R0. unfold Rsqr. nra.
Qed.

(** X5: the distance [haversine] returns is never negative and never
    more than half the circumference of the sphere, whatever the four
    arguments are. *)
Theorem haversine_bounds (lon1 lat1 lon2 lat2 : R) :
  (0 <= haversine lon1 lat1 lon2 lat2 <= 6371 * PI)%R.
Proof.
  unfold haversine. cbv zeta.
  set (a := (_ + _)%R).
  pose proof (asin_bound (sqrt a)) as [_ Hup].
  pose proof (asin_nonneg (sqrt a) (sqrt_pos a)) as Hlo.
  split; nra.
Qed.

(** X6: between two points of one meridian, the second no further south
    than the first, [haversine] is the length of the arc: the Earth radius
    times the difference of the latitudes in radians. One degree of
    latitude is [6371 * PI / 180] km. *)
Theorem haversine_along_a_meridian (lon lat1 lat2 : R) :
  (0 <= lat2 - lat1 <= 180)%R ->
  haversine lon lat1 lon lat2 = (6371 * ((lat2 - lat1) * (PI / 180)))%R.
Proof.
  intros H. rewrite haversine_on_a_meridian by exact H. reflexivity.
Qed.

Lemma haversine_along_a_meridian_witness :
  haversine 90 27 90 28 = (6371 * ((28 - 27) * (PI / 180)))%R.
Proof. apply haversine_along_a_meridian. lra. Defined.

(** ** Update gate: the rules around the debounce *)

Section GateRules.
Context {B : Builtins} {K : Consts}.

(** X7: the first three rules of the gate, in their order. A GPS accuracy
    of exactly 0 declines the update whatever else the store holds; else
    a set initial-update flag accepts it; else two equal location strings
    decline it. None of the three changes the store. *)
Theorem gate_first_three_rules (s : gmap string value) (name : string) :
  get_attr CONF_NAME s = VStr name ->
  (accuracy_is_zero s = true -> determine_if_update_needed s = Ok (false, s))
  /\ (accuracy_is_zero s = false ->
      truthy (get_attr ATTR_INITIAL_UPDATE s) = true ->
      determine_if_update_needed s = Ok (true, s))
  /\ (accuracy_is_zero s = false ->
      truthy (get_attr ATTR_INITIAL_UPDATE s) = false ->
      py_eq (get_attr ATTR_LOCATION_CURRENT s) (get_attr ATTR_LOCATION_PREVIOUS s) = true ->
      determine_if_update_needed s = Ok (false, s)).
Proof.
  intros Hname. pose proof (log_name_ok s name Hname) as Hlog.
  unfold determine_if_update_needed, bind, read, read_r, ret.
  fold (accuracy_is_zero s).
  split; [|split].
  - intros ->. now rewrite Hlog.
  - intros -> ->. now rewrite Hlog.
  - intros -> -> ->. now rewrite Hlog.
Qed.

(** X8: once rules 1 to 3 are passed, ten whole meters or more traveled
    accept the update and leave the counter of skipped updates as it is,
    whatever number the counter holds. *)
Theorem gate_proceeds_from_ten_meters (s : gmap string value) (name : string) (z : Z) :
  get_attr CONF_NAME s = VStr name ->
  moved_after_first_update s ->
  py_int (get_attr ATTR_DISTANCE_TRAVELED_M s) = Ok z ->
  (10 <= z)%Z ->
  as_real (get_attr ATTR_UPDATES_SKIPPED s) <> None ->
  determine_if_update_needed s = Ok (true, s).
Proof.
  intros Hname (Hacc & Hinit & Hloc) Hint Hz Hk.
  pose proof (log_name_ok s name Hname) as Hlog.
  unfold determine_if_update_needed, bind, read, read_r, ret.
  fold (accuracy_is_zero s). rewrite Hacc, Hinit, Hloc, Hint. cbn [rbind].
  destruct (Z.ltb_spec 0 z); [|lia].
  unfold py_gt, py_lt. cbn [as_real].
  destruct (as_real (get_attr ATTR_UPDATES_SKIPPED s)) as [k|]; [|congruence].
  destruct (Rltb (IZR 3) k).
  - now rewrite Hlog.
  - rewrite Hint. destruct (Z.ltb_spec z 10); [lia | reflexivity].
Qed.

(** X9: past rules 1 to 3 the gate needs its two numbers. With no
    distance traveled in the store [int(None)] raises a [TypeError]; with
    a whole meter traveled and no counter of skipped updates the
    comparison [None > 3] raises a [TypeError]. *)
Theorem gate_raises_without_its_numbers (s : gmap string value) :
  moved_after_first_update s ->
  (get_attr ATTR_DISTANCE_TRAVELED_M s = VNone ->
   determine_if_update_needed s = Raise TypeError)
  /\ (forall z, py_int (get_attr ATTR_DISTANCE_TRAVELED_M s) = Ok z ->
                (0 < z)%Z ->
                get_attr ATTR_UPDATES_SKIPPED s = VNone ->
                determine_if_update_needed s = Raise TypeError).
Proof.
  intros (Hacc & Hinit & Hloc).
  unfold determine_if_update_needed, bind, read, read_r, ret.
  fold (accuracy_is_zero s). rewrite Hacc, Hinit, Hloc.
  split.
  - intros ->. reflexivity.
  - intros z -> Hz ->. cbn [rbind].
    destruct (Z.ltb_spec 0 z); [reflexivity | lia].
Qed.
End GateRules.

Lemma Reqb_refl x : Reqb x x = true.
Proof. unfold Reqb. destruct (Req_dec_T x x); [reflexivity | contradiction]. Qed.

(** Twenty-five meters and nine skipped updates, and an accuracy of 0:
    rule 1 declines. *)
Lemma gate_first_three_rules_witness :
  determine_if_update_needed (set_attr "gps_accuracy" (VInt 0) (gate_store (VInt 25) 9))
  = Ok (false, set_attr "gps_accuracy" (VInt 0) (gate_store (VInt 25) 9)).
Proof.
  refine (proj1 (gate_first_three_rules
                   (set_attr "gps_accuracy" (VInt 0) (gate_store (VInt 25) 9)) "phone" _) _).
  - cbn [CONF_NAME attribute_names].
    rewrite get_attr_set_ne by discriminate. apply gate_store_name.
  - unfold accuracy_is_zero, get_attr, is_attr_blank, lookup_value, set_attr.
    cbn [ATTR_GPS_ACCURACY attribute_names].
    rewrite lookup_insert_eq. change (default VNone (Some (VInt 0))) with (VInt 0).
    rewrite blank_value_int. cbn [negb andb py_eq as_real].
    apply Reqb_refl.
Defined.

Lemma gate_proceeds_from_ten_meters_witness :
  determine_if_update_needed (gate_store (VInt 25) 2) = Ok (true, gate_store (VInt 25) 2).
Proof.
  refine (gate_proceeds_from_ten_meters (gate_store (VInt 25) 2) "phone" 25 _ _ _ _ _).
  - apply gate_store_name.
  - apply gate_store_moved.
  - cbn [ATTR_DISTANCE_TRAVELED_M attribute_names].
    rewrite (get_attr_int "distance_traveled_m" _ 25)
      by (unfold gate_store; now lookup_literal).
    reflexivity.
  - lia.
  - cbn [ATTR_UPDATES_SKIPPED attribute_names]. rewrite gate_store_skipped. discriminate.
Defined.

Lemma gate_raises_without_its_numbers_witness :
  determine_if_update_needed (gate_store VNone 0) = Raise TypeError.
Proof.
  refine (proj1 (gate_raises_without_its_numbers (gate_store VNone 0) _) _).
  - apply gate_store_moved.
  - cbn [ATTR_DISTANCE_TRAVELED_M attribute_names].
    unfold get_attr, is_attr_blank, lookup_value, gate_store.
    lookup_literal. reflexivity.
Defined.

Section Helpers.
Context {B : Builtins} {K : Consts}.

(** ** Resetting *)

Lemma clear_all_lookup (l : list string) (s : gmap string value) (k : string) :
  fold_left (fun acc a => clear_attr a acc) l s !! k
  = if in_dec string_dec k l then None else s !! k.
Proof.
  revert s. induction l as [|a l IH]; intros s; [reflexivity|].
  cbn [fold_left]. rewrite IH. unfold clear_attr.
  destruct (in_dec string_dec k l) as [Hin|Hin];
    destruct (in_dec string_dec k (a :: l)) as [Hin'|Hin']; try reflexivity.
  - elim Hin'. now right.
  - destruct Hin' as [->|Hin']; [apply lookup_delete_eq | contradiction].
  - apply lookup_delete_ne. intros ->. apply Hin'. now left.
Qed.

(** X10: [_reset_attributes] always returns; afterwards the counter of
    skipped updates is 0, every other attribute of [RESET_ATTRIBUTE_LIST]
    is gone from the store, every attribute outside the list reads as it
    did before, and no entry of the store is blank. *)
Theorem reset_attributes_clears_the_list (s : gmap string value) :
  exists s',
    _reset_attributes s = Ok (tt, s')
    /\ s' !! ATTR_UPDATES_SKIPPED = Some (VInt 0)
    /\ (forall k, In k RESET_ATTRIBUTE_LIST -> k <> ATTR_UPDATES_SKIPPED -> s' !! k = None)
    /\ (forall k, ~ In k RESET_ATTRIBUTE_LIST -> k <> ATTR_UPDATES_SKIPPED ->
                  get_attr k s' = get_attr k s)
    /\ (forall k v, s' !! k = Some v -> blank_value v = false).
Proof.
  eexists. split; [reflexivity|].
  split; [|split; [|split]].
  - rewrite cleanup_attributes_lookup. unfold set_attr. rewrite lookup_insert_eq.
    now rewrite blank_value_int.
  - intros k Hin Hk. rewrite cleanup_attributes_lookup. unfold set_attr.
    rewrite lookup_insert_ne by congruence. rewrite clear_all_lookup.
    destruct (in_dec string_dec k RESET_ATTRIBUTE_LIST); [reflexivity | contradiction].
  - intros k Hin Hk. unfold get_attr, is_attr_blank, lookup_value.
    rewrite cleanup_attributes_lookup. unfold set_attr.
    rewrite lookup_insert_ne by congruence. rewrite clear_all_lookup.
    destruct (in_dec string_dec k RESET_ATTRIBUTE_LIST); [contradiction|].
    destruct (s !! k) as [v|]; simpl; [|reflexivity].
    destruct (blank_value v) eqn:Hv; simpl; rewrite ?Hv; reflexivity.
  - intros k v. rewrite cleanup_attributes_lookup.
    match goal with |- context [match ?o with _ => _ end] => destruct o as [w|] end;
      [|discriminate].
    destruct (blank_value w) eqn:Hw; [discriminate|]. now intros [= <-].
Qed.

(** ** The time suffix *)

Lemma take_str_app (h x : string) : take_str (String.length h) (h ++ x) = h.
Proof. induction h as [|c h IH]; simpl; [now destruct x | now rewrite IH]. Qed.

Lemma take_str_all (n : nat) (t : string) :
  (String.length t <= n)%nat -> take_str n t = t.
Proof.
  revert t. induction n as [|n IH]; intros [|c t] Ht; simpl in *; try reflexivity; try lia.
  rewrite IH by lia. reflexivity.
Qed.

Lemma drop_last_app (h x : string) : drop_last (String.length x) (h ++ x) = h.
Proof.
  unfold drop_last. rewrite append_length.
  replace (String.length h + String.length x - String.length x)%nat
    with (String.length h) by lia.
  apply take_str_app.
Qed.

Lemma get_attr_nonblank_str k (s : gmap string value) c t :
  s !! k = Some (VStr (String c t)) -> get_attr k s = VStr (String c t).
Proof. apply get_attr_str. Qed.

(** X11: with [show_time] set, the cut keeps the first 241 characters of
    the state and appends [" (since HH:MM)"]; the suffix has 14
    characters, so the [[:-14]] with which the next pass reads the
    previous state gives back those 241 characters, and the whole state
    when it had no more than 241. *)
Theorem since_suffix_round_trip
        (current_time name t : string) (s : gmap string value) :
  String.length current_time = 5%nat ->
  get_attr CONF_NAME s = VStr name ->
  get_attr ATTR_NATIVE_VALUE s = VStr t ->
  truthy (get_attr CONF_SHOW_TIME s) = true ->
  exists s',
    truncate_native_value current_time s = Ok (tt, s')
    /\ get_attr ATTR_NATIVE_VALUE s'
       = VStr (take_str 241 t ++ " (since " ++ current_time ++ ")")
    /\ py_slice_to (get_attr ATTR_NATIVE_VALUE s') (-14) = Ok (VStr (take_str 241 t))
    /\ ((String.length t <= 241)%nat -> take_str 241 t = t).
Proof.
  intros Hct Hname Hnative Hshow.
  assert (Hblank : is_attr_blank ATTR_NATIVE_VALUE s = false).
  { unfold get_attr in Hnative.
    destruct (is_attr_blank ATTR_NATIVE_VALUE s); [discriminate | reflexivity]. }
  set (h := take_str 241 t).
  set (new := (h ++ " (since " ++ current_time ++ ")")%string).
  assert (Hnew : exists c r, new = String c r).
  { unfold new. destruct h; simpl; eauto. }
  destruct Hnew as (c & r & Hnew).
  assert (Hget : get_attr ATTR_NATIVE_VALUE (set_attr ATTR_NATIVE_VALUE (VStr new) s)
                 = VStr new).
  { rewrite Hnew. apply get_attr_str. unfold set_attr. apply lookup_insert_eq. }
  exists (set_attr ATTR_NATIVE_VALUE (VStr new) s).
  split; [|split; [exact Hget|split]].
  - unfold truncate_native_value, bind, blank, read, read_r, set, write.
    cbv beta. rewrite Hblank. cbn [negb]. cbv beta iota.
    rewrite Hshow. cbv beta iota. rewrite Hnative.
    change (255 - 14)%Z with (Z.of_nat 241). unfold py_slice_to.
    destruct (Z.leb_spec 0 (Z.of_nat 241)); [|lia].
    rewrite Nat2Z.id. cbn [concat_operand]. fold h. fold new.
    apply log_name_ok with (name := if String.eqb ATTR_NATIVE_VALUE CONF_NAME then new else name).
    destruct (String.eqb_spec ATTR_NATIVE_VALUE CONF_NAME) as [He|He].
    + rewrite <- He. exact Hget.
    + now rewrite get_attr_set_ne.
  - rewrite Hget. unfold py_slice_to. cbn [Z.leb Z.compare Z.opp].
    f_equal. f_equal. unfold new.
    replace (Z.to_nat (- (-14))) with (String.length (" (since " ++ current_time ++ ")")).
    + apply drop_last_app.
    + rewrite !append_length, Hct. reflexivity.
  - apply take_str_all.
Qed.

(** ** The event *)

Lemma get_attr_of_nonblank k (s : gmap string value) :
  is_attr_blank k s = false -> blank_value (get_attr k s) = false.
Proof. intros H. unfold get_attr. rewrite H. exact H. Qed.

Lemma event_update_values (P : value -> Prop) (attrs : list string)
      (s event : gmap string value) :
  (forall a, is_attr_blank a s = false -> P (get_attr a s)) ->
  (forall k v, event !! k = Some v -> P v) ->
  forall k v, event_update attrs s event !! k = Some v -> P v.
Proof.
  intros HP. unfold event_update. revert event.
  induction attrs as [|a attrs IH]; intros event Hev k v; [apply Hev|].
  cbn [fold_left]. apply IH. intros k' v'.
  destruct (is_attr_blank a s) eqn:Ha; cbn [negb]; [apply Hev|].
  intros [[_ <-]|[_ H]]%lookup_insert_Some; [now apply HP | eauto].
Qed.

(** X12: [fire_event_data] leaves the store as it is, and the event it
    fires holds only values read from the store, none of them blank. *)
Theorem fire_event_data_sends_store_values
        (prev_last_place_name : value) (name : string) (s : gmap string value) :
  get_attr CONF_NAME s = VStr name ->
  exists event,
    fire_event_data prev_last_place_name s = Ok (event, s)
    /\ (forall k v, event !! k = Some v ->
                    blank_value v = false /\ exists a, get_attr a s = v).
Proof.
  intros Hname. pose proof (log_name_ok s name Hname) as Hlog.
  eexists. split.
  - unfold fire_event_data, bind, read, ret.
    repeat (rewrite Hlog; cbv beta iota). reflexivity.
  - set (P := fun v => blank_value v = false /\ exists a, get_attr a s = v).
    assert (HP : forall a, is_attr_blank a s = false -> P (get_attr a s)).
    { intros a Ha. split; [now apply get_attr_of_nonblank | eauto]. }
    assert (Hins : forall (c : bool) key a (ev : gmap string value),
               (forall k v, ev !! k = Some v -> P v) ->
               (c = true -> is_attr_blank a s = false) ->
               forall k v, (if c then <[key := get_attr a s]> ev else ev) !! k = Some v -> P v).
    { intros c key a ev Hev Hc k v. destruct c; [|apply Hev].
      intros [[_ <-]|[_ H]]%lookup_insert_Some; [apply HP; now apply Hc | eauto]. }
    assert (Hneg : forall b, negb b = true -> b = false) by (intros []; simpl; congruence).
    intros k v. change (blank_value v = false /\ (exists a, get_attr a s = v)) with (P v).
    destruct (truthy (get_attr CONF_EXTENDED_ATTR s));
      [apply event_update_values; [exact HP|]|];
      (apply Hins; [|intros [H _]%andb_prop; now apply Hneg]);
      (apply event_update_values; [exact HP|]);
      (apply Hins; [|apply Hneg]);
      (apply Hins; [|apply Hneg]);
      (apply Hins; [|apply Hneg]);
      intros k' v'; rewrite lookup_empty; discriminate.
Qed.

(** ** Extended attributes *)

(** X13: [get_extended_attr] does nothing, no request included, while the
    OSM id or the OSM type is blank; with both in the store and a type
    that is none of [node], [way], [relation] (in any case of the letters)
    it raises an [UnboundLocalError], the abbreviation of the type never
    having been assigned. *)
Theorem get_extended_attr_needs_a_known_osm_type (E : env) (s : gmap string value) :
  (is_attr_blank ATTR_OSM_ID s = true \/ is_attr_blank ATTR_OSM_TYPE s = true ->
   get_extended_attr E s = Ok (tt, s))
  /\ (forall t,
        is_attr_blank ATTR_OSM_ID s = false ->
        get_attr ATTR_OSM_TYPE s = VStr t ->
        lower t <> "node" -> lower t <> "way" -> lower t <> "relation" ->
        get_extended_attr E s = Raise UnboundLocalError).
Proof.
  unfold get_extended_attr, bind, read, read_r, when, ret, raise, lower_of.
  split.
  - intros [-> | ->]; [reflexivity|].
    now rewrite andb_false_r.
  - intros t Hid Htype Hn Hw Hr.
    assert (Hblank : is_attr_blank ATTR_OSM_TYPE s = false).
    { unfold get_attr in Htype.
      destruct (is_attr_blank ATTR_OSM_TYPE s); [discriminate | reflexivity]. }
    cbv beta. rewrite Hid, Hblank. cbn [negb andb]. cbv beta iota.
    rewrite Htype. cbn [as_str rbind]. cbv beta iota.
    destruct (String.eqb_spec (lower t) "node"); [contradiction|].
    destruct (String.eqb_spec (lower t) "way"); [contradiction|].
    destruct (String.eqb_spec (lower t) "relation"); [contradiction|].
    reflexivity.
Qed.
End Helpers.

Lemma since_suffix_round_trip_witness :
  exists s',
    truncate_native_value "10:30"
      (<["name" := VStr "phone"]>
       (<["show_time" := VBool true]>
        (<["native_value" := VStr "Main St, Springfield, IL"]> ∅)))
    = Ok (tt, s')
    /\ get_attr "native_value" s' = VStr "Main St, Springfield, IL (since 10:30)"
    /\ py_slice_to (get_attr "native_value" s') (-14) = Ok (VStr "Main St, Springfield, IL").
Proof.
  destruct (since_suffix_round_trip "10:30" "phone" "Main St, Springfield, IL"
              (<["name" := VStr "phone"]>
               (<["show_time" := VBool true]>
                (<["native_value" := VStr "Main St, Springfield, IL"]> ∅))))
    as (s' & Hrun & Hget & Hslice & _).
  - reflexivity.
  - apply get_attr_str. now lookup_literal.
  - apply get_attr_str. now lookup_literal.
  - cbn [CONF_SHOW_TIME attribute_names].
    rewrite (get_attr_bool "show_time" _ true) by now lookup_literal. reflexivity.
  - exists s'. split; [exact Hrun|]. split; [exact Hget | exact Hslice].
Defined.

Lemma fire_event_data_sends_store_values_witness :
  exists event,
    fire_event_data VNone (gate_store (VInt 0) 0) = Ok (event, gate_store (VInt 0) 0)
    /\ (forall k v, event !! k = Some v ->
                    blank_value v = false
                    /\ exists a, get_attr a (gate_store (VInt 0) 0) = v).
Proof.
  exact (fire_event_data_sends_store_values VNone "phone" (gate_store (VInt 0) 0)
           (gate_store_name (VInt 0) 0)).
Defined.

(** ** What the methods write *)

Lemma same_outside_refl ks s : same_outside ks s s.
Proof. intros k _. reflexivity. Qed.

Lemma same_outside_trans ks s1 s2 s3 :
  same_outside ks s1 s2 -> same_outside ks s2 s3 -> same_outside ks s1 s3.
Proof. intros H1 H2 k Hk. rewrite (H2 k Hk). now apply H1. Qed.

Lemma same_outside_get_attr ks s s' k :
  same_outside ks s s' -> ~ In k ks ->
  get_attr k s' = get_attr k s /\ is_attr_blank k s' = is_attr_blank k s.
Proof.
  intros H Hk. unfold get_attr, is_attr_blank, lookup_value. now rewrite (H k Hk).
Qed.

Lemma writes_only_ret {A} ks (a : A) : writes_only ks (ret a).
Proof. intros s b s' [= <- <-]. apply same_outside_refl. Qed.
Lemma writes_only_raise {A} ks e : writes_only ks (@raise A e).
Proof. intros s b s' [=]. Qed.
Lemma writes_only_read {A} ks (f : gmap string value -> A) : writes_only ks (read f).
Proof. intros s b s' [= <- <-]. apply same_outside_refl. Qed.
Lemma writes_only_read_r {A} ks (f : gmap string value -> result A) :
  writes_only ks (read_r f).
Proof.
  intros s b s'. unfold read_r. destruct (f s); intros [= <- <-]. apply same_outside_refl.
Qed.
Lemma writes_only_bind {A C} ks (m : M A) (k : A -> M C) :
  writes_only ks m -> (forall a, writes_only ks (k a)) -> writes_only ks (bind m k).
Proof.
  intros Hm Hk s c s' H. apply bind_inv in H as (a & s1 & H1 & H2).
  eapply same_outside_trans; [eapply Hm | eapply Hk]; eauto.
Qed.
Lemma writes_only_if {A} ks (b : bool) (m1 m2 : M A) :
  writes_only ks m1 -> writes_only ks m2 -> writes_only ks (if b then m1 else m2).
Proof. now destruct b. Qed.
Lemma writes_only_when ks b m : writes_only ks m -> writes_only ks (when b m).
Proof. intros H. unfold when. apply writes_only_if; [assumption | apply writes_only_ret]. Qed.
Lemma writes_only_clear ks k : In k ks -> writes_only ks (write (clear_attr k)).
Proof.
  intros Hk s a s' H k' Hk'. unfold write in H. injection H as _ <-. unfold clear_attr.
  apply lookup_delete_ne. intros ->. contradiction.
Qed.

Section Frames.
Context {B : Builtins} {K : Consts}.

Lemma writes_only_log_name ks : writes_only ks log_name.
Proof.
  intros s a s'. unfold log_name. destruct (get_attr CONF_NAME s); try discriminate.
  intros [= _ <-]. apply same_outside_refl.
Qed.
Lemma writes_only_attr ks k : writes_only ks (attr k).
Proof. apply writes_only_read. Qed.
Lemma writes_only_blank ks k : writes_only ks (blank k).
Proof. apply writes_only_read. Qed.
Lemma writes_only_float_attr ks k : writes_only ks (float_attr k).
Proof. apply writes_only_read_r. Qed.
Lemma writes_only_set ks k v : In k ks -> writes_only ks (set k v).
Proof.
  intros Hk s a s' H k' Hk'. unfold set, write in H. injection H as _ <-. unfold set_attr.
  apply lookup_insert_ne. intros ->. contradiction.
Qed.
End Frames.

Ltac in_list := cbn [In]; tauto.

Ltac writes_step :=
  first
    [ apply writes_only_bind; [ | intros ? ]
    | apply writes_only_ret | apply writes_only_raise
    | apply writes_only_read | apply writes_only_read_r
    | apply writes_only_log_name | apply writes_only_attr | apply writes_only_blank
    | apply writes_only_float_attr
    | apply writes_only_when | apply writes_only_if
    | apply writes_only_set; in_list
    | apply writes_only_clear; in_list
    | match goal with
      | |- writes_only _ (match ?x with _ => _ end) => destruct x
      end ].

Ltac solve_writes := repeat writes_step.

Section MoreMethods.
Context {B : Builtins} {K : Consts}.

Ltac unbind H Hm :=
  cbv beta zeta in H;
  let a := fresh "a" in
  let s1 := fresh "s" in
  apply bind_inv in H as (a & s1 & Hm & H); cbv beta zeta in H.

(** ** Fetching: bodies that are no JSON object *)

(** X14: [get_dict_from_url] never writes to the store, and a body that
    parses to JSON but not to an object is not caught: a number, [true],
    [false] or [null] makes the test for [error_message] raise a
    [TypeError]; a JSON list without the string [error_message] is
    returned as it is, a list and not a dictionary. *)
Theorem get_dict_from_url_on_json_that_is_no_object
        (E : env) (url name text : string) (s : gmap string value) (parsed : value) :
  get_attr CONF_NAME s = VStr name ->
  requests_get E url = FetchResponse true text ->
  text <> "" ->
  json_loads E text = Some parsed ->
  (forall v s', get_dict_from_url E url s = Ok (v, s') -> s' = s)
  /\ (as_real parsed <> None \/ parsed = VNone ->
      get_dict_from_url E url s = Raise TypeError)
  /\ (forall l, parsed = VList l ->
                existsb (py_eq (VStr "error_message")) l = false ->
                get_dict_from_url E url s = Ok (VList l, s)).
Proof.
  intros Hname Hget Htext Hjson.
  pose proof (log_name_ok s name Hname) as Hlog.
  unfold get_dict_from_url, bind, ret, read_r, when. rewrite Hlog, Hget. cbn [truthy].
  destruct (String.eqb_spec text ""); [contradiction|]. cbn [negb]. cbv beta iota.
  rewrite Hlog, Hjson.
  split; [|split].
  - intros v s'.
    destruct (py_in (VStr "error_message") parsed) as [[|]|]; rewrite ?Hlog;
      [ destruct (dict_get parsed (VStr "error_message")) | | ]; congruence.
  - intros [Hnum | ->]; [|reflexivity].
    destruct parsed; try reflexivity; now elim Hnum.
  - intros l -> Hl. cbn [py_in]. now rewrite Hl.
Qed.

(** ** Map link *)

Lemma prefix_append (p r : string) : String.prefix p (p ++ r) = true.
Proof.
  induction p as [|c p IH]; simpl; [now destruct r|].
  destruct (Ascii.ascii_dec c c); [assumption | contradiction].
Qed.

(** X15: once the entity name is a string [get_map_link] always returns and
    stores a link; the provider [google] gives a Google Maps link, [osm]
    an OpenStreetMap link, and every other provider, none included, an
    Apple Maps link. Nothing else in the store changes. *)
Theorem get_map_link_falls_back_to_apple (s : gmap string value) (name : string) :
  get_attr CONF_NAME s = VStr name ->
  exists link,
    get_map_link s = Ok (tt, set_attr ATTR_MAP_LINK (VStr link) s)
    /\ startswith link
         (if py_eq (get_attr CONF_MAP_PROVIDER s) (VStr "google")
          then "https://maps.google.com/?q="
          else if py_eq (get_attr CONF_MAP_PROVIDER s) (VStr "osm")
               then "https://www.openstreetmap.org/?mlat="
               else "https://maps.apple.com/maps/?q=") = true.
Proof.
  intros Hname.
  assert (Hlog : forall link,
             link <> "" ->
             log_name (set_attr ATTR_MAP_LINK (VStr link) s)
             = Ok (tt, set_attr ATTR_MAP_LINK (VStr link) s)).
  { intros [|c r] Hne; [contradiction|].
    destruct (String.eqb_spec ATTR_MAP_LINK CONF_NAME) as [He|He].
    - apply log_name_ok with (name := String c r). rewrite <- He.
      apply get_attr_str. unfold set_attr. apply lookup_insert_eq.
    - apply log_name_ok with (name := name). now rewrite get_attr_set_ne. }
  unfold get_map_link, bind, attr, read, set, write, startswith.
  destruct (py_eq (get_attr CONF_MAP_PROVIDER s) (VStr "google"));
    [|destruct (py_eq (get_attr CONF_MAP_PROVIDER s) (VStr "osm"))];
    eexists; (split; [|apply prefix_append]);
    rewrite !Hlog by (cbn [append]; discriminate); reflexivity.
Qed.

(** ** Driving status *)

(** X16: [get_driving_status] stores a boolean, and the boolean is [False]
    whenever the entity is in a zone and whenever the direction of travel
    is ["stationary"]; it is [True] only for a highway or a motorway. *)
Theorem never_driving_in_a_zone_or_stationary
        (s s' : gmap string value) (u : unit) :
  get_driving_status s = Ok (u, s') ->
  exists b,
    s' = set_attr ATTR_IS_DRIVING (VBool b) s
    /\ (in_zone s = Ok true -> b = false)
    /\ (get_attr ATTR_DIRECTION_OF_TRAVEL s = VStr "stationary" -> b = false)
    /\ (b = true ->
        py_eq (get_attr ATTR_PLACE_CATEGORY s) (VStr "highway") = true
        \/ py_eq (get_attr ATTR_PLACE_TYPE s) (VStr "motorway") = true).
Proof.
  unfold get_driving_status, bind, read_r, read, set, write.
  destruct (in_zone s) as [zone|] eqn:Hzone; [|discriminate].
  intros H. injection H as _ <-. eexists. split; [reflexivity|]. split; [|split].
  - intros [= ->]. reflexivity.
  - intros ->. cbn [py_eq]. rewrite String.eqb_refl. cbn [negb]. now rewrite andb_false_r.
  - intros [_ H]%andb_prop. now apply orb_prop in H.
Qed.

(** ** GPS accuracy *)

(** X17: [get_gps_accuracy] either leaves the store as it is, an accuracy
    stored by an earlier pass included, or stores the accuracy of the
    tracker as a [float]; it stores nothing when the tracker has no
    attributes, no accuracy among them, or [None] for it. *)
Theorem get_gps_accuracy_keeps_or_sets
        (E : env) (s s' : gmap string value) (u : unit) :
  get_gps_accuracy E s = Ok (u, s') ->
  (s' = s
   \/ exists st a,
        hass_states_get E (get_attr CONF_DEVICETRACKER_ID s) = Ok (Some st)
        /\ py_float (attributes_get st ATTR_GPS_ACCURACY) = Ok a
        /\ s' = set_attr ATTR_GPS_ACCURACY (VFloat a) s)
  /\ (forall st,
        hass_states_get E (get_attr CONF_DEVICETRACKER_ID s) = Ok (Some st) ->
        attributes_get st ATTR_GPS_ACCURACY = VNone ->
        s' = s).
Proof.
  intros H.
  assert (Hmain :
    (exists st, hass_states_get E (get_attr CONF_DEVICETRACKER_ID s) = Ok (Some st)
                /\ attributes_get st ATTR_GPS_ACCURACY <> VNone
                /\ exists a, py_float (attributes_get st ATTR_GPS_ACCURACY) = Ok a
                             /\ s' = set_attr ATTR_GPS_ACCURACY (VFloat a) s)
    \/ s' = s).
  { unfold get_gps_accuracy in H.
    unbind H Hfound. unfold read_r in Hfound.
    destruct (hass_states_get E (get_attr CONF_DEVICETRACKER_ID s)) as [found|] eqn:Hget;
      [|discriminate].
    injection Hfound as <- <-.
    unbind H Husable. unfold read_r in Husable.
    match type of Husable with
    | match ?x with _ => _ end = _ => destruct x as [usable|] eqn:Hu; [|discriminate]
    end.
    injection Husable as <- <-.
    destruct usable.
    - destruct found as [st|]; [|discriminate].
      destruct (st_attributes st) as [|p l] eqn:Hattrs; [discriminate|].
      destruct (assoc ATTR_GPS_ACCURACY (p :: l)) as [v|] eqn:Hv; [|discriminate].
      destruct (is_none v) eqn:Hnone; [discriminate|].
      unbind H Hst. unfold tracker_state, read_r in Hst. rewrite Hget in Hst.
      cbn [rbind] in Hst. injection Hst as <- <-.
      unbind H Hfloat. unfold read_r, attributes_get in Hfloat.
      rewrite Hattrs, Hv in Hfloat.
      destruct (py_float v) as [accuracy|] eqn:Ha; [|discriminate].
      injection Hfloat as <- <-.
      unbind H Hset. unfold set, write in Hset. injection Hset as _ <-.
      unbind H Hlog. apply log_name_inv in Hlog as [-> _].
      unbind H Hround. unfold read_r in Hround.
      match type of Hround with
      | match ?x with _ => _ end = _ => destruct x; [|discriminate]
      end.
      injection Hround as _ <-. apply ret_inv in H as [_ ->].
      left. exists st. split; [reflexivity|].
      unfold attributes_get. rewrite Hattrs, Hv. split.
      + intros ->. discriminate.
      + eauto.
    - apply log_name_inv in H as [-> _]. now right. }
  split.
  - destruct Hmain as [(st & Hst & _ & a & Ha & ->) | ->]; [right; eauto | now left].
  - intros st Hst Hnone.
    destruct Hmain as [(st' & Hst' & Hne & _) | ->]; [|reflexivity].
    rewrite Hst in Hst'. injection Hst' as <-. contradiction.
Qed.
End MoreMethods.

Section Passes.
Context {B : Builtins} {K : Consts}.

Ltac unbind H Hm :=
  cbv beta zeta in H;
  let a := fresh "a" in
  let s1 := fresh "s" in
  apply bind_inv in H as (a & s1 & Hm & H); cbv beta zeta in H.

(** The statements of [do_update] up to the branch on the gate. *)
Ltac to_the_branch H :=
  unfold do_update in H;
  repeat (lazymatch type of H with
          | bind (if (_ && negb _) then _ else _) _ _ = _ => fail
          | _ => idtac
          end;
          let Hm := fresh "Hm" in
          unbind H Hm; clear Hm).

Ltac to_the_end H :=
  repeat (lazymatch type of H with
          | bind _ _ _ = _ => idtac
          end;
          let Hm := fresh "Hm" in
          unbind H Hm; clear Hm).

(** X18: every pass of [do_update] that returns, on whichever path, has
    stored [str(now)] as [last_updated]. *)
Theorem do_update_stamps_every_completed_pass
        (E : env) (s s' : gmap string value) (out : outcome) :
  do_update E s = Ok (out, s') ->
  s' !! ATTR_LAST_UPDATED = Some (VStr (now_str E)).
Proof.
  intros H. to_the_branch H.
  unbind H Hbranch. apply stamp_inv in H as [_ ->].
  unfold set_attr. apply lookup_insert_eq.
Qed.

Lemma writes_nothing_is_same {A} (m : M A) s a s' :
  writes_only [] m -> m s = Ok (a, s') -> s' = s.
Proof. intros Hm H. apply map_eq. intros k. apply (Hm _ _ _ H). cbn [In]. tauto. Qed.

Lemma get_dict_from_url_writes_nothing (E : env) url :
  writes_only [] (get_dict_from_url E url).
Proof. unfold get_dict_from_url. cbv zeta. solve_writes. Qed.

Lemma get_map_link_inv s u s' :
  get_map_link s = Ok (u, s') -> exists link, s' = set_attr ATTR_MAP_LINK (VStr link) s.
Proof.
  intros H. unfold get_map_link in H.
  unbind H Hprovider. unfold attr, read in Hprovider. injection Hprovider as <- <-.
  unbind H Hset.
  match type of Hset with
  | _ = Ok (_, ?sx) =>
      assert (exists link, sx = set_attr ATTR_MAP_LINK (VStr link) s) as [link ->]
  end.
  { repeat match type of Hset with
           | (if ?c then _ else _) _ = _ => destruct c
           end;
      unbind Hset Hlink; unfold read in Hlink; injection Hlink as <- <-;
      unfold set, write in Hset; injection Hset as _ <-; eauto. }
  unbind H Hlog. apply log_name_inv in Hlog as [-> _].
  apply log_name_inv in H as [-> _]. eauto.
Qed.

Lemma reset_attributes_inv s u s' :
  _reset_attributes s = Ok (u, s') ->
  s' !! ATTR_UPDATES_SKIPPED = Some (VInt 0)
  /\ (forall k, In k RESET_ATTRIBUTE_LIST -> k <> ATTR_UPDATES_SKIPPED -> s' !! k = None).
Proof.
  intros H.
  assert (Hrun : _reset_attributes s
                 = Ok (tt, cleanup_attributes
                             (set_attr ATTR_UPDATES_SKIPPED (VInt 0)
                                (fold_left (fun acc a => clear_attr a acc)
                                           RESET_ATTRIBUTE_LIST s))))
    by reflexivity.
  rewrite Hrun in H. injection H as _ <-. split.
  - rewrite cleanup_attributes_lookup. unfold set_attr. rewrite lookup_insert_eq.
    now rewrite blank_value_int.
  - intros k Hin Hk. rewrite cleanup_attributes_lookup. unfold set_attr.
    rewrite lookup_insert_ne by congruence. rewrite clear_all_lookup.
    destruct (in_dec string_dec k RESET_ATTRIBUTE_LIST); [reflexivity | contradiction].
Qed.

(** X19: a pass that passes the gate and then gets no dictionary from the
    geocoder does not restore the snapshot: it ends with the counter of
    skipped updates at 0 and with the attributes of
    [RESET_ATTRIBUTE_LIST] gone from the store. *)
Theorem do_update_without_data_keeps_the_reset
        (E : env) (s s' : gmap string value) :
  ~ In ATTR_UPDATES_SKIPPED [ATTR_MAP_LINK; ATTR_OSM_DICT; ATTR_LAST_UPDATED] ->
  do_update E s = Ok (LeftWithoutData, s') ->
  s' !! ATTR_UPDATES_SKIPPED = Some (VInt 0)
  /\ (forall k,
        In k RESET_ATTRIBUTE_LIST ->
        ~ In k [ATTR_UPDATES_SKIPPED; ATTR_MAP_LINK; ATTR_OSM_DICT; ATTR_LAST_UPDATED] ->
        s' !! k = None).
Proof.
  intros Hskipped H. to_the_branch H.
  unbind H Hbranch. apply stamp_inv in H as [Hout ->].
  match type of Hbranch with (if ?c then _ else _) _ = _ => destruct c end.
  2:{ apply revert_inv in Hbranch as [-> _]. discriminate. }
  unbind Hbranch Hlog. apply log_name_inv in Hlog as [-> _].
  unbind Hbranch Hreset. apply reset_attributes_inv in Hreset as [Hzero Hclear].
  unbind Hbranch Hlink. apply get_map_link_inv in Hlink as [link ->].
  unbind Hbranch Hurl. unfold read in Hurl. injection Hurl as <- <-.
  unbind Hbranch Hfetch.
  apply (writes_nothing_is_same _ _ _ _ (get_dict_from_url_writes_nothing E _)) in Hfetch
    as ->.
  unbind Hbranch Hset. unfold set, write in Hset. injection Hset as _ <-.
  unbind Hbranch Hblank. unfold blank, read in Hblank. injection Hblank as <- <-.
  match type of Hbranch with (if ?c then _ else _) _ = _ => destruct c end.
  - exfalso. to_the_end Hbranch.
    match type of Hbranch with (if ?c then _ else _) _ = _ => destruct c end.
    + to_the_end Hbranch. apply ret_inv in Hbranch as [-> _]. discriminate.
    + apply revert_inv in Hbranch as [-> _]. discriminate.
  - apply ret_inv in Hbranch as [_ ->].
    cbn [In] in Hskipped. unfold set_attr. split.
    + rewrite !lookup_insert_ne by (intros He; apply Hskipped; rewrite He; tauto).
      exact Hzero.
    + intros k Hk Hnot. cbn [In] in Hnot.
      rewrite !lookup_insert_ne by (intros He; apply Hnot; rewrite He; tauto).
      apply Hclear; [assumption|]. intros He. apply Hnot. rewrite He. tauto.
Qed.

(** ** The resolver without coordinates *)

Lemma writes_only_set_location ks a b target :
  In target ks -> writes_only ks (set_location a b target).
Proof. intros H. unfold set_location. solve_writes. Qed.


(** X20: when the current or the home latitude or longitude is blank,
    [update_coordinates_and_distance] returns [False] and has written
    nothing but the three location strings and the last place name:
    distances and direction of travel stay as they were. *)
Theorem update_coordinates_and_distance_without_coordinates
        (E : env) (s s' : gmap string value) (located : bool) :
  Forall (fun k => ~ In k location_strings)
         [ATTR_LATITUDE; ATTR_LONGITUDE; ATTR_HOME_LATITUDE; ATTR_HOME_LONGITUDE] ->
  is_attr_blank ATTR_LATITUDE s || is_attr_blank ATTR_LONGITUDE s
  || is_attr_blank ATTR_HOME_LATITUDE s || is_attr_blank ATTR_HOME_LONGITUDE s = true ->
  update_coordinates_and_distance E s = Ok (located, s') ->
  located = false /\ same_outside location_strings s s'.
Proof.
  intros Hapart Hmissing H.
  apply Forall_cons in Hapart as [Hlat Hapart].
  apply Forall_cons in Hapart as [Hlon Hapart].
  apply Forall_cons in Hapart as [Hhlat Hapart].
  apply Forall_cons in Hapart as [Hhlon _].
  unfold update_coordinates_and_distance in H.
  pose proof (same_outside_refl location_strings s) as Hsame.
  rename H into H0.
  repeat (lazymatch type of H0 with
          | bind (read _) _ _ = _ => fail
          | bind ?m _ ?st = _ =>
              let Hw := fresh "Hw" in
              assert (Hw : writes_only location_strings m)
                by (unfold location_strings; first [apply writes_only_set_location; in_list
                                                   | solve_writes]);
              let Hm := fresh "Hm" in
              unbind H0 Hm;
              apply Hw in Hm;
              pose proof (same_outside_trans _ _ _ _ Hsame Hm) as Hsame';
              clear Hsame Hm Hw; rename Hsame' into Hsame
          end).
  unbind H0 Hhave. unfold read in Hhave. injection Hhave as <- <-.
  destruct (same_outside_get_attr _ _ _ _ Hsame Hlat) as [_ Hb1].
  destruct (same_outside_get_attr _ _ _ _ Hsame Hlon) as [_ Hb2].
  destruct (same_outside_get_attr _ _ _ _ Hsame Hhlat) as [_ Hb3].
  destruct (same_outside_get_attr _ _ _ _ Hsame Hhlon) as [_ Hb4].
  rewrite Hb1, Hb2, Hb3, Hb4 in H0.
  assert (negb (is_attr_blank ATTR_LATITUDE s) && negb (is_attr_blank ATTR_LONGITUDE s)
          && negb (is_attr_blank ATTR_HOME_LATITUDE s)
          && negb (is_attr_blank ATTR_HOME_LONGITUDE s) = false) as Hhave.
  { destruct (is_attr_blank ATTR_LATITUDE s), (is_attr_blank ATTR_LONGITUDE s),
      (is_attr_blank ATTR_HOME_LATITUDE s), (is_attr_blank ATTR_HOME_LONGITUDE s);
      simpl in *; congruence. }
  rewrite Hhave in H0.
  unbind H0 Hlog. apply log_name_inv in Hlog as [-> _].
  apply ret_inv in H0 as [-> ->]. auto.
Qed.
End Passes.

Section Parsing.
Context {B : Builtins} {K : Consts}.

Ltac unbind H Hm :=
  cbv beta zeta in H;
  let a := fresh "a" in
  let s1 := fresh "s" in
  apply bind_inv in H as (a & s1 & Hm & H); cbv beta zeta in H.

Lemma writes_only_copy_address ks key target :
  In target ks -> writes_only ks (copy_address key target).
Proof. intros H. unfold copy_address, sub_has, sub_get. solve_writes. Qed.

Lemma writes_only_copy_first_address ks keys target :
  In target ks -> writes_only ks (copy_first_address keys target).
Proof.
  intros H. induction keys as [|key keys IH]; cbn [copy_first_address].
  - apply writes_only_ret.
  - apply writes_only_bind; [now apply writes_only_copy_address|].
    intros []; [apply writes_only_ret | exact IH].
Qed.

Lemma writes_only_language_loop ks languages :
  In ATTR_PLACE_NAME ks -> writes_only ks (language_loop languages).
Proof.
  intros H. induction languages as [|l languages IH]; cbn [language_loop].
  - apply writes_only_ret.
  - unfold sub_has, sub_get. apply writes_only_bind; [apply writes_only_read_r|].
    intros []; [solve_writes | exact IH].
Qed.

(** X21: [parse_osm_dict], when it returns, has written only place
    attributes: the response itself, the coordinates, the distances, the
    zone and the counter of skipped updates are as they were. *)
Theorem parse_osm_dict_writes_only_the_place (s s' : gmap string value) (u : unit) :
  parse_osm_dict s = Ok (u, s') ->
  same_outside parsed_attributes s s'.
Proof.
  revert s u s'. change (writes_only parsed_attributes parse_osm_dict).
  unfold parse_osm_dict, parsed_attributes, osm_has, osm_get, sub_has, sub_get.
  repeat first
    [ apply writes_only_copy_address; in_list
    | apply writes_only_copy_first_address; in_list
    | apply writes_only_language_loop; in_list
    | writes_step ].
Qed.

(** ** Display options: [do_not_reorder] *)

Lemma plain_option_not_local (o : value) (target_option : option string) :
  plain_option o -> py_in o (VDict (local_names target_option)) = Ok false.
Proof.
  destruct o as [| | | |t| |]; cbn [plain_option]; try contradiction.
  intros Ht. cbn [py_in]. unfold local_names, names_of_locals in *. cbn [In] in Ht.
  assert (Hne : forall x, t <> x -> String.eqb t x = false)
    by (intros x Hx; now apply String.eqb_neq).
  destruct target_option; cbn [app assoc];
    rewrite ?Hne by (intros He; apply Ht; rewrite He; tauto); reflexivity.
Qed.

Lemma reorder_loop_of_plain_options options target_option user_display :
  Forall plain_option options ->
  reorder_loop target_option user_display options = Ok user_display.
Proof.
  intros H. revert target_option. induction H as [|o options Ho _ IH]; intros t.
  - reflexivity.
  - cbn [reorder_loop]. rewrite plain_option_not_local by assumption.
    cbn [rbind]. apply IH.
Qed.

Lemma list_remove_Forall (P : value -> Prop) x l :
  Forall P l -> Forall P (list_remove x l).
Proof.
  induction 1 as [|y l Hy Hl IH]; cbn [list_remove]; [constructor|].
  destruct (py_eq y x); [assumption | now constructor].
Qed.

(** X22: with [do_not_reorder] among the display options the builder
    empties what it has collected and appends an option only when the
    option is the name of one of its local variables; so for options that
    are no such names it returns without writing the state, having only
    removed [do_not_reorder] from the stored list of options. *)
Theorem do_not_reorder_writes_no_state
        (s s' : gmap string value) (u : unit) (options : list value) :
  get_attr ATTR_DISPLAY_OPTIONS s = VList options ->
  existsb (py_eq (VStr "do_not_reorder")) options = true ->
  Forall plain_option options ->
  build_state_from_display_options s = Ok (u, s') ->
  s' = set_attr ATTR_DISPLAY_OPTIONS
         (VList (list_remove (VStr "do_not_reorder") options)) s.
Proof.
  intros Hopts Hin Hplain H.
  unfold build_state_from_display_options in H.
  unbind H Hd. unfold attr, read in Hd. injection Hd as <- <-. rewrite Hopts in H.
  repeat (lazymatch type of H with
          | bind ?m _ ?st = _ =>
              let Hw := fresh "Hw" in
              assert (Hw : writes_only [] m) by solve_writes;
              let Hm := fresh "Hm" in
              unbind H Hm;
              pose proof (writes_nothing_is_same _ _ _ _ Hw Hm); subst; clear Hw
          end).
  match goal with
  | Hm : read_r (fun _ => py_in (VStr "do_not_reorder") _) _ = Ok (?a, _) |- _ =>
      unfold read_r in Hm; cbn [py_in] in Hm; rewrite Hin in Hm; injection Hm as <-
  end.
  unbind H Hreorder. unbind Hreorder Hset. unfold set, write in Hset.
  injection Hset as _ <-.
  unfold read_r in Hreorder.
  rewrite reorder_loop_of_plain_options in Hreorder by now apply list_remove_Forall.
  injection Hreorder as <- <-.
  unbind H Hwhen. cbn [truthy when] in Hwhen. apply ret_inv in Hwhen as [_ ->].
  now apply log_name_inv in H as [-> _].
Qed.

(** ** Formatted place *)

(** X23: [build_formatted_place] never shows the place name: both branches
    of its test for a duplicate set [use_place_name] to [False]. Whatever
    is stored as place name, the formatted place is the same, and so is
    the exception when one is raised. *)
Theorem formatted_place_ignores_the_place_name
        (s : gmap string value) (name : string) (v : value) :
  Forall (fun k => ATTR_PLACE_NAME <> k) formatted_place_inputs ->
  get_attr CONF_NAME s = VStr name ->
  attr_after (build_formatted_place (set_attr ATTR_PLACE_NAME v s)) ATTR_FORMATTED_PLACE
  = attr_after (build_formatted_place s) ATTR_FORMATTED_PLACE.
Proof.
  intros Hapart Hname. unfold formatted_place_inputs in Hapart.
  repeat match goal with
         | H : Forall _ (_ :: _) |- _ =>
             let H1 := fresh "Hne" in apply Forall_cons in H as [H1 H]
         end.
  pose proof (log_name_ok s name Hname) as Hlog.
  assert (Hlog' : log_name (set_attr ATTR_PLACE_NAME v s)
                  = Ok (tt, set_attr ATTR_PLACE_NAME v s)).
  { apply log_name_ok with (name := name). now rewrite get_attr_set_ne. }
  assert (Hfalse : forall (c : bool) st, log_name st = Ok (tt, st) ->
             (if c then bind log_name (fun _ => ret false) else ret false) st
             = Ok (false, st)).
  { intros [] st Hst; [|reflexivity]. unfold bind. now rewrite Hst. }
  unfold build_formatted_place.
  unfold bind at 1 2 3. unfold read at 1 2. cbv beta iota.
  rewrite (Hfalse _ _ Hlog'). cbv beta iota.
  symmetry.
  unfold bind at 1 2 3. unfold read at 1 2. cbv beta iota.
  rewrite (Hfalse _ _ Hlog). cbv beta iota.
  symmetry.
  unfold bind, attr, read, read_r, set, write, in_zone, place_label, place_street,
    place_neighbourhood, place_city, lower_of, strip_of.
  cbn [negb]. cbv beta iota.
  rewrite !get_attr_set_ne, !is_attr_blank_set_ne by assumption.
  repeat match goal with
         | |- attr_after (match (match ?x with _ => _ end) with _ => _ end) _ = _ =>
             destruct x; [|reflexivity]
         end.
  unfold attr_after, set_attr. now rewrite !lookup_insert_eq.
Qed.
End Parsing.

(** ** The entity around the pass *)

Section EntityProperties.
Context {B : Builtins} {K : Consts} {L : Lists}.

Ltac unbind H Hm :=
  cbv beta zeta in H;
  let a := fresh "a" in
  let s1 := fresh "s" in
  apply bind_inv in H as (a & s1 & Hm & H); cbv beta zeta in H.

(** X24: [tsc_update] runs a pass only for a tracked entity that is in the
    state machine and has a latitude and a longitude of which [float]
    returns; for an entity that is not in the state machine, and for a
    blank entity id, it returns without a pass and without touching the
    store. *)
Theorem tsc_update_runs_the_pass_only_with_coordinates
        (E : env) (s : gmap string value) :
  (forall out s',
      tsc_update E s = Ok (Some out, s') ->
      do_update E s = Ok (out, s')
      /\ exists st latitude longitude,
           hass_states_get E (get_attr CONF_DEVICETRACKER_ID s) = Ok (Some st)
           /\ py_float (attributes_get st CONF_LATITUDE) = Ok latitude
           /\ py_float (attributes_get st CONF_LONGITUDE) = Ok longitude)
  /\ (hass_states_get E (get_attr CONF_DEVICETRACKER_ID s) = Ok None ->
      tsc_update E s = Ok (None, s))
  /\ (is_attr_blank CONF_DEVICETRACKER_ID s = true -> tsc_update E s = Ok (None, s)).
Proof.
  split; [|split].
  - intros out s' H. unfold tsc_update in H.
    unbind H Hset. unfold is_devicetracker_set, read_r in Hset.
    match type of Hset with
    | match ?x with _ => _ end = _ => destruct x as [usable|] eqn:Hu; [|discriminate]
    end.
    injection Hset as <- <-.
    destruct usable.
    2:{ apply ret_inv in H as [[=] _]. }
    unbind H Hpass. apply ret_inv in H as [[= <-] ->].
    split; [exact Hpass|].
    destruct (is_attr_blank CONF_DEVICETRACKER_ID s); [discriminate|]. cbn [negb] in Hu.
    destruct (hass_states_get E (get_attr CONF_DEVICETRACKER_ID s)) as [[st|]|];
      try discriminate.
    cbn [rbind] in Hu. exists st.
    destruct (assoc CONF_LATITUDE (st_attributes st)); [|discriminate].
    destruct (assoc CONF_LONGITUDE (st_attributes st)); [|discriminate].
    match type of Hu with (if ?c then _ else _) = _ => destruct c; [|discriminate] end.
    destruct (is_float (attributes_get st CONF_LATITUDE)) as [[|]|] eqn:Hlat;
      try discriminate.
    cbn [rbind] in Hu.
    apply is_float_true in Hlat as [latitude Hlat].
    apply is_float_true in Hu as [longitude Hlon].
    eauto.
  - intros Hnone. unfold tsc_update, bind, is_devicetracker_set, read_r.
    rewrite Hnone.
    destruct (is_attr_blank CONF_DEVICETRACKER_ID s); reflexivity.
  - intros Hblank. unfold tsc_update, bind, is_devicetracker_set, read_r.
    now rewrite Hblank.
Qed.

(** ** State attributes *)

Lemma expose_lookup attrs s acc k :
  expose attrs s acc !! k
  = if existsb (String.eqb k) attrs && truthy (get_attr k s)
    then Some (get_attr k s) else acc !! k.
Proof.
  unfold expose. revert acc. induction attrs as [|a attrs IH]; intros acc; [reflexivity|].
  cbn [fold_left existsb]. rewrite IH.
  destruct (String.eqb_spec k a) as [->|Hne]; cbn [orb].
  - destruct (truthy (get_attr a s)) eqn:Ha.
    + rewrite andb_true_r. rewrite lookup_insert_eq. now destruct (existsb _ attrs).
    + now rewrite andb_false_r.
  - destruct (existsb (String.eqb k) attrs && truthy (get_attr k s)); [reflexivity|].
    destruct (truthy (get_attr a s)); [|reflexivity].
    apply lookup_insert_ne. congruence.
Qed.

Lemma existsb_eqb_In k (l : list string) : existsb (String.eqb k) l = true <-> In k l.
Proof.
  rewrite existsb_exists. split.
  - intros (x & Hx & ->%String.eqb_eq). exact Hx.
  - intros H. exists k. split; [exact H | apply String.eqb_refl].
Qed.

(** X25: the state attributes the sensor shows. Reading them cleans the
    store of its blank entries; every attribute shown is one of the two
    lists and is shown with the value [get_attr] gives; an attribute
    whose value is falsy is never shown, so a counter at [0], a distance
    of [0] and a driving status of [False] do not appear; and a listed
    attribute with a truthy value always appears. *)
Theorem extra_state_attributes_shows_truthy_values (s : gmap string value) :
  exists shown,
    extra_state_attributes s = Ok (shown, cleanup_attributes s)
    /\ (forall k v, shown !! k = Some v ->
                    v = get_attr k s /\ truthy v = true
                    /\ (In k EXTRA_STATE_ATTRIBUTE_LIST \/ In k EXTENDED_ATTRIBUTE_LIST))
    /\ (forall k, truthy (get_attr k s) = false -> shown !! k = None)
    /\ (forall k, In k EXTRA_STATE_ATTRIBUTE_LIST -> truthy (get_attr k s) = true ->
                  shown !! k = Some (get_attr k s)).
Proof.
  assert (Hget : forall k, get_attr k (cleanup_attributes s) = get_attr k s)
    by (intros k; apply cleanup_attributes_read).
  eexists. split; [reflexivity|].
  cbv zeta.
  assert (Hlook : forall k,
    (if truthy (get_attr CONF_EXTENDED_ATTR (cleanup_attributes s))
     then expose EXTENDED_ATTRIBUTE_LIST (cleanup_attributes s)
            (expose EXTRA_STATE_ATTRIBUTE_LIST (cleanup_attributes s) ∅)
     else expose EXTRA_STATE_ATTRIBUTE_LIST (cleanup_attributes s) ∅) !! k
    = if (existsb (String.eqb k) EXTRA_STATE_ATTRIBUTE_LIST
          || truthy (get_attr CONF_EXTENDED_ATTR s)
             && existsb (String.eqb k) EXTENDED_ATTRIBUTE_LIST)
         && truthy (get_attr k s)
      then Some (get_attr k s) else None).
  { intros k. rewrite Hget.
    destruct (truthy (get_attr CONF_EXTENDED_ATTR s)); rewrite !expose_lookup, ?Hget;
      rewrite lookup_empty;
      destruct (existsb (String.eqb k) EXTRA_STATE_ATTRIBUTE_LIST),
               (existsb (String.eqb k) EXTENDED_ATTRIBUTE_LIST),
               (truthy (get_attr k s)); reflexivity. }
  split; [|split].
  - intros k v. rewrite Hlook.
    destruct (existsb (String.eqb k) EXTRA_STATE_ATTRIBUTE_LIST) eqn:H1;
      destruct (existsb (String.eqb k) EXTENDED_ATTRIBUTE_LIST) eqn:H2;
      destruct (truthy (get_attr CONF_EXTENDED_ATTR s));
      destruct (truthy (get_attr k s)) eqn:Ht; cbn [orb andb];
      try discriminate; intros [= <-];
      (split; [reflexivity|]; split; [exact Ht|]);
      first [ left; now apply existsb_eqb_In | right; now apply existsb_eqb_In ].
  - intros k Ht. rewrite Hlook, Ht. now rewrite andb_false_r.
  - intros k Hin Ht. rewrite Hlook, Ht.
    apply existsb_eqb_In in Hin. now rewrite Hin.
Qed.

(** ** Import of the saved attributes *)

Lemma assoc_pop_key a k json :
  assoc k (pop_key a json) = if String.eqb a k then None else assoc k json.
Proof.
  unfold pop_key. induction json as [|[k' v] json IH]; cbn [List.filter assoc fst].
  - now destruct (String.eqb a k).
  - destruct (String.eqb_spec a k') as [->|Hak']; cbn [negb].
    + rewrite IH. destruct (String.eqb_spec k' k) as [->|Hne].
      * reflexivity.
      * destruct (String.eqb_spec k k'); [congruence | reflexivity].
    + cbn [assoc]. rewrite IH.
      destruct (String.eqb_spec k k') as [->|Hkk'].
      * destruct (String.eqb_spec a k'); [contradiction | reflexivity].
      * reflexivity.
Qed.

Lemma import_loop_lookup (l : list string) json (s : gmap string value) k :
  snd (fold_left import_one l (json, s)) !! k
  = match (if existsb (String.eqb k) l then assoc k json else None) with
    | Some v => Some v
    | None => s !! k
    end.
Proof.
  revert json s. induction l as [|a l IH]; intros json s; [reflexivity|].
  cbn [fold_left existsb]. unfold import_one at 2. cbn [fst snd].
  destruct (assoc a json) as [v|] eqn:Ha.
  - rewrite IH. rewrite assoc_pop_key. unfold set_attr.
    destruct (String.eqb_spec k a) as [->|Hne]; cbn [orb].
    + rewrite String.eqb_refl, Ha.
      destruct (existsb (String.eqb a) l); now rewrite lookup_insert_eq.
    + destruct (String.eqb_spec a k); [congruence|].
      rewrite lookup_insert_ne by congruence. reflexivity.
  - rewrite IH. destruct (String.eqb_spec k a) as [->|Hne]; cbn [orb]; [|reflexivity].
    rewrite Ha. now destruct (existsb (String.eqb a) l).
Qed.

(** X26: what the start-up takes from the saved attributes. Nothing, not
    even the clearing of the initial-update flag, when they are [None],
    no dictionary, or the empty dictionary. Else the flag is cleared and
    exactly the attributes of [JSON_ATTRIBUTE_LIST] that the dictionary
    has are stored, with the values it has for them; an attribute outside
    the list is never taken from the file. *)
Theorem import_attributes_from_json_takes_only_the_listed
        (json_attr : value) (s s' : gmap string value) (native : option value) :
  import_attributes_from_json json_attr s = Ok (native, s') ->
  (truthy json_attr = false \/ (forall d, json_attr <> VDict d) -> s' = s /\ native = None)
  /\ (forall d, json_attr = VDict d -> d <> [] ->
        (forall k, ~ In k JSON_ATTRIBUTE_LIST -> k <> ATTR_INITIAL_UPDATE ->
                   s' !! k = s !! k)
        /\ (forall k v, In k JSON_ATTRIBUTE_LIST -> assoc k d = Some v ->
                        s' !! k = Some v)
        /\ (~ In ATTR_INITIAL_UPDATE JSON_ATTRIBUTE_LIST ->
            s' !! ATTR_INITIAL_UPDATE = Some (VBool false))).
Proof.
  intros H. split.
  - intros Hnot.
    assert (Hret : import_attributes_from_json json_attr = ret None).
    { destruct json_attr as [| | | | | |[|e d]]; try reflexivity.
      destruct Hnot as [Hf | Hd]; [discriminate | now elim (Hd (e :: d))]. }
    rewrite Hret in H. apply ret_inv in H as [-> ->]. auto.
  - intros d -> Hd. destruct d as [|e d]; [contradiction|].
    unfold import_attributes_from_json in H.
    unbind H Hset. unfold set, write in Hset. injection Hset as _ <-.
    unbind H Himport. injection Himport as <- <-.
    unbind H Hblank. unfold blank, read in Hblank. injection Hblank as <- <-.
    set (imported := fold_left import_one JSON_ATTRIBUTE_LIST
                       (e :: d, set_attr ATTR_INITIAL_UPDATE (VBool false) s)) in *.
    unbind H Hnative.
    match type of Hnative with
    | _ = Ok (_, ?sx) => assert (sx = snd imported) as ->
    end.
    { match type of Hnative with (if ?c then _ else _) _ = _ => destruct c end.
      - unbind Hnative Hv. unfold attr, read in Hv. injection Hv as <- <-.
        now apply ret_inv in Hnative as [_ ->].
      - now apply ret_inv in Hnative as [_ ->]. }
    unbind H Hlog.
    match type of Hlog with
    | _ = Ok (_, ?sx) => assert (sx = snd imported) as ->
    end.
    { unfold when in Hlog.
      match type of Hlog with (if ?c then _ else _) _ = _ => destruct c end.
      - now apply log_name_inv in Hlog as [-> _].
      - now apply ret_inv in Hlog as [_ ->]. }
    subst imported.
    apply ret_inv in H as [_ ->].
    split; [|split].
    + intros k Hk Hinit. rewrite import_loop_lookup.
      destruct (existsb (String.eqb k) JSON_ATTRIBUTE_LIST) eqn:Hex.
      * apply existsb_eqb_In in Hex. contradiction.
      * unfold set_attr. apply lookup_insert_ne. congruence.
    + intros k v Hk Hv. rewrite import_loop_lookup.
      apply existsb_eqb_In in Hk. now rewrite Hk, Hv.
    + intros Hinit. rewrite import_loop_lookup.
      destruct (existsb (String.eqb ATTR_INITIAL_UPDATE) JSON_ATTRIBUTE_LIST) eqn:Hex.
      * apply existsb_eqb_In in Hex. contradiction.
      * unfold set_attr. apply lookup_insert_eq.
Qed.
End EntityProperties.

(** ** Runs on the stores of the examples *)

(** A closed equation between a run and its result, checked by
    evaluation of both sides. *)
Ltac by_evaluation :=
  lazymatch goal with
  | |- _ = ?r => vm_cast_no_check (@eq_refl _ r)
  end.

Lemma get_dict_from_url_on_json_that_is_no_object_witness :
  get_dict_from_url null_response_env "https://nominatim.openstreetmap.org/reverse"
                    (gate_store (VInt 0) 0)
  = Raise TypeError.
Proof.
  refine (proj1 (proj2 (get_dict_from_url_on_json_that_is_no_object
                          null_response_env _ "phone" "null" (gate_store (VInt 0) 0) VNone
                          _ _ _ _)) (or_intror eq_refl)).
  - apply gate_store_name.
  - reflexivity.
  - discriminate.
  - reflexivity.
Defined.

Lemma get_map_link_falls_back_to_apple_witness :
  exists link,
    get_map_link (gate_store (VInt 0) 0)
    = Ok (tt, set_attr "map_link" (VStr link) (gate_store (VInt 0) 0))
    /\ startswith link "https://maps.apple.com/maps/?q=" = true.
Proof.
  destruct (get_map_link_falls_back_to_apple (K := attribute_names)
              (gate_store (VInt 0) 0) "phone"
              (gate_store_name (VInt 0) 0)) as (link & Hrun & Hlink).
  exists link. split; [exact Hrun|].
  assert (Hp : get_attr CONF_MAP_PROVIDER (gate_store (VInt 0) 0) = VNone)
    by by_evaluation.
  rewrite Hp in Hlink. exact Hlink.
Defined.

Lemma highway_store_not_driving :
  get_driving_status highway_store
  = Ok (tt, set_attr "is_driving" (VBool false) highway_store).
Proof. by_evaluation. Qed.

Lemma never_driving_in_a_zone_or_stationary_witness :
  get_driving_status highway_store
  = Ok (tt, set_attr "is_driving" (VBool false) highway_store)
  /\ exists b,
       set_attr "is_driving" (VBool false) highway_store
       = set_attr ATTR_IS_DRIVING (VBool b) highway_store.
Proof.
  split; [exact highway_store_not_driving|].
  destruct (never_driving_in_a_zone_or_stationary highway_store _ tt
              highway_store_not_driving) as (b & Hb & _).
  exists b. exact Hb.
Defined.

Lemma creeping_accuracy_kept :
  get_gps_accuracy creeping_env creeping_store = Ok (tt, creeping_store).
Proof. by_evaluation. Qed.

Lemma creeping_tracker :
  hass_states_get creeping_env (get_attr CONF_DEVICETRACKER_ID creeping_store)
  = Ok (Some {| st_state := "not_home"; st_name := "Phone";
                st_attributes := [("latitude", VStr "27.0"); ("longitude", VStr "90.0")] |}).
Proof. by_evaluation. Qed.

Lemma get_gps_accuracy_keeps_or_sets_witness :
  exists s',
    get_gps_accuracy creeping_env creeping_store = Ok (tt, s') /\ s' = creeping_store.
Proof.
  exists creeping_store. split; [exact creeping_accuracy_kept|].
  exact (proj2 (get_gps_accuracy_keeps_or_sets creeping_env creeping_store
                  creeping_store tt creeping_accuracy_kept)
               _ creeping_tracker eq_refl).
Defined.

Lemma do_update_stamps_every_completed_pass_witness :
  set_attr "last_updated" (VStr "2023-01-15 10:30:00.000000") creeping_store
    !! ATTR_LAST_UPDATED
  = Some (VStr (now_str creeping_env)).
Proof.
  exact (do_update_stamps_every_completed_pass creeping_env creeping_store _ _
           creeping_pass).
Defined.

Lemma highway_store_not_located :
  update_coordinates_and_distance creeping_env highway_store = Ok (false, highway_store).
Proof. by_evaluation. Qed.

Lemma highway_store_without_coordinates :
  is_attr_blank ATTR_LATITUDE highway_store || is_attr_blank ATTR_LONGITUDE highway_store
  || is_attr_blank ATTR_HOME_LATITUDE highway_store
  || is_attr_blank ATTR_HOME_LONGITUDE highway_store = true.
Proof. by_evaluation. Qed.

Lemma update_coordinates_and_distance_without_coordinates_witness :
  update_coordinates_and_distance creeping_env highway_store = Ok (false, highway_store)
  /\ same_outside location_strings highway_store highway_store.
Proof.
  split; [exact highway_store_not_located|].
  refine (proj2 (update_coordinates_and_distance_without_coordinates
                   creeping_env highway_store highway_store false _
                   highway_store_without_coordinates highway_store_not_located)).
  repeat constructor; cbn [In location_strings]; intuition discriminate.
Defined.

Lemma highway_store_parsed :
  parse_osm_dict highway_store
  = Ok (tt,
        set_attr "place_type" (VStr "motorway")
          (set_attr "place_category" (VStr "highway")
             (set_attr "street" (VStr "Interstate 90")
                (set_attr "street_ref" (VStr "I")
                   (set_attr "native_value" VNone highway_store))))).
Proof. by_evaluation. Qed.

Lemma parse_osm_dict_writes_only_the_place_witness :
  exists s',
    parse_osm_dict highway_store = Ok (tt, s')
    /\ same_outside parsed_attributes highway_store s'.
Proof.
  eexists. split; [exact highway_store_parsed|].
  exact (parse_osm_dict_writes_only_the_place highway_store _ tt highway_store_parsed).
Defined.

Lemma unordered_store_built :
  build_state_from_display_options unordered_store
  = Ok (tt, set_attr "display_options_list" (VList [VStr "street"; VStr "city"])
                     unordered_store).
Proof. by_evaluation. Qed.

Lemma unordered_store_options :
  get_attr ATTR_DISPLAY_OPTIONS unordered_store
  = VList [VStr "street"; VStr "do_not_reorder"; VStr "city"].
Proof. by_evaluation. Qed.

Lemma unordered_store_name : get_attr CONF_NAME unordered_store = VStr "phone".
Proof. by_evaluation. Qed.

Lemma do_not_reorder_writes_no_state_witness :
  exists s',
    build_state_from_display_options unordered_store = Ok (tt, s')
    /\ s' = set_attr ATTR_DISPLAY_OPTIONS (VList [VStr "street"; VStr "city"])
                     unordered_store.
Proof.
  eexists. split; [exact unordered_store_built|].
  refine (do_not_reorder_writes_no_state unordered_store _ tt
            [VStr "street"; VStr "do_not_reorder"; VStr "city"]
            unordered_store_options eq_refl _ unordered_store_built).
  repeat constructor; cbn [plain_option names_of_locals In]; intuition discriminate.
Defined.

Lemma formatted_place_ignores_the_place_name_witness :
  attr_after
    (build_formatted_place (set_attr ATTR_PLACE_NAME (VStr "Town Hall") unordered_store))
    ATTR_FORMATTED_PLACE
  = attr_after (build_formatted_place unordered_store) ATTR_FORMATTED_PLACE.
Proof.
  refine (formatted_place_ignores_the_place_name unordered_store "phone" (VStr "Town Hall")
            _ unordered_store_name).
  repeat constructor; discriminate.
Defined.

Lemma saved_attributes_imported :
  import_attributes_from_json saved_attributes (gate_store (VInt 0) 0)
  = Ok (Some (VStr "Main St, Springfield"),
        set_attr "city" (VStr "Springfield")
          (set_attr "native_value" (VStr "Main St, Springfield")
             (set_attr "initial_update" (VBool false) (gate_store (VInt 0) 0)))).
Proof. by_evaluation. Qed.

Lemma import_attributes_from_json_takes_only_the_listed_witness :
  exists s',
    import_attributes_from_json saved_attributes (gate_store (VInt 0) 0)
    = Ok (Some (VStr "Main St, Springfield"), s')
    /\ s' !! "city" = Some (VStr "Springfield")
    /\ s' !! "name" = gate_store (VInt 0) 0 !! "name".
Proof.
  eexists. split; [exact saved_attributes_imported|].
  destruct (import_attributes_from_json_takes_only_the_listed _ _ _ _
              saved_attributes_imported) as [_ Hd].
  destruct (Hd _ eq_refl ltac:(discriminate)) as (Hother & Hlisted & _).
  split.
  - apply (Hlisted "city"); [cbn; tauto | reflexivity].
  - apply (Hother "name"); [cbn; intuition discriminate | discriminate].
Defined.

(** *** A first pass that gets no dictionary *)

Lemma lookup_clear_attr_eq k (s : gmap string value) : clear_attr k s !! k = None.
Proof. apply lookup_delete_eq. Qed.

Lemma lookup_clear_attr_ne k k' (s : gmap string value) :
  k <> k' -> clear_attr k s !! k' = s !! k'.
Proof. apply lookup_delete_ne. Qed.

Lemma cleanup_set_kept k v (s : gmap string value) :
  blank_value v = false ->
  cleanup_attributes (set_attr k v s) = set_attr k v (cleanup_attributes s).
Proof. intros H. unfold cleanup_attributes, set_attr. now apply map_filter_insert_True. Qed.

Lemma cleanup_clear k (s : gmap string value) :
  cleanup_attributes (clear_attr k s) = clear_attr k (cleanup_attributes s).
Proof. unfold cleanup_attributes, clear_attr. apply map_filter_delete. Qed.

Lemma cleanup_set_dropped k v (s : gmap string value) :
  blank_value v = true ->
  cleanup_attributes (set_attr k v s) = clear_attr k (cleanup_attributes s).
Proof.
  intros H. rewrite <- cleanup_clear. unfold cleanup_attributes, set_attr, clear_attr.
  apply map_filter_insert_False. simpl. now rewrite H.
Qed.

Lemma is_attr_blank_empty_dict k (s : gmap string value) :
  s !! k = Some (VDict []) -> is_attr_blank k s = true.
Proof. intros H. unfold is_attr_blank, lookup_value. now rewrite H. Qed.

Ltac look ::=
  repeat first
    [ rewrite lookup_set_attr_eq
    | rewrite lookup_set_attr_ne by (intro; discriminate)
    | rewrite lookup_clear_attr_eq
    | rewrite lookup_clear_attr_ne by (intro; discriminate) ];
  first [ reflexivity | vm_compute; reflexivity ].

Ltac blank_or_not :=
  first [ reflexivity | apply blank_value_float | apply blank_value_int
        | apply blank_value_bool ].

Ltac first_pass_facts :=
  first
    [ creeping_facts
    | progress
        (repeat first
           [ rewrite cleanup_clear
           | rewrite cleanup_set_kept by blank_or_not
           | rewrite cleanup_set_dropped by blank_or_not
           | rewrite cleanup_creeping ])
    | erewrite is_attr_blank_empty_dict by look ].

Lemma first_pass_without_data :
  exists s', do_update creeping_env first_pass_store = Ok (LeftWithoutData, s').
Proof.
  eexists.
  unfold do_update, check_for_updated_entity_name, tracker_state, get_gps_accuracy,
    get_zone_details, update_coordinates_and_distance, determine_if_update_needed,
    _reset_attributes, get_map_link, get_dict_from_url.
  literal_names.
  run first_pass_facts.
Qed.

Lemma do_update_without_data_keeps_the_reset_witness :
  exists s',
    do_update creeping_env first_pass_store = Ok (LeftWithoutData, s')
    /\ first_pass_store !! "city" = Some (VStr "Springfield")
    /\ s' !! "city" = None
    /\ s' !! ATTR_UPDATES_SKIPPED = Some (VInt 0).
Proof.
  destruct first_pass_without_data as [s' H]. exists s'. split; [exact H|].
  split; [apply lookup_set_attr_eq|].
  destruct (do_update_without_data_keeps_the_reset creeping_env first_pass_store s')
    as [Hzero Hclear]; [cbn; intuition discriminate | exact H |].
  split; [|exact Hzero].
  apply Hclear; cbn; intuition discriminate.
Defined.
